(** * MealMind: expiry-aware inventory and recommendation pipeline

    A shallow embedding of the logic in [src/utils/helpers.ts],
    [src/utils/api.ts] and the storage layer (the AsyncStorage wrapper that
    defines [saveRecipe], [addToRecipeHistory] and [incrementStat]).

    Conventions of the embedding.
    - A JavaScript time value is an integer number of milliseconds ([Z]).
      A number that may be [NaN] (the time value of an Invalid Date and what
      is computed from it) is an [option Z], [None] standing for [NaN].
    - The clock ([new Date()], [Date.now()]) is an explicit argument [now];
      one call of a function reads one instant.
    - [Math.ceil (x / d)] on time values, which are integers far below 2^53,
      is exact ceiling division.  The numbers of the statistics, which are
      added to each other, are IEEE 754 doubles with the addition of the
      language.
    - What the host provides (the date parser, the normalisation to local
      midnight, [JSON.parse], [String], the identifiers of [generateId], the
      answers of the service) is a parameter of the definitions: the general
      theorems hold for every host, and the examples run on one concrete
      host.
    - [Array.prototype.sort] is the stable sort that ECMAScript requires for
      a consistent comparator.  The comparators of the sources subtract day
      counts and are consistent exactly when no day count is NaN; what is
      stated about the order of a sorted list therefore assumes that every
      expiry date parses, or uses only that sorting rearranges.
    - The key-value store is reliable, and writing a collection and reading
      it back returns the same collection.  For a number this is so when JSON
      can hold it: NaN and the infinities are written as [null], the negative
      zero as [0]. *)

From Stdlib Require Import PrimFloat.
From Stdlib Require FloatOps SpecFloat.
From Stdlib Require Import ZArith List String Ascii Bool Lia.
From Stdlib Require Import Permutation Sorted QArith DecimalString.
From Stdlib Require DecimalZ.
Import ListNotations.
Open Scope string_scope.
Open Scope Z_scope.

(** ** JavaScript numbers that may be NaN *)

Module JsNum.

Definition num := option Z.

Definition NaN : num := None.

(** [a - b]: NaN as soon as one operand is. *)
Definition sub (a b : num) : num :=
  match a, b with
  | Some x, Some y => Some (x - y)
  | _, _ => None
  end.

(** [Math.ceil (x / d)] for integers [x] and [d > 0]. *)
Definition ceilDiv (x d : Z) : Z := - ((- x) / d).

Definition ceilDivN (a : num) (d : Z) : num :=
  match a with
  | Some x => Some (ceilDiv x d)
  | None => None
  end.

(** [a <= b] and [a >= b]: every comparison with NaN is false. *)
Definition leb (a : num) (b : Z) : bool :=
  match a with
  | Some x => x <=? b
  | None => false
  end.

Definition geb (a : num) (b : Z) : bool :=
  match a with
  | Some x => b <=? x
  | None => false
  end.

(** [a === b] for a number [b]: NaN equals nothing. *)
Definition eqb (a : num) (b : Z) : bool :=
  match a with
  | Some x => x =? b
  | None => false
  end.

End JsNum.

(** ** JavaScript numbers as IEEE 754 doubles

    The numbers of the statistics are sums of earlier numbers, so their
    rounding matters: they are binary64 floating-point numbers and [a + b] is
    the addition of the processor. *)

Module JsDouble.

Definition number := float.

(** [a + b] *)
Definition add (a b : number) : number := PrimFloat.add a b.

(** The numbers that a JSON text holds as they are: the finite ones, the
    negative zero apart. *)
Definition storable (x : number) : bool :=
  PrimFloat.is_finite x
  && negb (PrimFloat.is_zero x && PrimFloat.get_sign x).

(** The rational number that a finite double stands for:
    [(-1)^s * m * 2^e]. *)
Definition exact (x : number) : option Q :=
  match FloatOps.Prim2SF x with
  | SpecFloat.S754_zero _ => Some 0%Q
  | SpecFloat.S754_finite s m e =>
      let v := if s then Z.neg m else Z.pos m in
      Some (if 0 <=? e then inject_Z (v * 2 ^ e)
            else Qmake v (2 ^ Z.to_pos (- e))%positive)
  | _ => None
  end.

End JsDouble.

(** ** JavaScript values, exceptions and the [||] operator

    What [JSON.parse] returns is untyped at run time: the [any] of the
    sources.  The numbers of a parsed answer are rationals (a JSON text
    holds no NaN); they are compared with zero and copied, the one quotient
    taken of them is of whole numbers. *)

Module Js.

#[local] Set Warnings "-register-all".

Inductive value :=
| VUndefined
| VNull
| VBool (b : bool)
| VNum (q : Q)
| VStr (s : string)
| VArr (items : list value)
| VObj (props : list (string * value)).

Inductive error :=
| TypeError
| RangeError
| SyntaxError
| Error (message : string).

Inductive result (A : Type) :=
| Ok (a : A)
| Throw (e : error).
Arguments Ok {A} a.
Arguments Throw {A} e.

Definition isEmpty (s : string) : bool :=
  match s with
  | EmptyString => true
  | String _ _ => false
  end.

(** ToBoolean *)
Definition truthy (v : value) : bool :=
  match v with
  | VUndefined | VNull => false
  | VBool b => b
  | VNum q => negb (Qnum q =? 0)
  | VStr s => negb (isEmpty s)
  | VArr _ | VObj _ => true
  end.

(** [a || b] *)
Definition orElse (a b : value) : value := if truthy a then a else b.

Fixpoint lookup (k : string) (props : list (string * value)) : value :=
  match props with
  | [] => VUndefined
  | (k', v) :: rest => if String.eqb k k' then v else lookup k rest
  end.

(** [v.k] for the property names the sources read (none of them is a member
    of a built-in prototype): a TypeError on [undefined] and [null], the own
    property of an object, [undefined] otherwise. *)
Definition get (v : value) (k : string) : result value :=
  match v with
  | VUndefined | VNull => Throw TypeError
  | VObj props => Ok (lookup k props)
  | _ => Ok VUndefined
  end.

(** [v.map]: only an array has the method; calling it on anything else is a
    TypeError. *)
Definition asArray (v : value) : result (list value) :=
  match v with
  | VArr items => Ok items
  | _ => Throw TypeError
  end.

(** The regular expression [/\{[\s\S]*\}/]: the span from the first opening
    brace to the last closing brace after it. *)
Fixpoint dropToOpen (s : string) : option string :=
  match s with
  | EmptyString => None
  | String c rest =>
      if Ascii.eqb c "{"%char then Some s else dropToOpen rest
  end.

(** The longest prefix of [s] that ends with a closing brace. *)
Fixpoint upToLastClose (s : string) : option string :=
  match s with
  | EmptyString => None
  | String c rest =>
      match upToLastClose rest with
      | Some r => Some (String c r)
      | None =>
          if Ascii.eqb c "}"%char then Some (String c EmptyString) else None
      end
  end.

Definition matchBraces (text : string) : option string :=
  match dropToOpen text with
  | Some s => upToLastClose s
  | None => None
  end.

(** A computation that draws identifiers from a supply (the counter) and may
    throw: the shape of the [async] functions of [api.ts]. *)
Definition M (A : Type) : Type := nat -> result (A * nat).

Definition ret {A} (a : A) : M A := fun n => Ok (a, n).

Definition throw {A} (e : error) : M A := fun _ => Throw e.

Definition bind {A B} (m : M A) (f : A -> M B) : M B :=
  fun n =>
    match m n with
    | Ok (a, n') => f a n'
    | Throw e => Throw e
    end.

Definition lift {A} (r : result A) : M A :=
  fun n =>
    match r with
    | Ok a => Ok (a, n)
    | Throw e => Throw e
    end.

(** [items.map(f)] for an effectful callback, left to right. *)
Fixpoint mapM {A B} (f : A -> M B) (l : list A) : M (list B) :=
  match l with
  | [] => ret []
  | x :: rest =>
      bind (f x) (fun y => bind (mapM f rest) (fun ys => ret (y :: ys)))
  end.

(** The value a computation returns, the final state of the supply dropped. *)
Definition run {A} (m : M A) (n : nat) : result A :=
  match m n with
  | Ok (a, _) => Ok a
  | Throw e => Throw e
  end.

End Js.

Declare Scope js_scope.
Delimit Scope js_scope with js.
Notation "x <- m ;; k" := (Js.bind m (fun x => k))
  (at level 61, m at next level, right associativity) : js_scope.

(** ** Helpers ([src/utils/helpers.ts]) *)

Module Helpers.
Import JsNum.

Inductive ExpiryStatus := critical | warning | fresh.

(** The [ProductCategory] type ([src/unnamed/part_008], lines 313-323) is a
    union of ten string literals (the keys of the table in
    [getDefaultExpiryDays]); it is erased at run time, where a category is a
    string. *)
Definition ProductCategory := string.

Definition productCategories : list ProductCategory :=
  ["dairy"; "meat"; "vegetables"; "fruits"; "grains";
   "beverages"; "condiments"; "frozen"; "bakery"; "other"].

Definition isProductCategory (s : string) : bool :=
  existsb (String.eqb s) productCategories.

(** The [Product] interface ([src/unnamed/part_008], lines 301-311); the
    optional [imageUri] and [confidence] are [None] when absent. *)
Record Product := mkProduct {
  id : string;
  name : string;
  quantity : string;
  unit : string;
  category : ProductCategory;
  expiryDate : string;
  addedAt : string;
  imageUri : option string;
  confidence : option Q
}.

(** [1000 * 60 * 60 * 24] *)
Definition msPerDay : Z := 1000 * 60 * 60 * 24.

Section WithDate.

(** [Date_parse s] is the time value of [new Date(s)]: [None] when the
    string does not parse (Invalid Date, time value NaN). *)
Variable Date_parse : string -> option Z.

(** [localMidnight t] is the time value of a Date after
    [setHours(0, 0, 0, 0)]: the start of the local calendar day of [t]. *)
Variable localMidnight : Z -> Z.

(** [Date_addDays t n] is the time value of a Date at [t] after
    [setDate(getDate() + n)]. *)
Variable Date_addDays : Z -> Z -> Z.

(** [d.setHours(0,0,0,0); d.getTime()] for [d = new Date(s)]; an Invalid
    Date stays invalid. *)
Definition midnightOf (s : string) : num :=
  match Date_parse s with
  | Some t => Some (localMidnight t)
  | None => None
  end.

Definition getExpiryStatus (now : Z) (expiryDate : string) : ExpiryStatus :=
  let today := Some (localMidnight now) in
  let expiry := midnightOf expiryDate in
  let diffTime := sub expiry today in
  let diffDays := ceilDivN diffTime msPerDay in
  if leb diffDays 3 then critical
  else if leb diffDays 7 then warning
  else fresh.

Definition getDaysUntilExpiry (now : Z) (expiryDate : string) : num :=
  let today := Some (localMidnight now) in
  let expiry := midnightOf expiryDate in
  let diffTime := sub expiry today in
  ceilDivN diffTime msPerDay.

(** *** [Array.prototype.sort]

    For a consistent comparator ECMAScript (2019 and later) fixes the
    result: the elements in comparator order, equal ones in their input
    order.  That result is computed here by a stable insertion sort.  When
    the comparator is not consistent (here: when it returns NaN for some
    pair, which SortCompare treats as [+0]) the order is left to the engine,
    and this function is one possible outcome only: of such an input nothing
    but the rearrangement is to be read off it. *)
Section Sort.

Context {A : Type}.
Variable compareFn : A -> A -> num.

Definition sortCompare (x y : A) : Z :=
  match compareFn x y with
  | Some v => v
  | None => 0
  end.

Fixpoint insert (x : A) (l : list A) : list A :=
  match l with
  | [] => [x]
  | y :: l' => if sortCompare x y <=? 0 then x :: l else y :: insert x l'
  end.

Definition sort (l : list A) : list A := fold_right insert [] l.

End Sort.

(** The comparator [(a, b) => key(a) - key(b)] and the order it induces on
    elements whose keys are numbers. *)
Definition byKey {A : Type} (key : A -> num) (a b : A) : num :=
  sub (key a) (key b).

Definition keyLe {A : Type} (key : A -> num) (a b : A) : Prop :=
  exists x y, key a = Some x /\ key b = Some y /\ x <= y.

Definition sortProductsByExpiry (now : Z) (products : list Product)
  : list Product :=
  sort (fun a b =>
          let daysA := getDaysUntilExpiry now (expiryDate a) in
          let daysB := getDaysUntilExpiry now (expiryDate b) in
          sub daysA daysB)
       products.

Definition getExpiringProducts (now : Z) (products : list Product) (days : Z)
  : list Product :=
  filter (fun product =>
            let daysUntil := getDaysUntilExpiry now (expiryDate product) in
            leb daysUntil days && geb daysUntil 0)
         products.

(** The default of the optional parameter: [days: number = 3]. *)
Definition getExpiringProducts_default (now : Z) (products : list Product)
  : list Product :=
  getExpiringProducts now products 3.

(** [addDaysToDate]: [result.setDate(result.getDate() + days)], with
    [Date_addDays] the host's calendar arithmetic.  A [days] that is not a
    number leaves an Invalid Date. *)
Definition addDaysToDate (date : Z) (days : num) : num :=
  match days with
  | Some n => Some (Date_addDays date n)
  | None => None
  end.

Definition calculateEstimatedSavings (now : Z) (products : list Product) : Z :=
  Z.of_nat (List.length (getExpiringProducts_default now products)) * 150.

End WithDate.

(** The table [defaults] of [getDefaultExpiryDays]. *)
Definition defaults : list (string * Z) :=
  [("dairy", 7); ("meat", 5); ("vegetables", 7); ("fruits", 7);
   ("grains", 180); ("beverages", 30); ("condiments", 90); ("frozen", 90);
   ("bakery", 5); ("other", 14)].

Fixpoint assoc (k : string) (table : list (string * Z)) : option Z :=
  match table with
  | [] => None
  | (k', v) :: rest => if String.eqb k k' then Some v else assoc k rest
  end.

(** [defaults[category]].  The declared parameter type is not checked at run
    time: for a key outside the table the lookup yields [undefined] (or a
    member inherited from [Object.prototype]), which is not a number and
    turns the arithmetic of the caller into NaN; that is [None]. *)
Definition getDefaultExpiryDays (category : string) : num :=
  assoc category defaults.

End Helpers.

(** ** Calls to the generation service ([src/utils/api.ts]) *)

Module Api.
Import JsNum Js.
Local Open Scope js_scope.

(** The object literal that [analyzeImageWithGemini] builds for each entry of
    the response.  The source types it [Product] through unchecked casts
    ([p: any], [p.category as ProductCategory]); the fields copied from the
    response hold whatever value was found there. *)
Record ProductObject := mkProductObject {
  po_id : string;
  po_name : value;
  po_quantity : string;
  po_unit : value;
  po_category : value;
  po_expiryDate : string;
  po_addedAt : string;
  po_confidence : value
}.

(** The [Recipe] interface ([src/unnamed/part_008], lines 327-341); the
    optional [imageUri], [rating] and [savedAt] are [None] when absent.  The
    fields that [generateRecipeWithGemini] copies from a parsed response are
    run-time values. *)
Record Recipe := mkRecipe {
  id : string;
  title : value;
  description : value;
  imageUri : option string;
  cookTime : value;
  servings : value;
  difficulty : value;
  ingredients : value;
  instructions : value;
  usesExpiringProducts : value;
  rating : option Q;
  generatedAt : string;
  savedAt : option string
}.

Record Preferences := mkPreferences {
  pref_servings : option Q;
  pref_maxTime : option Q;
  pref_difficulty : option string
}.

Inductive Budget := economy | standard | premium.

Record ShoppingEntry := mkShoppingEntry {
  se_id : string;
  se_name : value;
  se_quantity : value;
  se_unit : value;
  se_category : value;
  se_checked : bool;
  se_addedAt : string
}.

Record GuestMenuResult := mkGuestMenuResult {
  appetizers : list Recipe;
  mains : list Recipe;
  desserts : list Recipe;
  beverages : value;
  shoppingList : list ShoppingEntry;
  totalCost : value;
  perPersonCost : value
}.

(** What the HTTP exchange with the service amounts to for the caller. *)
Inductive Fetched :=
| FetchFailed (e : error)
    (** [fetch] or [response.json()] rejected *)
| FetchNotOk (message : string)
    (** [!response.ok]; the message is [errorData.error?.message || "Ошибка API"] *)
| FetchText (textResponse : value)
    (** [data.candidates?.[0]?.content?.parts?.[0]?.text] *).

Definition nl : string := String (ascii_of_nat 10) EmptyString.

Fixpoint join (sep : string) (l : list string) : string :=
  match l with
  | [] => EmptyString
  | [x] => x
  | x :: rest => x ++ sep ++ join sep rest
  end.

Definition truthyNum (o : option Q) : bool :=
  match o with
  | Some q => negb (Qnum q =? 0)
  | None => false
  end.

Definition truthyStr (o : option string) : bool :=
  match o with
  | Some s => negb (isEmpty s)
  | None => false
  end.

Definition budgetRanges (budget : Budget) : Z * Z :=
  match budget with
  | economy => (650, 1100)
  | standard => (1100, 1800)
  | premium => (1800, 3000)
  end.

Section WithService.

Variable Date_parse : string -> option Z.
Variable Date_addDays : Z -> Z -> Z.

(** [new Date(t).toISOString()] for a valid time value. *)
Variable Date_toISOString : Z -> string.

(** [JSON.parse]; it throws a SyntaxError on malformed text. *)
Variable JSON_parse : string -> result value.

(** [String(v)] and the conversion of a number inside a template literal. *)
Variable ToString : value -> string.

(** The [n]-th identifier that [generateId] produces. *)
Variable freshId : nat -> string.

(** The service: what comes back for a key, a prompt and an optional image. *)
Variable fetchGemini : string -> string -> option string -> Fetched.

(** The fixed texts of the prompts; the parts interpolated into the recipe
    prompt are built below, the guest-menu template takes its five
    interpolated values (guest count, city, the two ends of the band and the
    total budget). *)
Variable analyzePrompt : string.
Variable recipePromptIntro recipePromptFormat : string.
Variable guestMenuPrompt : string -> string -> string -> string -> string -> string.

Definition generateId : M string := fun n => Ok (freshId n, S n).

(** [toISOString] throws a RangeError on an Invalid Date. *)
Definition toISOString (d : num) : result string :=
  match d with
  | Some t => Ok (Date_toISOString t)
  | None => Throw RangeError
  end.

(** The key under which a value is looked up in an object. *)
Definition toPropertyKey (v : value) : string :=
  match v with
  | VStr s => s
  | _ => ToString v
  end.

(** The steps shared by the three calls: the missing key, the failed
    exchange, the empty answer and the search for the embedded object.
    [textResponse.match] exists on strings only. *)
Definition embeddedJson (apiKey prompt : string) (image : option string)
    (noMatch : string) : result value :=
  if isEmpty apiKey then Throw (Error "API ключ не настроен")
  else
    match fetchGemini apiKey prompt image with
    | FetchFailed e => Throw e
    | FetchNotOk message => Throw (Error message)
    | FetchText textResponse =>
        if negb (truthy textResponse) then Throw (Error "Пустой ответ от API")
        else
          match textResponse with
          | VStr text =>
              match matchBraces text with
              | None => Throw (Error noMatch)
              | Some jsonMatch => JSON_parse jsonMatch
              end
          | _ => Throw TypeError
          end
    end.

Definition productOfEntry (now : Z) (p : value) : M ProductObject :=
  id <- generateId ;;
  name <- lift (get p "name") ;;
  quantity <- lift (get p "quantity") ;;
  unit <- lift (get p "unit") ;;
  category <- lift (get p "category") ;;
  expiryDate <- lift (toISOString
                        (Helpers.addDaysToDate Date_addDays now
                           (Helpers.getDefaultExpiryDays
                              (toPropertyKey (orElse category (VStr "other")))))) ;;
  confidence <- lift (get p "confidence") ;;
  ret {| po_id := id;
         po_name := orElse name (VStr "Неизвестный продукт");
         po_quantity := ToString (orElse quantity (VStr "1"));
         po_unit := orElse unit (VStr "шт");
         po_category := orElse category (VStr "other");
         po_expiryDate := expiryDate;
         po_addedAt := Date_toISOString now;
         po_confidence := orElse confidence (VNum (8 # 10)) |}.

Definition analyzeImageWithGemini (imageBase64 apiKey : string) (now : Z)
  : M (list ProductObject) :=
  parsed <- lift (embeddedJson apiKey analyzePrompt (Some imageBase64)
                    "Не удалось распознать продукты") ;;
  products <- lift (get parsed "products") ;;
  entries <- lift (asArray (orElse products (VArr []))) ;;
  mapM (productOfEntry now) entries.

(** The constant [expiringProducts] of [generateRecipeWithGemini]: no
    normalisation to midnight here, the difference is taken from the current
    instant. *)
Definition expiringProducts (now : Z) (products : list Helpers.Product)
  : list string :=
  map Helpers.name
    (filter (fun p =>
               let days :=
                 ceilDivN (sub (Date_parse (Helpers.expiryDate p)) (Some now))
                          Helpers.msPerDay in
               leb days 3)
            products).

Definition productList (products : list Helpers.Product) : string :=
  join nl
    (map (fun p => "- " ++ Helpers.name p ++ " (" ++ Helpers.quantity p
                   ++ " " ++ Helpers.unit p ++ ")")
         products).

Definition servingsOf (preferences : option Preferences) : option Q :=
  match preferences with
  | Some pr => pref_servings pr
  | None => None
  end.

Definition recipePrompt (now : Z) (products : list Helpers.Product)
    (preferences : option Preferences) : string :=
  let expiring := expiringProducts now products in
  let maxTime := match preferences with Some pr => pref_maxTime pr | None => None end in
  let difficulty := match preferences with Some pr => pref_difficulty pr | None => None end in
  recipePromptIntro ++ nl ++ nl ++ productList products ++ nl ++ nl
  ++ (if (0 <? List.length expiring)%nat
      then "ВАЖНО: Приоритетно используй продукты, которые скоро испортятся: "
           ++ join ", " expiring
      else EmptyString)
  ++ nl ++ nl
  ++ (if truthyNum (servingsOf preferences)
      then "Порций: " ++ match servingsOf preferences with
                         | Some q => ToString (VNum q)
                         | None => EmptyString
                         end
      else "Порций: 4")
  ++ nl
  ++ (if truthyNum maxTime
      then "Максимальное время: "
           ++ match maxTime with Some q => ToString (VNum q) | None => EmptyString end
           ++ " минут"
      else EmptyString)
  ++ nl
  ++ (if truthyStr difficulty
      then "Сложность: " ++ match difficulty with Some d => d | None => EmptyString end
      else EmptyString)
  ++ nl ++ nl ++ recipePromptFormat.

Definition generateRecipeWithGemini (products : list Helpers.Product)
    (apiKey : string) (preferences : option Preferences) (now : Z) : M Recipe :=
  let expiring := expiringProducts now products in
  let prompt := recipePrompt now products preferences in
  parsed <- lift (embeddedJson apiKey prompt None
                    "Не удалось сгенерировать рецепт") ;;
  title <- lift (get parsed "title") ;;
  id <- generateId ;;
  description <- lift (get parsed "description") ;;
  cookTime <- lift (get parsed "cookTime") ;;
  servings <- lift (get parsed "servings") ;;
  difficulty <- lift (get parsed "difficulty") ;;
  ingredients <- lift (get parsed "ingredients") ;;
  instructions <- lift (get parsed "instructions") ;;
  uses <- lift (get parsed "usesExpiringProducts") ;;
  ret {| id := id;
         title := orElse title (VStr "Новый рецепт");
         description := orElse description (VStr EmptyString);
         imageUri := None;
         cookTime := orElse cookTime (VNum 30);
         servings := orElse servings (VNum 4);
         difficulty := orElse difficulty (VStr "medium");
         ingredients := orElse ingredients (VArr []);
         instructions := orElse instructions (VArr []);
         usesExpiringProducts := orElse uses (VArr (map VStr expiring));
         rating := None;
         generatedAt := Date_toISOString now;
         savedAt := None |}.

(** [processRecipes] of [generateGuestMenuWithGemini] *)
Definition processRecipe (guestCount : Q) (now : Z) (item : value) : M Recipe :=
  id <- generateId ;;
  title <- lift (get item "title") ;;
  description <- lift (get item "description") ;;
  cookTime <- lift (get item "cookTime") ;;
  servings <- lift (get item "servings") ;;
  difficulty <- lift (get item "difficulty") ;;
  ingredients <- lift (get item "ingredients") ;;
  instructions <- lift (get item "instructions") ;;
  ret {| id := id;
         title := orElse title (VStr "Блюдо");
         description := orElse description (VStr EmptyString);
         imageUri := None;
         cookTime := orElse cookTime (VNum 30);
         servings := orElse servings (VNum guestCount);
         difficulty := orElse difficulty (VStr "medium");
         ingredients := orElse ingredients (VArr []);
         instructions := orElse instructions (VArr []);
         usesExpiringProducts := VArr [];
         rating := None;
         generatedAt := Date_toISOString now;
         savedAt := None |}.

Definition processRecipes (guestCount : Q) (now : Z) (items : value)
  : M (list Recipe) :=
  entries <- lift (asArray (orElse items (VArr []))) ;;
  mapM (processRecipe guestCount now) entries.

Definition shoppingEntry (now : Z) (item : value) : M ShoppingEntry :=
  id <- generateId ;;
  name <- lift (get item "name") ;;
  quantity <- lift (get item "quantity") ;;
  unit <- lift (get item "unit") ;;
  category <- lift (get item "category") ;;
  ret {| se_id := id;
         se_name := name;
         se_quantity := orElse quantity (VStr "1");
         se_unit := orElse unit (VStr "шт");
         se_category := orElse category (VStr "other");
         se_checked := false;
         se_addedAt := Date_toISOString now |}.

Definition targetCostPerPerson (budget : Budget) : Q :=
  let range := budgetRanges budget in
  (inject_Z (fst range + snd range) / 2)%Q.

Definition totalBudget (guestCount : Q) (budget : Budget) : Q :=
  (targetCostPerPerson budget * guestCount)%Q.

Definition guestPrompt (guestCount : Q) (budget : Budget) (city : string)
  : string :=
  let range := budgetRanges budget in
  guestMenuPrompt (ToString (VNum guestCount)) city
    (ToString (VNum (inject_Z (fst range))))
    (ToString (VNum (inject_Z (snd range))))
    (ToString (VNum (totalBudget guestCount budget))).

Definition generateGuestMenuWithGemini (guestCount : Q) (budget : Budget)
    (city apiKey : string) (now : Z) : M GuestMenuResult :=
  let prompt := guestPrompt guestCount budget city in
  parsed <- lift (embeddedJson apiKey prompt None
                    "Не удалось сгенерировать меню") ;;
  list <- lift (get parsed "shoppingList") ;;
  entries <- lift (asArray (orElse list (VArr []))) ;;
  shopping <- mapM (shoppingEntry now) entries ;;
  appetizers <- lift (get parsed "appetizers") ;;
  appetizers' <- processRecipes guestCount now appetizers ;;
  mains <- lift (get parsed "mains") ;;
  mains' <- processRecipes guestCount now mains ;;
  desserts <- lift (get parsed "desserts") ;;
  desserts' <- processRecipes guestCount now desserts ;;
  beverages <- lift (get parsed "beverages") ;;
  totalCost <- lift (get parsed "totalCost") ;;
  perPersonCost <- lift (get parsed "perPersonCost") ;;
  ret {| appetizers := appetizers';
         mains := mains';
         desserts := desserts';
         beverages := orElse beverages (VArr []);
         shoppingList := shopping;
         totalCost := orElse totalCost (VNum (totalBudget guestCount budget));
         perPersonCost := orElse perPersonCost (VNum (targetCostPerPerson budget)) |}.

End WithService.

End Api.

(** ** The storage layer (AsyncStorage wrapper)

    The store is a reliable key-value collaborator: every read and write
    succeeds, and the JSON round trip of a stored collection is the identity
    (for a number: when it is [storable]).  A slot is [None] while its key
    has never been written. *)

Module Storage.
Import Api.

Record UserStats := mkUserStats {
  moneySaved : JsDouble.number;
  timeSaved : JsDouble.number;
  wastePrevented : JsDouble.number;
  recipesGenerated : JsDouble.number;
  productsScanned : JsDouble.number;
  lastUpdated : string
}.

(** [Partial<UserStats>] *)
Record PartialUserStats := mkPartialUserStats {
  p_moneySaved : option JsDouble.number;
  p_timeSaved : option JsDouble.number;
  p_wastePrevented : option JsDouble.number;
  p_recipesGenerated : option JsDouble.number;
  p_productsScanned : option JsDouble.number;
  p_lastUpdated : option string
}.

(** The keys that [incrementStat] accepts. *)
Inductive StatKey :=
| KMoneySaved | KTimeSaved | KWastePrevented
| KRecipesGenerated | KProductsScanned.

Record Store := mkStore {
  SAVED_RECIPES : option (list Recipe);
  RECIPE_HISTORY : option (list Recipe);
  USER_STATS : option UserStats
}.

(** [defaultStats]; its time stamp is taken when the module is loaded. *)
Definition defaultStats (loadedAt : string) : UserStats :=
  {| moneySaved := 2450%float;
     timeSaved := 180%float;
     wastePrevented := 12.5%float;
     recipesGenerated := 8%float;
     productsScanned := 47%float;
     lastUpdated := loadedAt |}.

Definition getSavedRecipes (st : Store) : list Recipe :=
  match SAVED_RECIPES st with
  | Some data => data
  | None => []
  end.

Definition setSavedRecipes (recipes : list Recipe) (st : Store) : Store :=
  {| SAVED_RECIPES := Some recipes;
     RECIPE_HISTORY := RECIPE_HISTORY st;
     USER_STATS := USER_STATS st |}.

(** [{ ...recipe, savedAt: timestamp }] *)
Definition withSavedAt (recipe : Recipe) (timestamp : string) : Recipe :=
  {| id := id recipe;
     title := title recipe;
     description := description recipe;
     imageUri := imageUri recipe;
     cookTime := cookTime recipe;
     servings := servings recipe;
     difficulty := difficulty recipe;
     ingredients := ingredients recipe;
     instructions := instructions recipe;
     usesExpiringProducts := usesExpiringProducts recipe;
     rating := rating recipe;
     generatedAt := generatedAt recipe;
     savedAt := Some timestamp |}.

(** [timestamp] is [new Date().toISOString()] at the time of the call. *)
Definition saveRecipe (recipe : Recipe) (timestamp : string) (st : Store)
  : Store :=
  let recipes := getSavedRecipes st in
  let exists_ := existsb (fun r => String.eqb (id r) (id recipe)) recipes in
  if negb exists_
  then setSavedRecipes (withSavedAt recipe timestamp :: recipes) st
  else st.

Definition removeSavedRecipe (recipeId : string) (st : Store) : Store :=
  let recipes := getSavedRecipes st in
  let filtered := filter (fun r => negb (String.eqb (id r) recipeId)) recipes in
  setSavedRecipes filtered st.

Definition getRecipeHistory (st : Store) : list Recipe :=
  match RECIPE_HISTORY st with
  | Some data => data
  | None => []
  end.

Definition addToRecipeHistory (recipe : Recipe) (st : Store) : Store :=
  let history := getRecipeHistory st in
  let filtered := filter (fun r => negb (String.eqb (id r) (id recipe))) history in
  let filtered := recipe :: filtered in
  let trimmed := firstn 50 filtered in
  {| SAVED_RECIPES := SAVED_RECIPES st;
     RECIPE_HISTORY := Some trimmed;
     USER_STATS := USER_STATS st |}.

(** The stores that the program can be in, as far as the history goes: the
    history key is written by [addToRecipeHistory] only ([clearAllData]
    removes it, which leaves a store without the key), and every other
    operation leaves it as it is. *)
Inductive Reachable : Store -> Prop :=
| reach_blank st :
    RECIPE_HISTORY st = None -> Reachable st
| reach_add recipe st :
    Reachable st -> Reachable (addToRecipeHistory recipe st)
| reach_other st st' :
    Reachable st -> RECIPE_HISTORY st' = RECIPE_HISTORY st -> Reachable st'.

Definition getUserStats (loadedAt : string) (st : Store) : UserStats :=
  match USER_STATS st with
  | Some data => data
  | None => defaultStats loadedAt
  end.

Definition override {A} (old : A) (new : option A) : A :=
  match new with
  | Some a => a
  | None => old
  end.

(** [{ ...stats, ...updates, lastUpdated: timestamp }] *)
Definition updateUserStats (loadedAt : string) (updates : PartialUserStats)
    (timestamp : string) (st : Store) : Store :=
  let stats := getUserStats loadedAt st in
  let newStats :=
    {| moneySaved := override (moneySaved stats) (p_moneySaved updates);
       timeSaved := override (timeSaved stats) (p_timeSaved updates);
       wastePrevented := override (wastePrevented stats) (p_wastePrevented updates);
       recipesGenerated :=
         override (recipesGenerated stats) (p_recipesGenerated updates);
       productsScanned :=
         override (productsScanned stats) (p_productsScanned updates);
       lastUpdated := timestamp |} in
  {| SAVED_RECIPES := SAVED_RECIPES st;
     RECIPE_HISTORY := RECIPE_HISTORY st;
     USER_STATS := Some newStats |}.

(** [stats[key]] *)
Definition statOf (key : StatKey) (stats : UserStats) : JsDouble.number :=
  match key with
  | KMoneySaved => moneySaved stats
  | KTimeSaved => timeSaved stats
  | KWastePrevented => wastePrevented stats
  | KRecipesGenerated => recipesGenerated stats
  | KProductsScanned => productsScanned stats
  end.

(** [{ [key]: v }] *)
Definition single (key : StatKey) (v : JsDouble.number) : PartialUserStats :=
  let at_ k := match key, k with
               | KMoneySaved, KMoneySaved
               | KTimeSaved, KTimeSaved
               | KWastePrevented, KWastePrevented
               | KRecipesGenerated, KRecipesGenerated
               | KProductsScanned, KProductsScanned => Some v
               | _, _ => None
               end in
  {| p_moneySaved := at_ KMoneySaved;
     p_timeSaved := at_ KTimeSaved;
     p_wastePrevented := at_ KWastePrevented;
     p_recipesGenerated := at_ KRecipesGenerated;
     p_productsScanned := at_ KProductsScanned;
     p_lastUpdated := None |}.

(** [amount] defaults to 1 in the source; [stats[key] + amount] is an
    addition of doubles. *)
Definition incrementStat (loadedAt : string) (key : StatKey)
    (amount : JsDouble.number) (timestamp : string) (st : Store) : Store :=
  let stats := getUserStats loadedAt st in
  updateUserStats loadedAt (single key (JsDouble.add (statOf key stats) amount))
    timestamp st.

End Storage.

(** ** A concrete host

    One instance of the parameters above, used to run the definitions on
    examples: a device whose time zone is UTC and a date parser for the two
    ISO 8601 forms [YYYY-MM-DD] and [YYYY-MM-DDTHH:mm:ss.sssZ] (the form that
    [toISOString] writes).  Any other text is an Invalid Date here. *)

Module Host.
Import JsNum.

Definition utcMidnight (t : Z) : Z := t - t mod Helpers.msPerDay.

Definition addDaysUtc (t n : Z) : Z := t + n * Helpers.msPerDay.

Definition digit (c : ascii) : option Z :=
  let n := Z.of_nat (nat_of_ascii c) in
  if (48 <=? n) && (n <=? 57) then Some (n - 48) else None.

(** Reads exactly [n] decimal digits. *)
Fixpoint digits (n : nat) (s : string) (acc : Z) : option (Z * string) :=
  match n with
  | O => Some (acc, s)
  | S n' =>
      match s with
      | String c rest =>
          match digit c with
          | Some d => digits n' rest (acc * 10 + d)
          | None => None
          end
      | EmptyString => None
      end
  end.

Definition expect (c : ascii) (s : string) : option string :=
  match s with
  | String c' rest => if Ascii.eqb c c' then Some rest else None
  | EmptyString => None
  end.

Definition isLeap (y : Z) : bool :=
  ((y mod 4 =? 0) && negb (y mod 100 =? 0)) || (y mod 400 =? 0).

Definition daysInMonth (y m : Z) : Z :=
  if m =? 2 then (if isLeap y then 29 else 28)
  else if (m =? 4) || (m =? 6) || (m =? 9) || (m =? 11) then 30
  else 31.

(** Days from 1970-01-01 to the civil date [y]-[m]-[d] (proleptic
    Gregorian calendar). *)
Definition daysFromCivil (y m d : Z) : Z :=
  let y' := if m <=? 2 then y - 1 else y in
  let era := y' / 400 in
  let yoe := y' - era * 400 in
  let mp := if 2 <? m then m - 3 else m + 9 in
  let doy := (153 * mp + 2) / 5 + d - 1 in
  let doe := yoe * 365 + yoe / 4 - yoe / 100 + doy in
  era * 146097 + doe - 719468.

Definition bindO {A B} (o : option A) (f : A -> option B) : option B :=
  match o with
  | Some a => f a
  | None => None
  end.

Definition field (n : nat) (sep : option ascii) (s : string)
  : option (Z * string) :=
  bindO (match sep with
         | Some c => expect c s
         | None => Some s
         end)
        (fun s' => digits n s' 0).

Definition timeOfDay (s : string) : option Z :=
  bindO (field 2 (Some "T"%char) s) (fun '(hh, s1) =>
  bindO (field 2 (Some ":"%char) s1) (fun '(mi, s2) =>
  bindO (field 2 (Some ":"%char) s2) (fun '(ss, s3) =>
  bindO (field 3 (Some "."%char) s3) (fun '(ms, s4) =>
  bindO (expect "Z"%char s4) (fun s5 =>
    match s5 with
    | EmptyString =>
        if (hh <? 24) && (mi <? 60) && (ss <? 60)
        then Some (((hh * 60 + mi) * 60 + ss) * 1000 + ms)
        else None
    | String _ _ => None
    end))))).

Definition isoParse (s : string) : option Z :=
  bindO (field 4 None s) (fun '(y, s1) =>
  bindO (field 2 (Some "-"%char) s1) (fun '(m, s2) =>
  bindO (field 2 (Some "-"%char) s2) (fun '(d, s3) =>
    if (1 <=? m) && (m <=? 12) && (1 <=? d) && (d <=? daysInMonth y m)
    then
      let day := daysFromCivil y m d * Helpers.msPerDay in
      match s3 with
      | EmptyString => Some day
      | String _ _ => bindO (timeOfDay s3) (fun t => Some (day + t))
      end
    else None))).

(** [toISOString] in UTC: the inverse of [daysFromCivil], then the time of
    day, each field padded with zeros. *)
Definition civilFromDays (z : Z) : Z * Z * Z :=
  let z := z + 719468 in
  let era := z / 146097 in
  let doe := z - era * 146097 in
  let yoe := (doe - doe / 1460 + doe / 36524 - doe / 146096) / 365 in
  let doy := doe - (365 * yoe + yoe / 4 - yoe / 100) in
  let mp := (5 * doy + 2) / 153 in
  let d := doy - (153 * mp + 2) / 5 + 1 in
  let m := if mp <? 10 then mp + 3 else mp - 9 in
  let y := yoe + era * 400 + (if m <=? 2 then 1 else 0) in
  (y, m, d).

Definition showZ (z : Z) : string := NilZero.string_of_int (Z.to_int z).

Fixpoint zeros (n : nat) : string :=
  match n with
  | O => EmptyString
  | S n' => String "0"%char (zeros n')
  end.

Definition pad (width : nat) (z : Z) : string :=
  let s := showZ z in
  zeros (width - String.length s) ++ s.

Definition toISO (t : Z) : string :=
  let '(y, m, d) := civilFromDays (t / Helpers.msPerDay) in
  let r := t mod Helpers.msPerDay in
  pad 4 y ++ "-" ++ pad 2 m ++ "-" ++ pad 2 d ++ "T"
  ++ pad 2 (r / 3600000) ++ ":" ++ pad 2 (r / 60000 mod 60) ++ ":"
  ++ pad 2 (r / 1000 mod 60) ++ "." ++ pad 3 (r mod 1000) ++ "Z".

(** [String(v)] on the values the examples convert: strings, whole numbers
    and the constants. *)
Definition toStr (v : Js.value) : string :=
  match v with
  | Js.VStr s => s
  | Js.VNum q => if (Zpos (Qden q) =? 1) then showZ (Qnum q) else "NaN"
  | Js.VBool true => "true"
  | Js.VBool false => "false"
  | Js.VNull => "null"
  | Js.VUndefined => "undefined"
  | Js.VArr _ => EmptyString
  | Js.VObj _ => "[object Object]"
  end.

Definition freshId (n : nat) : string := "id" ++ showZ (Z.of_nat n).

End Host.

(** ** Sample data

    The instant is 2026-11-02T10:15:00.000Z. *)

Module Sample.
Import Helpers.

Definition now : Z := 1793614500000.

Definition product (id name expiryDate : string) : Product :=
  {| id := id; name := name; quantity := "1"; unit := "шт";
     category := "other"; expiryDate := expiryDate;
     addedAt := "2026-11-01T09:00:00.000Z"; imageUri := None;
     confidence := None |}.

Definition milk := product "p1" "Milk" "2026-11-04T08:00:00.000Z".
Definition bread := product "p2" "Bread" "2026-11-04T20:00:00.000Z".
Definition yogurt := product "p3" "Yogurt" "2026-11-01T12:00:00.000Z".
Definition cheese := product "p4" "Cheese" "2026-11-07T08:00:00.000Z".
Definition rice := product "p5" "Rice" "2027-03-01".
Definition eggs := product "p6" "Eggs" "2026-11-05T23:00:00.000Z".

Definition fridge : list Product := [rice; milk; cheese; bread; yogurt].


(** *** A scripted service

    The service answers every request with one fixed text, and [JSON.parse]
    is given on the objects embedded in the sample answers. *)

Definition q : string := String (ascii_of_nat 34) EmptyString.

Definition quoted (s : string) : string := q ++ s ++ q.

Definition answers (text : string) (_ _ : string) (_ : option string)
  : Api.Fetched :=
  Api.FetchText (Js.VStr text).

(** [{"title":"Суп","ingredients":[],"instructions":[]}] inside prose *)
Definition soupJson : string :=
  "{" ++ quoted "title" ++ ":" ++ quoted "Суп" ++ ","
  ++ quoted "ingredients" ++ ":[]," ++ quoted "instructions" ++ ":[]}".

Definition soupText : string :=
  "Вот ваш рецепт: " ++ soupJson ++ " Приятного аппетита!".

Definition soupObject : Js.value :=
  Js.VObj [("title", Js.VStr "Суп");
           ("ingredients", Js.VArr []);
           ("instructions", Js.VArr [])].

(** [{"products":[{"name":"Краб","category":"seafood"}]}] *)
Definition crabJson : string :=
  "{" ++ quoted "products" ++ ":[{" ++ quoted "name" ++ ":" ++ quoted "Краб"
  ++ "," ++ quoted "category" ++ ":" ++ quoted "seafood" ++ "}]}".

Definition crabObject : Js.value :=
  Js.VObj [("products",
            Js.VArr [Js.VObj [("name", Js.VStr "Краб");
                              ("category", Js.VStr "seafood")]])].

(** [{"products":[{"name":"Кефир","category":"dairy"},{"name":"Соль"}]}] *)
Definition kefirJson : string :=
  "{" ++ quoted "products" ++ ":[{" ++ quoted "name" ++ ":" ++ quoted "Кефир"
  ++ "," ++ quoted "category" ++ ":" ++ quoted "dairy" ++ "},{"
  ++ quoted "name" ++ ":" ++ quoted "Соль" ++ "}]}".

Definition kefirObject : Js.value :=
  Js.VObj [("products",
            Js.VArr [Js.VObj [("name", Js.VStr "Кефир");
                              ("category", Js.VStr "dairy")];
                     Js.VObj [("name", Js.VStr "Соль")]])].

(** [{"totalCost":5000}] *)
Definition costJson : string := "{" ++ quoted "totalCost" ++ ":5000}".

Definition costObject : Js.value := Js.VObj [("totalCost", Js.VNum 5000)].

(** [{}] *)
Definition emptyJson : string := "{}".

Definition parseTable : list (string * Js.value) :=
  [(soupJson, soupObject); (crabJson, crabObject); (kefirJson, kefirObject);
   (costJson, costObject); (emptyJson, Js.VObj [])].

Fixpoint parseWith (table : list (string * Js.value)) (text : string)
  : Js.result Js.value :=
  match table with
  | [] => Js.Throw Js.SyntaxError
  | (t, v) :: rest => if String.eqb text t then Js.Ok v else parseWith rest text
  end.

Definition JSON_parse : string -> Js.result Js.value := parseWith parseTable.

Definition analyzePrompt : string :=
  "Analyze this refrigerator/kitchen image and identify all visible food products.".

Definition recipePromptIntro : string :=
  "Ты - профессиональный шеф-повар. Создай рецепт на русском языке, используя эти продукты:".

Definition recipePromptFormat : string :=
  "Инструкции должны быть подробными и понятными.".

Definition guestMenuPrompt (guests city rangeMin rangeMax budget : string)
  : string :=
  "Меню для " ++ guests ++ " гостей, город " ++ city ++ ", бюджет "
  ++ rangeMin ++ "-" ++ rangeMax ++ " сом, всего " ++ budget ++ " сом".


Definition analyzeImage (text : string) : Js.result (list Api.ProductObject) :=
  Js.run (Api.analyzeImageWithGemini Host.addDaysUtc Host.toISO JSON_parse
            Host.toStr Host.freshId (answers text) analyzePrompt
            "aW1hZ2U=" "key" now) 0.

Definition generateRecipe (text : string) (products : list Helpers.Product)
    (preferences : option Api.Preferences) : Js.result Api.Recipe :=
  Js.run (Api.generateRecipeWithGemini Host.isoParse Host.toISO JSON_parse
            Host.toStr Host.freshId (answers text) recipePromptIntro
            recipePromptFormat products "key" preferences now) 0.

Definition generateGuestMenu (text : string) (guestCount : Q)
    (budget : Api.Budget) : Js.result Api.GuestMenuResult :=
  Js.run (Api.generateGuestMenuWithGemini Host.toISO JSON_parse Host.toStr
            Host.freshId (answers text) guestMenuPrompt guestCount budget
            "Бишкек" "key" now) 0.

(** The menu returned for the answer [{}]. *)
Definition bareMenu (guestCount : Q) (budget : Api.Budget)
  : Api.GuestMenuResult :=
  {| Api.appetizers := [];
     Api.mains := [];
     Api.desserts := [];
     Api.beverages := Js.VArr [];
     Api.shoppingList := [];
     Api.totalCost := Js.VNum (Api.totalBudget guestCount budget);
     Api.perPersonCost := Js.VNum (Api.targetCostPerPerson budget) |}.

(** *** Recipes and stores *)

Definition recipe (id title : string) : Api.Recipe :=
  {| Api.id := id;
     Api.title := Js.VStr title;
     Api.description := Js.VStr EmptyString;
     Api.imageUri := None;
     Api.cookTime := Js.VNum 30;
     Api.servings := Js.VNum 4;
     Api.difficulty := Js.VStr "medium";
     Api.ingredients := Js.VArr [];
     Api.instructions := Js.VArr [];
     Api.usesExpiringProducts := Js.VArr [];
     Api.rating := None;
     Api.generatedAt := "2026-11-02T10:15:00.000Z";
     Api.savedAt := None |}.

Definition soup := recipe "r1" "Суп".
Definition soupAgain := recipe "r1" "Суп с лапшой".
Definition plov := recipe "r2" "Плов".

Definition emptyStore : Storage.Store :=
  {| Storage.SAVED_RECIPES := None;
     Storage.RECIPE_HISTORY := None;
     Storage.USER_STATS := None |}.

Definition loadedAt : string := "2026-11-02T10:00:00.000Z".

(** *** A pantry and the members of [Object.prototype] *)

Definition inherited (k : string) : bool :=
  existsb (String.eqb k)
    ["constructor"; "toString"; "toLocaleString"; "valueOf";
     "hasOwnProperty"; "isPrototypeOf"; "propertyIsEnumerable"; "__proto__";
     "__defineGetter__"; "__defineSetter__"; "__lookupGetter__";
     "__lookupSetter__"].

Definition stocked (id name category : string) : Product :=
  {| id := id; name := name; quantity := "1"; unit := "шт";
     category := category; expiryDate := "2026-11-09";
     addedAt := "2026-11-01T09:00:00.000Z"; imageUri := None;
     confidence := None |}.

Definition kefir := stocked "s1" "Кефир" "dairy".
Definition loaf := stocked "s2" "Батон" "bakery".
Definition butter := stocked "s3" "Масло" "dairy".
Definition odd := stocked "s4" "Нечто" "constructor".

Definition pantry : list Product := [kefir; loaf; butter].

(** *** A guest menu with dishes

    [{"appetizers":[{"title":"Салат"}],"mains":[{"title":"Плов"}],
      "shoppingList":[{"name":"Рис"},{"name":"Морковь"}]}] *)

Definition menuJson : string :=
  "{" ++ quoted "appetizers" ++ ":[{" ++ quoted "title" ++ ":"
  ++ quoted "Салат" ++ "}]," ++ quoted "mains" ++ ":[{" ++ quoted "title"
  ++ ":" ++ quoted "Плов" ++ "}]," ++ quoted "shoppingList" ++ ":[{"
  ++ quoted "name" ++ ":" ++ quoted "Рис" ++ "},{" ++ quoted "name" ++ ":"
  ++ quoted "Морковь" ++ "}]}".

Definition menuObject : Js.value :=
  Js.VObj [("appetizers", Js.VArr [Js.VObj [("title", Js.VStr "Салат")]]);
           ("mains", Js.VArr [Js.VObj [("title", Js.VStr "Плов")]]);
           ("shoppingList",
            Js.VArr [Js.VObj [("name", Js.VStr "Рис")];
                     Js.VObj [("name", Js.VStr "Морковь")]])].

Definition menuParse : string -> Js.result Js.value :=
  parseWith [(menuJson, menuObject)].

Definition dinnerMenu : Js.result Api.GuestMenuResult :=
  Js.run (Api.generateGuestMenuWithGemini Host.toISO menuParse Host.toStr
            Host.freshId (answers menuJson) guestMenuPrompt 6 Api.standard
            "Бишкек" "key" now) 0.

Definition apology : string := "Извините, сейчас я не могу составить рецепт.".

End Sample.

(** ** JavaScript strings as sequences of UTF-16 code units

    Where the sources measure or cut a string ([length], [substring],
    [charCodeAt], [trim], [includes]) a string is the list of its code
    units.  [utf16] reads the code units of a literal off its UTF-8
    bytes. *)

Module JsString.

Definition str := list Z.

Definition byte (a : ascii) : Z := Z.of_nat (nat_of_ascii a).

Fixpoint utf16 (s : string) : str :=
  match s with
  | EmptyString => []
  | String a rest =>
      let b0 := byte a in
      if b0 <? 128 then b0 :: utf16 rest
      else if b0 <? 224 then
        match rest with
        | String b r1 => ((b0 - 192) * 64 + (byte b - 128)) :: utf16 r1
        | _ => [65533]
        end
      else if b0 <? 240 then
        match rest with
        | String b (String c r2) =>
            ((b0 - 224) * 4096 + (byte b - 128) * 64 + (byte c - 128))
            :: utf16 r2
        | _ => [65533]
        end
      else
        match rest with
        | String b (String c (String d r3)) =>
            let cp := (b0 - 240) * 262144 + (byte b - 128) * 4096
                      + (byte c - 128) * 64 + (byte d - 128) - 65536 in
            (55296 + cp / 1024) :: (56320 + cp mod 1024) :: utf16 r3
        | _ => [65533]
        end
  end.

Definition length (s : str) : Z := Z.of_nat (List.length s).

(** [s.substring(0, end)]: a negative end counts as 0, an end beyond the
    string as its length. *)
Definition substring0 (s : str) (end_ : Z) : str := firstn (Z.to_nat end_) s.

Fixpoint startsWith (s prefix : str) : bool :=
  match prefix, s with
  | [], _ => true
  | _ :: _, [] => false
  | c :: prefix', d :: s' => (c =? d) && startsWith s' prefix'
  end.

(** [s.includes(search)] *)
Fixpoint includes (s search : str) : bool :=
  startsWith s search
  || match s with
     | [] => false
     | _ :: s' => includes s' search
     end.

(** The code units that [trim] removes: WhiteSpace and LineTerminator. *)
Definition isWhiteSpace (c : Z) : bool :=
  existsb (Z.eqb c)
    [9; 10; 11; 12; 13; 32; 160; 5760; 8232; 8233; 8239; 8287; 12288; 65279]
  || ((8192 <=? c) && (c <=? 8202)).

Fixpoint trimStart (s : str) : str :=
  match s with
  | [] => []
  | c :: s' => if isWhiteSpace c then trimStart s' else s
  end.

Definition trim (s : str) : str := rev (trimStart (rev (trimStart s))).

End JsString.

(** ** The other helpers of [src/utils/helpers.ts] *)

Module HelpersExtra.
Import JsNum Js Helpers.

(** [truncateText]; the three dots are code unit 46. *)
Definition truncateText (text : JsString.str) (maxLength : Z) : JsString.str :=
  if JsString.length text <=? maxLength then text
  else (JsString.substring0 text (maxLength - 3) ++ [46; 46; 46])%list.

(** *** [groupProductsByCategory]

    The accumulator is an object: its own properties are an association
    list (the order of enumeration is not modelled), and a key that the
    object does not own may still be found on [Object.prototype].  An
    inherited member is truthy and has no [push], so the call on it is a
    TypeError. *)
Section Grouping.

(** The names that [Object.prototype] defines on the host. *)
Variable inherited : string -> bool.

Fixpoint own (k : string) (acc : list (string * list Product))
  : option (list Product) :=
  match acc with
  | [] => None
  | (k', bucket) :: rest => if String.eqb k k' then Some bucket else own k rest
  end.

(** [acc[k].push(p)] on an own bucket *)
Fixpoint push (k : string) (p : Product) (acc : list (string * list Product))
  : list (string * list Product) :=
  match acc with
  | [] => []
  | (k', bucket) :: rest =>
      if String.eqb k k' then (k', (bucket ++ [p])%list) :: rest
      else (k', bucket) :: push k p rest
  end.

Definition groupStep (acc : result (list (string * list Product)))
    (product : Product) : result (list (string * list Product)) :=
  match acc with
  | Throw e => Throw e
  | Ok acc =>
      match own (category product) acc with
      | Some _ => Ok (push (category product) product acc)
      | None =>
          if inherited (category product) then Throw TypeError
          else Ok (acc ++ [(category product, [product])])%list
      end
  end.

Definition groupProductsByCategory (products : list Product)
  : result (list (string * list Product)) :=
  fold_left groupStep products (Ok []).

End Grouping.

(** A bucket exists only when it holds something. *)
Definition nonEmpty {A : Type} (l : list A) : option (list A) :=
  match l with
  | [] => None
  | _ => Some l
  end.

End HelpersExtra.

(** ** What the screens compute from the helpers *)

Module Screens.
Import JsNum Helpers.

Definition statusEqb (a b : ExpiryStatus) : bool :=
  match a, b with
  | critical, critical | warning, warning | fresh, fresh => true
  | _, _ => false
  end.

(** The filter of the stock screen. *)
Inductive FilterType := all | only (status : ExpiryStatus).

Section WithDate.

Variable Date_parse : string -> option Z.
Variable localMidnight : Z -> Z.

(** GenerateRecipeScreen: the products selected when the screen opens,
    [sortedProducts.filter(p => getExpiryStatus(p.expiryDate) !== 'fresh')
    .slice(0, 5)]; their ids fill the selection. *)
Definition preselected (now : Z) (products : list Product) : list Product :=
  firstn 5
    (filter (fun p =>
               negb (statusEqb
                       (getExpiryStatus Date_parse localMidnight now
                          (expiryDate p))
                       fresh))
            (sortProductsByExpiry Date_parse localMidnight now products)).

Definition expiringIds (now : Z) (products : list Product) : list string :=
  map id (preselected now products).

(** GenerateRecipeScreen: the amount passed to [incrementStat("moneySaved")]
    after a recipe was generated. *)
Definition moneySavedAmount (now : Z) (selectedProducts : list Product) : Z :=
  150 * Z.of_nat
          (List.length
             (filter (fun p =>
                        statusEqb
                          (getExpiryStatus Date_parse localMidnight now
                             (expiryDate p))
                          critical)
                     selectedProducts)).

(** HomeScreen: [sortProductsByExpiry(getExpiringProducts(products, 7))
    .slice(0, 5)] *)
Definition homeExpiringProducts (now : Z) (products : list Product)
  : list Product :=
  firstn 5
    (sortProductsByExpiry Date_parse localMidnight now
       (getExpiringProducts Date_parse localMidnight now products 7)).

(** StockScreen: [filteredProducts] and [sortedProducts] *)
Definition filteredProducts (now : Z) (filter_ : FilterType)
    (products : list Product) : list Product :=
  filter (fun p =>
            match filter_ with
            | all => true
            | only status =>
                statusEqb
                  (getExpiryStatus Date_parse localMidnight now (expiryDate p))
                  status
            end)
         products.

Definition stockProducts (now : Z) (filter_ : FilterType)
    (products : list Product) : list Product :=
  sortProductsByExpiry Date_parse localMidnight now
    (filteredProducts now filter_ products).

End WithDate.

End Screens.

(** ** The rest of [src/utils/api.ts] *)

Module ApiExtra.
Import Js Api.

(** ToInt32 *)
Definition toInt32 (z : Z) : Z :=
  let m := z mod 4294967296 in
  if m <? 2147483648 then m else m - 4294967296.

(** One turn of the loop of [hashCode]:
    [hash = ((hash << 5) - hash) + char; hash = hash & hash]. *)
Definition hashStep (hash char : Z) : Z :=
  let hash := (toInt32 (hash * 32) - hash) + char in
  toInt32 hash.

Definition hashCode (str : JsString.str) : Z :=
  Z.abs (fold_left hashStep str 0).

Definition FOOD_IMAGE_CATEGORIES : list (string * list string) :=
  [("salad", ["салат"; "фрукт"; "фруктов"]);
   ("soup", ["суп"; "борщ"; "щи"; "бульон"]);
   ("pasta", ["паста"; "макарон"; "лапша"; "лагман"; "спагетти"]);
   ("chicken", ["курица"; "куриц"; "птица"; "индейк"]);
   ("vegetables", ["овощ"; "запеканка"; "рагу"]);
   ("meal", ["плов"; "каша"; "рис"; "гарнир"; "ужин"; "обед"; "завтрак"])].

(** The images are the assets that [require] resolves; an asset is named by
    its file. *)
Definition FOOD_IMAGES : list (string * list string) :=
  [("salad", ["fruit_salad_fresh_he_40a66170.jpg";
              "fruit_salad_fresh_he_749fb6b1.jpg";
              "fruit_salad_fresh_he_de5252d5.jpg"]);
   ("soup", ["soup_bowl_hot_delici_700b99b3.jpg";
             "soup_bowl_hot_delici_7af68608.jpg";
             "soup_bowl_hot_delici_1b414665.jpg"]);
   ("pasta", ["pasta_italian_dish_n_bc0cf1fd.jpg";
              "pasta_italian_dish_n_826119b5.jpg";
              "pasta_italian_dish_n_01332196.jpg"]);
   ("chicken", ["grilled_chicken_meat_38641b15.jpg";
                "grilled_chicken_meat_ba95773f.jpg";
                "grilled_chicken_meat_62d81f01.jpg"]);
   ("vegetables", ["fresh_vegetables_coo_9da06761.jpg";
                   "fresh_vegetables_coo_062c1664.jpg";
                   "fresh_vegetables_coo_f4d37bf9.jpg"]);
   ("meal", ["homemade_meal_dinner_adca86b1.jpg";
             "homemade_meal_dinner_ad192fa5.jpg";
             "homemade_meal_dinner_e7dda8ef.jpg"])].

Fixpoint imagesOf (category : string) (table : list (string * list string))
  : option (list string) :=
  match table with
  | [] => None
  | (c, images) :: rest =>
      if String.eqb category c then Some images else imagesOf category rest
  end.

(** The loop over [Object.entries(FOOD_IMAGE_CATEGORIES)]: the first
    category one of whose keywords occurs in the title, [meal] if there is
    none. *)
Fixpoint categoryOf (titleLower : JsString.str)
    (table : list (string * list string)) : string :=
  match table with
  | [] => "meal"
  | (cat, keywords) :: rest =>
      if existsb (fun kw => JsString.includes titleLower (JsString.utf16 kw))
                 keywords
      then cat
      else categoryOf titleLower rest
  end.

Section WithHost.

(** [String.prototype.toLowerCase] *)
Variable toLowerCase : JsString.str -> JsString.str.

(** [getFoodImage]: [undefined] is [None]; reading the length of a missing
    image list would be a TypeError. *)
Definition getFoodImage (dishTitle : JsString.str) : result (option string) :=
  let titleLower := toLowerCase dishTitle in
  let category := categoryOf titleLower FOOD_IMAGE_CATEGORIES in
  match imagesOf category FOOD_IMAGES with
  | None => Throw TypeError
  | Some images =>
      let index := Z.rem (hashCode dishTitle) (Z.of_nat (List.length images)) in
      Ok (nth_error images (Z.to_nat index))
  end.

Variable fetchGemini : string -> string -> option string -> Fetched.

(** The fixed text of the chat prompt before and after the user's context. *)
Variable chatPromptHead chatPromptTail : string.

Record ChatContext := mkChatContext {
  ctx_products : option (list Helpers.Product);
  ctx_recentRecipes : option (list string)
}.

Definition productsContext (context : option ChatContext) : string :=
  match context with
  | Some {| ctx_products := Some (p :: ps) |} =>
      nl ++ nl ++ "Текущие продукты в холодильнике:" ++ nl
      ++ productList (p :: ps)
  | _ => EmptyString
  end.

Definition recipesContext (context : option ChatContext) : string :=
  match context with
  | Some {| ctx_recentRecipes := Some (r :: rs) |} =>
      nl ++ nl ++ "Недавние рецепты: " ++ join ", " (r :: rs)
  | _ => EmptyString
  end.

Definition chatPrompt (message : string) (context : option ChatContext)
  : string :=
  chatPromptHead ++ productsContext context ++ recipesContext context
  ++ chatPromptTail ++ nl ++ nl ++ "Вопрос пользователя: " ++ message.

(** [chatWithGemini]: a response that is not ok is answered with a fixed
    message, whatever its body. *)
Definition chatWithGemini (message apiKey : string)
    (context : option ChatContext) : result value :=
  if isEmpty apiKey then Throw (Error "API ключ не настроен")
  else
    match fetchGemini apiKey (chatPrompt message context) None with
    | FetchFailed e => Throw e
    | FetchNotOk _ => Throw (Error "Сервис временно недоступен")
    | FetchText textResponse =>
        if negb (truthy textResponse)
        then Throw (Error "Не удалось получить ответ")
        else Ok textResponse
    end.

End WithHost.

(** Whether a character occurs in a text. *)
Fixpoint hasChar (c : ascii) (s : string) : bool :=
  match s with
  | EmptyString => false
  | String c' rest => Ascii.eqb c c' || hasChar c rest
  end.

End ApiExtra.

(** ** The rest of the storage layer, and the API key

    The store of the section above, extended with the collections it leaves
    out and with the key under which [ApiKeyContext] keeps the user's API
    key. *)

Module StorageExtra.
Import Js Helpers Storage.

(** The [ShoppingItem] interface ([src/unnamed/part_008], lines 350-359). *)
Record ShoppingItem := mkShoppingItem {
  si_id : string;
  si_name : string;
  si_quantity : string;
  si_unit : string;
  si_category : string;
  si_checked : bool;
  si_addedAt : string;
  si_fromRecipe : option string
}.

Record OnboardingState := mkOnboardingState {
  completed : bool;
  currentStep : Z
}.


Record AppStore := mkAppStore {
  recipes : Store;
  PRODUCTS : option (list Product);
  SHOPPING_LIST : option (list ShoppingItem);
  ONBOARDING : option OnboardingState;
  API_KEY_STORAGE : option JsString.str
}.

(** An operation of the section above, on the extended store. *)
Definition onRecipes (f : Store -> Store) (st : AppStore) : AppStore :=
  {| recipes := f (recipes st);
     PRODUCTS := PRODUCTS st;
     SHOPPING_LIST := SHOPPING_LIST st;
     ONBOARDING := ONBOARDING st;
     API_KEY_STORAGE := API_KEY_STORAGE st |}.

Definition getProducts (st : AppStore) : list Product :=
  match PRODUCTS st with
  | Some data => data
  | None => []
  end.

Definition saveProducts (products : list Product) (st : AppStore) : AppStore :=
  {| recipes := recipes st;
     PRODUCTS := Some products;
     SHOPPING_LIST := SHOPPING_LIST st;
     ONBOARDING := ONBOARDING st;
     API_KEY_STORAGE := API_KEY_STORAGE st |}.

Definition addProduct (product : Product) (st : AppStore) : AppStore :=
  saveProducts (getProducts st ++ [product]) st.

(** [findIndex]: [None] is the [-1] of the source. *)
Fixpoint findIndex {A : Type} (f : A -> bool) (l : list A) : option nat :=
  match l with
  | [] => None
  | x :: rest =>
      if f x then Some O
      else match findIndex f rest with
           | Some i => Some (S i)
           | None => None
           end
  end.

(** [l[index] = f(l[index])] for an index inside the list. *)
Fixpoint updateAt {A : Type} (index : nat) (f : A -> A) (l : list A)
  : list A :=
  match l, index with
  | [], _ => []
  | x :: rest, O => f x :: rest
  | x :: rest, S i => x :: updateAt i f rest
  end.



Definition deleteProduct (productId : string) (st : AppStore) : AppStore :=
  let products := getProducts st in
  let filtered := filter (fun p => negb (String.eqb (id p) productId)) products in
  saveProducts filtered st.

Definition getShoppingList (st : AppStore) : list ShoppingItem :=
  match SHOPPING_LIST st with
  | Some data => data
  | None => []
  end.

Definition saveShoppingList (items : list ShoppingItem) (st : AppStore)
  : AppStore :=
  {| recipes := recipes st;
     PRODUCTS := PRODUCTS st;
     SHOPPING_LIST := Some items;
     ONBOARDING := ONBOARDING st;
     API_KEY_STORAGE := API_KEY_STORAGE st |}.

Definition addShoppingItem (item : ShoppingItem) (st : AppStore) : AppStore :=
  saveShoppingList (getShoppingList st ++ [item]) st.

(** [items[index].checked = !items[index].checked] *)
Definition flipChecked (i : ShoppingItem) : ShoppingItem :=
  {| si_id := si_id i;
     si_name := si_name i;
     si_quantity := si_quantity i;
     si_unit := si_unit i;
     si_category := si_category i;
     si_checked := negb (si_checked i);
     si_addedAt := si_addedAt i;
     si_fromRecipe := si_fromRecipe i |}.

Definition toggleShoppingItem (itemId : string) (st : AppStore) : AppStore :=
  let items := getShoppingList st in
  match findIndex (fun i => String.eqb (si_id i) itemId) items with
  | Some index => saveShoppingList (updateAt index flipChecked items) st
  | None => st
  end.

Definition deleteShoppingItem (itemId : string) (st : AppStore) : AppStore :=
  let items := getShoppingList st in
  let filtered := filter (fun i => negb (String.eqb (si_id i) itemId)) items in
  saveShoppingList filtered st.

Definition clearCheckedItems (st : AppStore) : AppStore :=
  let items := getShoppingList st in
  let filtered := filter (fun i => negb (si_checked i)) items in
  saveShoppingList filtered st.

Definition getOnboardingState (st : AppStore) : OnboardingState :=
  match ONBOARDING st with
  | Some data => data
  | None => {| completed := false; currentStep := 0 |}
  end.

Definition setOnboarding (state : OnboardingState) (st : AppStore) : AppStore :=
  {| recipes := recipes st;
     PRODUCTS := PRODUCTS st;
     SHOPPING_LIST := SHOPPING_LIST st;
     ONBOARDING := Some state;
     API_KEY_STORAGE := API_KEY_STORAGE st |}.

Definition completeOnboarding (st : AppStore) : AppStore :=
  setOnboarding {| completed := true; currentStep := 3 |} st.

Definition resetOnboarding (st : AppStore) : AppStore :=
  setOnboarding {| completed := false; currentStep := 0 |} st.

(** [multiRemove(Object.values(STORAGE_KEYS))]: every key of the table is
    removed; the key of the API key is not in the table. *)
Definition clearAllData (st : AppStore) : AppStore :=
  {| recipes := {| SAVED_RECIPES := None;
                   RECIPE_HISTORY := None;
                   USER_STATS := None |};
     PRODUCTS := None;
     SHOPPING_LIST := None;
     ONBOARDING := None;
     API_KEY_STORAGE := API_KEY_STORAGE st |}.

End StorageExtra.

(** ** The hooks of [src/hooks/useAppState.ts] and the screens' handlers

    A hook reloads its state from the store after every operation it awaits;
    the state a handler reads is the content of the store. *)

Module Hooks.
Import Helpers Api Storage StorageExtra.

Definition addProducts (newProducts : list Product) (st : AppStore)
  : AppStore :=
  let current := getProducts st in
  saveProducts (current ++ newProducts) st.

Definition addItems (newItems : list ShoppingItem) (st : AppStore)
  : AppStore :=
  let current := getShoppingList st in
  saveShoppingList (current ++ newItems) st.

Definition isRecipeSaved (savedRecipes : list Recipe) (recipeId : string)
  : bool :=
  existsb (fun r => String.eqb (Api.id r) recipeId) savedRecipes.

Definition checkedCount (items : list ShoppingItem) : nat :=
  List.length (filter (fun i => si_checked i) items).

Definition totalCount (items : list ShoppingItem) : nat := List.length items.

(** [handleToggleSave] of the history and recipe screens. *)
Definition handleToggleSave (recipe : Recipe) (timestamp : string)
    (st : Store) : Store :=
  if isRecipeSaved (getSavedRecipes st) (Api.id recipe)
  then removeSavedRecipe (Api.id recipe) st
  else saveRecipe recipe timestamp st.

End Hooks.

(** ** [src/context/ApiKeyContext.tsx] *)

Module ApiKeyContext.
Import Js StorageExtra.

Record KeyState := mkKeyState {
  apiKey : JsString.str;
  isBuiltIn : bool;
  loading : bool
}.

Definition nonEmpty (s : JsString.str) : bool :=
  match s with
  | [] => false
  | _ :: _ => true
  end.

Section WithBuiltIn.

(** [BUILT_IN_API_KEY], read from the environment when the module loads. *)
Variable BUILT_IN_API_KEY : JsString.str.

Definition initialState : KeyState :=
  {| apiKey := BUILT_IN_API_KEY;
     isBuiltIn := 0 <? JsString.length BUILT_IN_API_KEY;
     loading := true |}.

Definition loadApiKey (st : AppStore) (s : KeyState) : KeyState :=
  let useBuiltIn :=
    if nonEmpty BUILT_IN_API_KEY
    then {| apiKey := BUILT_IN_API_KEY; isBuiltIn := true; loading := false |}
    else {| apiKey := apiKey s; isBuiltIn := isBuiltIn s; loading := false |} in
  match API_KEY_STORAGE st with
  | Some stored =>
      if nonEmpty stored && (10 <? JsString.length stored)
      then {| apiKey := stored; isBuiltIn := false; loading := false |}
      else useBuiltIn
  | None => useBuiltIn
  end.

Definition setApiKey (key : JsString.str) (st : AppStore) (s : KeyState)
  : result (AppStore * KeyState) :=
  if negb (nonEmpty key) || (JsString.length (JsString.trim key) <? 10)
  then Throw (Error "Invalid API key")
  else
    Ok ({| recipes := recipes st;
           PRODUCTS := PRODUCTS st;
           SHOPPING_LIST := SHOPPING_LIST st;
           ONBOARDING := ONBOARDING st;
           API_KEY_STORAGE := Some (JsString.trim key) |},
        {| apiKey := JsString.trim key;
           isBuiltIn := false;
           loading := loading s |}).

Definition isConfigured (s : KeyState) : bool :=
  10 <? JsString.length (apiKey s).

End WithBuiltIn.

End ApiKeyContext.

(** ** A sample store *)

Module Kitchen.
Import Helpers Storage StorageExtra.

Definition item (id name : string) (checked : bool) : ShoppingItem :=
  {| si_id := id; si_name := name; si_quantity := "1"; si_unit := "шт";
     si_category := "other"; si_checked := checked;
     si_addedAt := "2026-11-02T09:00:00.000Z"; si_fromRecipe := None |}.

Definition rice := item "i1" "Рис" false.
Definition carrots := item "i2" "Морковь" true.
Definition onions := item "i3" "Лук" false.

Definition store : AppStore :=
  {| recipes := Sample.emptyStore;
     PRODUCTS := Some Sample.pantry;
     SHOPPING_LIST := Some [rice; carrots; onions];
     ONBOARDING := None;
     API_KEY_STORAGE := None |}.


(** Ten and eleven characters, with blanks around. *)
Definition tenChars : JsString.str := JsString.utf16 "  AIza567890 ".
Definition elevenChars : JsString.str := JsString.utf16 " AIza5678901  ".

Definition builtIn : JsString.str := JsString.utf16 "AIzaBuiltInKey0000".

End Kitchen.

(** * Properties *)

(** ** Ceiling division *)

Module JsNumFacts.
Import JsNum.

Lemma ceilDiv_bounds x d :
  0 < d -> d * (ceilDiv x d - 1) < x <= d * ceilDiv x d.
Proof.
  intros Hd. unfold ceilDiv.
  pose proof (Z.div_mod (- x) d ltac:(lia)) as E.
  pose proof (Z.mod_pos_bound (- x) d Hd) as B.
  nia.
Qed.

Lemma ceilDiv_le x d k : 0 < d -> ceilDiv x d <= k <-> x <= d * k.
Proof.
  intros Hd. pose proof (ceilDiv_bounds x d Hd). split; intros; nia.
Qed.

Lemma leb_spec a b : leb a b = true <-> exists x, a = Some x /\ x <= b.
Proof.
  destruct a as [x|]; simpl.
  - rewrite Z.leb_le. split.
    + intros H. exists x. auto.
    + intros (y & E & H). injection E as ->. exact H.
  - split; [discriminate | intros (y & E & _); discriminate].
Qed.

Lemma geb_spec a b : geb a b = true <-> exists x, a = Some x /\ b <= x.
Proof.
  destruct a as [x|]; simpl.
  - rewrite Z.leb_le. split.
    + intros H. exists x. auto.
    + intros (y & E & H). injection E as ->. exact H.
  - split; [discriminate | intros (y & E & _); discriminate].
Qed.

End JsNumFacts.

(** ** The stable sort *)

Module SortFacts.
Import JsNum Helpers.

Section ByKey.

Context {A : Type}.
Variable key : A -> num.

Lemma insert_perm x l : Permutation (x :: l) (insert (byKey key) x l).
Proof.
  induction l as [|y l IH]; simpl.
  - apply Permutation_refl.
  - destruct (sortCompare (byKey key) x y <=? 0).
    + apply Permutation_refl.
    + apply perm_trans with (y :: x :: l).
      * apply perm_swap.
      * apply perm_skip, IH.
Qed.

Lemma sort_perm l : Permutation l (sort (byKey key) l).
Proof.
  induction l as [|x l IH]; simpl.
  - apply perm_nil.
  - apply perm_trans with (x :: sort (byKey key) l).
    + apply perm_skip, IH.
    + apply insert_perm.
Qed.

(** An element is moved past another one only when its key is strictly
    greater. *)
Lemma sortCompare_pos x y :
  (sortCompare (byKey key) x y <=? 0) = false ->
  exists kx ky, key x = Some kx /\ key y = Some ky /\ ky < kx.
Proof.
  unfold sortCompare, byKey, sub. intros H.
  apply Z.leb_gt in H.
  destruct (key x) as [kx|], (key y) as [ky|]; try lia.
  exists kx, ky. repeat split; lia.
Qed.

Lemma filter_insert d x l :
  filter (fun a => eqb (key a) d) (insert (byKey key) x l)
  = filter (fun a => eqb (key a) d) (x :: l).
Proof.
  induction l as [|y l IH]; simpl.
  - reflexivity.
  - destruct (sortCompare (byKey key) x y <=? 0) eqn:E.
    + reflexivity.
    + apply sortCompare_pos in E. destruct E as (kx & ky & Ex & Ey & Hlt).
      simpl. rewrite IH. simpl. rewrite Ex, Ey. simpl.
      destruct (kx =? d) eqn:Dx, (ky =? d) eqn:Dy; try reflexivity.
      apply Z.eqb_eq in Dx. apply Z.eqb_eq in Dy. lia.
Qed.

Lemma filter_sort d l :
  filter (fun a => eqb (key a) d) (sort (byKey key) l)
  = filter (fun a => eqb (key a) d) l.
Proof.
  induction l as [|x l IH]; simpl.
  - reflexivity.
  - rewrite filter_insert. simpl. rewrite IH. reflexivity.
Qed.

Lemma insert_sorted x l :
  key x <> None ->
  Forall (fun a => key a <> None) l ->
  StronglySorted (keyLe key) l ->
  StronglySorted (keyLe key) (insert (byKey key) x l).
Proof.
  intros Hx Hl Hs. induction Hs as [|y l Hs IH Hy]; simpl.
  - constructor; constructor.
  - inversion Hl as [|? ? Hky Hl']; subst.
    destruct (sortCompare (byKey key) x y <=? 0) eqn:E.
    + assert (Hxy : (keyLe key) x y).
      { unfold sortCompare, byKey, sub in E. apply Z.leb_le in E.
        destruct (key x) as [kx|] eqn:Ex; [|congruence].
        destruct (key y) as [ky|] eqn:Ey; [|congruence].
        exists kx, ky. repeat split; auto. lia. }
      constructor.
      * constructor; assumption.
      * constructor; [exact Hxy|].
        rewrite Forall_forall in Hy |- *. intros z Hz.
        destruct Hxy as (kx & ky & Ex & Ey & Hle).
        destruct (Hy z Hz) as (ky' & kz & Ey' & Ez & Hle').
        exists kx, kz. repeat split; auto.
        assert (ky' = ky) by congruence. lia.
    + apply sortCompare_pos in E. destruct E as (kx & ky & Ex & Ey & Hlt).
      constructor.
      * apply IH; assumption.
      * apply Permutation_Forall with (x :: l).
        { apply insert_perm. }
        constructor; [|exact Hy].
        exists ky, kx. repeat split; auto. lia.
Qed.

Lemma sort_sorted l :
  Forall (fun a => key a <> None) l ->
  StronglySorted (keyLe key) (sort (byKey key) l).
Proof.
  induction l as [|x l IH]; simpl; intros H.
  - constructor.
  - inversion H as [|? ? Hx Hl]; subst.
    apply insert_sorted; auto.
    apply Permutation_Forall with l; [apply sort_perm | exact Hl].
Qed.

End ByKey.

End SortFacts.

(** ** Expiry classification, selection and ordering *)

Module HelpersFacts.
Import JsNum JsNumFacts Helpers.

Section WithDate.

Variable Date_parse : string -> option Z.
Variable localMidnight : Z -> Z.

Lemma msPerDay_pos : 0 < msPerDay.
Proof. reflexivity. Qed.

(** The two functions compute the same day count. *)
Lemma getExpiryStatus_by_days now d :
  getExpiryStatus Date_parse localMidnight now d =
  if leb (getDaysUntilExpiry Date_parse localMidnight now d) 3 then critical
  else if leb (getDaysUntilExpiry Date_parse localMidnight now d) 7 then warning
  else fresh.
Proof. reflexivity. Qed.

(** C1.  For an expiry date that parses, [getDaysUntilExpiry] is the ceiling
    of the difference between the two local midnights measured in days, and
    [getExpiryStatus] is [critical] exactly when that count is at most 3,
    [warning] exactly when it lies between 4 and 7, and [fresh] exactly when
    it is at least 8. *)
Theorem getExpiryStatus_tiers (now : Z) (d : string) (t : Z) :
  Date_parse d = Some t ->
  exists days,
    getDaysUntilExpiry Date_parse localMidnight now d = Some days /\
    msPerDay * (days - 1) < localMidnight t - localMidnight now
      <= msPerDay * days /\
    (getExpiryStatus Date_parse localMidnight now d = critical <-> days <= 3) /\
    (getExpiryStatus Date_parse localMidnight now d = warning <-> 4 <= days <= 7) /\
    (getExpiryStatus Date_parse localMidnight now d = fresh <-> 8 <= days).
Proof.
  intros Hd.
  exists (ceilDiv (localMidnight t - localMidnight now) msPerDay).
  assert (E : getDaysUntilExpiry Date_parse localMidnight now d
              = Some (ceilDiv (localMidnight t - localMidnight now) msPerDay)).
  { unfold getDaysUntilExpiry, midnightOf. rewrite Hd. reflexivity. }
  split; [exact E|].
  split; [apply ceilDiv_bounds, msPerDay_pos|].
  rewrite getExpiryStatus_by_days, E. simpl.
  set (days := ceilDiv _ _).
  destruct (days <=? 3) eqn:H3; [apply Z.leb_le in H3 | apply Z.leb_gt in H3].
  - repeat split; intros; try discriminate; try lia.
  - destruct (days <=? 7) eqn:H7; [apply Z.leb_le in H7 | apply Z.leb_gt in H7];
      repeat split; intros; try discriminate; try lia.
Qed.

(** Selection with an arbitrary window. *)
Lemma getExpiringProducts_spec now products withinDays p :
  In p (getExpiringProducts Date_parse localMidnight now products withinDays)
  <-> In p products /\
      exists days,
        getDaysUntilExpiry Date_parse localMidnight now (expiryDate p)
          = Some days /\ 0 <= days <= withinDays.
Proof.
  unfold getExpiringProducts. rewrite filter_In, andb_true_iff.
  rewrite leb_spec, geb_spec. split.
  - intros (Hin & (x & Ex & Hx) & (y & Ey & Hy)).
    split; [exact Hin|]. exists x. rewrite Ex in Ey. injection Ey as <-.
    auto.
  - intros (Hin & x & Ex & Hx). split; [exact Hin|].
    split; exists x; split; auto; lia.
Qed.

(** C3.  Every product selected by [getExpiringProducts(products, 3)] comes
    from the input and has a day count between 0 and 3: no product that is
    already expired and none with more than 3 days is selected. *)
Theorem getExpiringProducts_within_3 (now : Z) (products : list Product)
    (p : Product) :
  In p (getExpiringProducts Date_parse localMidnight now products 3) ->
  In p products /\
  exists days,
    getDaysUntilExpiry Date_parse localMidnight now (expiryDate p) = Some days
    /\ 0 <= days <= 3.
Proof.
  unfold getExpiringProducts. intros H.
  apply filter_In in H. destruct H as (Hin & Hkeep).
  apply andb_true_iff in Hkeep. destruct Hkeep as (Hle & Hge).
  split; [exact Hin|].
  destruct (getDaysUntilExpiry Date_parse localMidnight now (expiryDate p))
    as [days|]; simpl in Hle, Hge; [|discriminate].
  exists days. split; [reflexivity|].
  apply Z.leb_le in Hle. apply Z.leb_le in Hge. lia.
Qed.

(** C9.  [sortProductsByExpiry] returns a rearrangement of its input.  When
    every expiry date parses, the result is in ascending order of the day
    count and the sort is stable: the products of each day count stand in
    the result in their input order. *)
Theorem sortProductsByExpiry_stable (now : Z) (products : list Product) :
  let days p :=
    getDaysUntilExpiry Date_parse localMidnight now (expiryDate p) in
  let sorted := sortProductsByExpiry Date_parse localMidnight now products in
  Permutation products sorted /\
  (Forall (fun p => Date_parse (expiryDate p) <> None) products ->
   StronglySorted
     (fun a b => exists x y, days a = Some x /\ days b = Some y /\ x <= y)
     sorted /\
   forall d : Z,
     filter (fun p => eqb (days p) d) sorted
     = filter (fun p => eqb (days p) d) products).
Proof.
  intros days sorted. split.
  - apply (SortFacts.sort_perm days).
  - intros Hall. split.
    + apply (SortFacts.sort_sorted days).
      apply Forall_impl with (2 := Hall).
      intros p Hp. unfold days, getDaysUntilExpiry, midnightOf.
      destruct (Date_parse (expiryDate p)); [discriminate | congruence].
    + intros d. apply (SortFacts.filter_sort days).
Qed.

End WithDate.

(** An expiry date five days ahead is classified [warning]. *)
Lemma getExpiryStatus_tiers_witness :
  exists days,
    getDaysUntilExpiry Host.isoParse Host.utcMidnight Sample.now
      (expiryDate Sample.cheese) = Some days /\
    (getExpiryStatus Host.isoParse Host.utcMidnight Sample.now
       (expiryDate Sample.cheese) = warning <-> 4 <= days <= 7).
Proof.
  destruct (getExpiryStatus_tiers Host.isoParse Host.utcMidnight Sample.now
              (expiryDate Sample.cheese) _ eq_refl)
    as (days & E & _ & _ & W & _).
  exists days. split; assumption.
Defined.

(** Of the sample products only the two that expire in two days are selected;
    the expired one is not. *)
Lemma getExpiringProducts_within_3_witness :
  In Sample.milk
     (getExpiringProducts Host.isoParse Host.utcMidnight Sample.now
        Sample.fridge 3) /\
  exists days,
    getDaysUntilExpiry Host.isoParse Host.utcMidnight Sample.now
      (expiryDate Sample.milk) = Some days
    /\ 0 <= days <= 3.
Proof.
  assert (H : In Sample.milk
                (getExpiringProducts Host.isoParse Host.utcMidnight Sample.now
                   Sample.fridge 3)).
  { vm_compute. left. reflexivity. }
  split; [exact H|].
  exact (proj2 (getExpiringProducts_within_3 Host.isoParse Host.utcMidnight
                  Sample.now Sample.fridge Sample.milk H)).
Defined.

Example getExpiringProducts_sample :
  map name
    (getExpiringProducts Host.isoParse Host.utcMidnight Sample.now
       Sample.fridge 3)
  = ["Milk"; "Bread"].
Proof. vm_compute. reflexivity. Qed.

(** The sample products all have parseable dates, so their sorted list is in
    ascending order, and the two products with two days left (the milk, then
    the bread) stand in it in the order of the input. *)
Lemma sortProductsByExpiry_stable_witness :
  Forall (fun p => Host.isoParse (expiryDate p) <> None) Sample.fridge /\
  StronglySorted
    (fun a b =>
       exists x y,
         getDaysUntilExpiry Host.isoParse Host.utcMidnight Sample.now
           (expiryDate a) = Some x /\
         getDaysUntilExpiry Host.isoParse Host.utcMidnight Sample.now
           (expiryDate b) = Some y /\ x <= y)
    (sortProductsByExpiry Host.isoParse Host.utcMidnight Sample.now
       Sample.fridge) /\
  filter (fun p =>
            eqb (getDaysUntilExpiry Host.isoParse Host.utcMidnight Sample.now
                   (expiryDate p)) 2)
         (sortProductsByExpiry Host.isoParse Host.utcMidnight Sample.now
            Sample.fridge)
  = [Sample.milk; Sample.bread].
Proof.
  assert (Hall : Forall (fun p => Host.isoParse (expiryDate p) <> None)
                        Sample.fridge)
    by (repeat constructor; vm_compute; discriminate).
  destruct (proj2 (sortProductsByExpiry_stable Host.isoParse Host.utcMidnight
                     Sample.now Sample.fridge) Hall) as (Hsorted & Hstable).
  split; [exact Hall|]. split; [exact Hsorted|].
  rewrite (Hstable 2). vm_compute. reflexivity.
Defined.

(** Milk and bread both expire in two days and were entered in that order. *)
Example sortProductsByExpiry_sample :
  map name
    (sortProductsByExpiry Host.isoParse Host.utcMidnight Sample.now
       Sample.fridge)
  = ["Yogurt"; "Milk"; "Bread"; "Cheese"; "Rice"].
Proof. vm_compute. reflexivity. Qed.


End HelpersFacts.

(** ** Requests to the generation service *)

Module ApiFacts.
Import JsNum JsNumFacts Js Api.

Section WithService.

Variable Date_parse : string -> option Z.
Variable Date_addDays : Z -> Z -> Z.
Variable Date_toISOString : Z -> string.
Variable JSON_parse : string -> result value.
Variable ToString : value -> string.
Variable freshId : nat -> string.
Variable fetchGemini : string -> string -> option string -> Fetched.
Variable analyzePrompt : string.
Variable recipePromptIntro recipePromptFormat : string.
Variable guestMenuPrompt : string -> string -> string -> string -> string -> string.

(** The test that the request builder applies to a candidate. *)
Lemma flagged_iff (now : Z) (p : Helpers.Product) :
  leb (ceilDivN (sub (Date_parse (Helpers.expiryDate p)) (Some now))
                Helpers.msPerDay) 3 = true <->
  exists t,
    Date_parse (Helpers.expiryDate p) = Some t /\
    t - now <= 3 * Helpers.msPerDay.
Proof.
  rewrite leb_spec. split.
  - intros (x & Ex & Hx).
    destruct (Date_parse (Helpers.expiryDate p)) as [t|]; [|discriminate].
    simpl in Ex. injection Ex as <-.
    apply ceilDiv_le in Hx; [|reflexivity].
    exists t. split; [reflexivity | lia].
  - intros (t & Et & Ht). rewrite Et. simpl. eexists. split; [reflexivity|].
    apply ceilDiv_le; [reflexivity | lia].
Qed.

(** C2 (amended).  On a device whose days all have 24 hours, the names
    flagged in the recipe request are the names of a selection of the
    candidates, in their order, in which every candidate is classified
    [critical] (so that none classified [warning] or [fresh] is flagged) and
    in which every candidate with at most two days left is found. *)
Theorem expiringProducts_spec (localMidnight : Z -> Z) (now : Z)
    (products : list Helpers.Product) :
  (forall t, localMidnight t <= t < localMidnight t + Helpers.msPerDay) ->
  (forall a b,
      exists k, localMidnight a - localMidnight b = k * Helpers.msPerDay) ->
  exists keep flagged,
    flagged = filter keep products /\
    expiringProducts Date_parse now products = map Helpers.name flagged /\
    (forall p,
        In p flagged ->
        In p products /\
        Helpers.getExpiryStatus Date_parse localMidnight now
          (Helpers.expiryDate p) = Helpers.critical) /\
    (forall p k,
        In p products ->
        Helpers.getDaysUntilExpiry Date_parse localMidnight now
          (Helpers.expiryDate p) = Some k ->
        k <= 2 ->
        In p flagged).
Proof.
  intros Hday Hgrid. unfold expiringProducts.
  do 2 eexists. split; [reflexivity|]. split; [reflexivity|]. split.
  - intros p Hp. apply filter_In in Hp. destruct Hp as (Hin & Hd).
    split; [exact Hin|].
    apply flagged_iff in Hd. destruct Hd as (t & Et & Ht).
    unfold Helpers.getExpiryStatus, Helpers.midnightOf. rewrite Et.
    cbn [sub ceilDivN].
    assert (Hle : ceilDiv (localMidnight t - localMidnight now)
                          Helpers.msPerDay <= 3).
    { apply ceilDiv_le; [reflexivity|].
      destruct (Hgrid t now) as (k & Ek). rewrite Ek.
      pose proof (Hday t) as Bt. pose proof (Hday now) as Bn.
      assert (Hpos : 0 < Helpers.msPerDay) by reflexivity.
      assert (Hk : k * Helpers.msPerDay < 4 * Helpers.msPerDay) by lia.
      assert (k < 4) by nia. nia. }
    unfold leb. apply Z.leb_le in Hle. rewrite Hle. reflexivity.
  - intros p k Hin Hk Hle. apply filter_In. split; [exact Hin|].
    apply flagged_iff.
    unfold Helpers.getDaysUntilExpiry, Helpers.midnightOf in Hk.
    destruct (Date_parse (Helpers.expiryDate p)) as [t|]; [|discriminate].
    cbn [sub ceilDivN] in Hk. injection Hk as Hk.
    exists t. split; [reflexivity|].
    assert (Hmid : localMidnight t - localMidnight now
                   <= Helpers.msPerDay * 2).
    { apply ceilDiv_le; [reflexivity | lia]. }
    pose proof (Hday t) as Bt. pose proof (Hday now) as Bn. lia.
Qed.

(** What [generateRecipeWithGemini] returns once the answer holds a JSON
    object. *)
Lemma generateRecipe_result products apiKey preferences now n props :
  embeddedJson JSON_parse fetchGemini apiKey
    (recipePrompt Date_parse ToString recipePromptIntro recipePromptFormat
       now products preferences)
    None "Не удалось сгенерировать рецепт" = Ok (VObj props) ->
  run (generateRecipeWithGemini Date_parse Date_toISOString JSON_parse ToString
         freshId fetchGemini recipePromptIntro recipePromptFormat
         products apiKey preferences now) n
  = Ok {| id := freshId n;
          title := orElse (lookup "title" props) (VStr "Новый рецепт");
          description := orElse (lookup "description" props) (VStr EmptyString);
          imageUri := None;
          cookTime := orElse (lookup "cookTime" props) (VNum 30);
          servings := orElse (lookup "servings" props) (VNum 4);
          difficulty := orElse (lookup "difficulty" props) (VStr "medium");
          ingredients := orElse (lookup "ingredients" props) (VArr []);
          instructions := orElse (lookup "instructions" props) (VArr []);
          usesExpiringProducts :=
            orElse (lookup "usesExpiringProducts" props)
               (VArr (map VStr (expiringProducts Date_parse now products)));
          rating := None;
          generatedAt := Date_toISOString now;
          savedAt := None |}.
Proof.
  intros H. unfold generateRecipeWithGemini, run, bind, lift.
  rewrite H. reflexivity.
Qed.

(** An entry whose category is a non-empty string outside the table makes
    the conversion of that entry throw: the category is kept as it came, no
    shelf life is found for it and the expiry date is invalid. *)
Lemma productOfEntry_unknown_category now props c n :
  lookup "category" props = VStr c ->
  isEmpty c = false ->
  Helpers.isProductCategory c = false ->
  productOfEntry Date_addDays Date_toISOString ToString freshId now
    (VObj props) n = Throw RangeError.
Proof.
  intros Hc Hne Hno. unfold productOfEntry, bind, lift, generateId. simpl.
  rewrite Hc.
  assert (Hd : Helpers.getDefaultExpiryDays c = None).
  { unfold Helpers.isProductCategory, Helpers.productCategories in Hno.
    simpl in Hno. unfold Helpers.getDefaultExpiryDays, Helpers.defaults.
    simpl.
    repeat match goal with
           | |- context [String.eqb c ?k] =>
               destruct (String.eqb c k); [discriminate Hno|]
           end.
    reflexivity. }
  unfold orElse. destruct c as [|a c']; simpl.
  - discriminate Hne.
  - rewrite Hd. reflexivity.
Qed.

Lemma mapM_ok {A B} (f : A -> M B) l n ys n' :
  mapM f l n = Ok (ys, n') ->
  Forall2 (fun x y => exists k k', f x k = Ok (y, k')) l ys.
Proof.
  revert n ys n'. induction l as [|x l IH]; simpl; intros n ys n' H.
  - unfold ret in H. injection H as <- _. constructor.
  - unfold bind in H. destruct (f x n) as [[y k]|] eqn:Ef; [|discriminate].
    destruct (mapM f l k) as [[ys' k']|] eqn:Em; [|discriminate].
    unfold ret in H. injection H as <- _.
    constructor; [exists n, k; exact Ef | eapply IH; exact Em].
Qed.

(** Every object that [analyzeImageWithGemini] does return has a category
    for which a shelf life exists. *)
Lemma analyzeImage_categories imageBase64 apiKey now n ps :
  run (analyzeImageWithGemini Date_addDays Date_toISOString JSON_parse
         ToString freshId fetchGemini analyzePrompt imageBase64 apiKey now) n
  = Ok ps ->
  Forall (fun p =>
            exists days,
              Helpers.getDefaultExpiryDays (toPropertyKey ToString (po_category p))
              = Some days)
         ps.
Proof.
  unfold analyzeImageWithGemini, run, bind, lift. intros H.
  destruct (embeddedJson _ _ _ _ _ _) as [parsed|]; [|discriminate].
  destruct (get parsed "products") as [products|]; [|discriminate].
  destruct (asArray (orElse products (VArr []))) as [entries|]; [|discriminate].
  destruct (mapM _ entries n) as [[ps' n']|] eqn:Em; [|discriminate].
  injection H as <-. apply mapM_ok in Em.
  induction Em as [|x y l l' Hxy _ IH]; constructor; [|exact IH].
  destruct Hxy as (k & k' & Hk).
  unfold productOfEntry, bind, lift, generateId, ret in Hk.
  destruct (get x "name"); [|discriminate].
  destruct (get x "quantity"); [|discriminate].
  destruct (get x "unit"); [|discriminate].
  destruct (get x "category") as [c|]; [|discriminate].
  destruct (Helpers.getDefaultExpiryDays
              (toPropertyKey ToString (orElse c (VStr "other")))) as [d|] eqn:Ed;
    [|discriminate].
  simpl in Hk.
  destruct (get x "confidence"); [|discriminate].
  injection Hk as <- _. simpl. exists d. exact Ed.
Qed.

Lemma mapM_throws {A B} (f : A -> M B) before x after n :
  (forall k, exists e, f x k = Throw e) ->
  exists e, mapM f (before ++ x :: after) n = Throw e.
Proof.
  intros Hx. revert n. induction before as [|y before IH]; simpl; intros n.
  - unfold bind. destruct (Hx n) as (e & ->). exists e. reflexivity.
  - unfold bind. destruct (f y n) as [[b k]|e].
    + destruct (IH k) as (e & ->). exists e. reflexivity.
    + exists e. reflexivity.
Qed.

(** C6.  When the product list of the answer holds an entry whose category
    is a non-empty string outside the enumeration, that category is not
    replaced by [other]: [analyzeImageWithGemini] throws and returns no
    product at all. *)
Theorem analyzeImage_unknown_category_throws
    (imageBase64 apiKey : string) (now : Z) (n : nat)
    (props entry : list (string * value)) (before after : list value)
    (c : string) :
  embeddedJson JSON_parse fetchGemini apiKey analyzePrompt (Some imageBase64)
    "Не удалось распознать продукты" = Ok (VObj props) ->
  lookup "products" props = VArr (before ++ VObj entry :: after) ->
  lookup "category" entry = VStr c ->
  isEmpty c = false ->
  Helpers.isProductCategory c = false ->
  orElse (lookup "category" entry) (VStr "other") = VStr c /\
  exists e,
    run (analyzeImageWithGemini Date_addDays Date_toISOString JSON_parse
           ToString freshId fetchGemini analyzePrompt imageBase64 apiKey now)
        n
    = Throw e.
Proof.
  intros He Hp Hc Hne Hno. split.
  - rewrite Hc. unfold orElse. destruct c; [discriminate Hne | reflexivity].
  - unfold analyzeImageWithGemini, run, bind, lift. rewrite He. simpl.
    rewrite Hp. simpl.
    destruct (mapM_throws
                (productOfEntry Date_addDays Date_toISOString ToString freshId
                   now)
                before (VObj entry) after n) as (e & ->).
    + intros k. exists RangeError.
      apply productOfEntry_unknown_category with (c := c); assumption.
    + exists e. reflexivity.
Qed.

(** C7.  When the answer embeds an object that omits [servings], [cookTime],
    [difficulty] and [usesExpiringProducts], the recipe that is returned has
    a cook time of 30, the difficulty [medium], the prioritised names as
    [usesExpiringProducts], empty lists for omitted ingredients and
    instructions, and 4 servings, whatever number of servings the request
    asked for. *)
Theorem generateRecipe_defaults
    (products : list Helpers.Product) (apiKey : string)
    (preferences : option Preferences) (now : Z) (n : nat)
    (props : list (string * value)) :
  embeddedJson JSON_parse fetchGemini apiKey
    (recipePrompt Date_parse ToString recipePromptIntro recipePromptFormat
       now products preferences)
    None "Не удалось сгенерировать рецепт" = Ok (VObj props) ->
  lookup "servings" props = VUndefined ->
  lookup "cookTime" props = VUndefined ->
  lookup "difficulty" props = VUndefined ->
  lookup "usesExpiringProducts" props = VUndefined ->
  exists r,
    run (generateRecipeWithGemini Date_parse Date_toISOString JSON_parse
           ToString freshId fetchGemini recipePromptIntro recipePromptFormat
           products apiKey preferences now) n
    = Ok r /\
    servings r = VNum 4 /\
    cookTime r = VNum 30 /\
    difficulty r = VStr "medium" /\
    usesExpiringProducts r
    = VArr (map VStr (expiringProducts Date_parse now products)) /\
    (lookup "ingredients" props = VUndefined -> ingredients r = VArr []) /\
    (lookup "instructions" props = VUndefined -> instructions r = VArr []).
Proof.
  intros He Hs Hc Hd Hu. eexists. split.
  - apply generateRecipe_result. exact He.
  - simpl. rewrite Hs, Hc, Hd, Hu.
    repeat split; try reflexivity; intros ->; reflexivity.
Qed.

(** The two cost fields of a guest menu that is returned. *)
Lemma generateGuestMenu_costs guestCount budget city apiKey now n props r :
  embeddedJson JSON_parse fetchGemini apiKey
    (guestPrompt ToString guestMenuPrompt guestCount budget city)
    None "Не удалось сгенерировать меню" = Ok (VObj props) ->
  run (generateGuestMenuWithGemini Date_toISOString JSON_parse ToString freshId
         fetchGemini guestMenuPrompt guestCount budget city apiKey now) n
  = Ok r ->
  totalCost r
  = orElse (lookup "totalCost" props) (VNum (totalBudget guestCount budget)) /\
  perPersonCost r
  = orElse (lookup "perPersonCost" props) (VNum (targetCostPerPerson budget)).
Proof.
  intros He. unfold generateGuestMenuWithGemini, run, bind, lift.
  rewrite He. simpl.
  destruct (asArray _) as [entries|]; [|discriminate].
  destruct (mapM _ entries n) as [[shopping n1]|]; [|discriminate].
  unfold processRecipes, bind, lift.
  destruct (asArray (orElse (lookup "appetizers" props) _)) as [l1|];
    [|discriminate].
  destruct (mapM _ l1 n1) as [[a1 n2]|]; [|discriminate].
  destruct (asArray (orElse (lookup "mains" props) _)) as [l2|]; [|discriminate].
  destruct (mapM _ l2 n2) as [[a2 n3]|]; [|discriminate].
  destruct (asArray (orElse (lookup "desserts" props) _)) as [l3|];
    [|discriminate].
  destruct (mapM _ l3 n3) as [[a3 n4]|]; [|discriminate].
  unfold ret. intros H. injection H as <-. simpl. split; reflexivity.
Qed.

(** C8 (amended).  When the answer omits [perPersonCost], the result carries
    the midpoint of the band of the chosen budget tier; when it omits
    [totalCost] as well (and the guest count is not zero), that midpoint is
    the returned total divided by the guest count. *)
Theorem generateGuestMenu_perPersonCost_default
    (guestCount : Q) (budget : Budget) (city apiKey : string) (now : Z)
    (n : nat) (props : list (string * value)) (r : GuestMenuResult) :
  embeddedJson JSON_parse fetchGemini apiKey
    (guestPrompt ToString guestMenuPrompt guestCount budget city)
    None "Не удалось сгенерировать меню" = Ok (VObj props) ->
  lookup "perPersonCost" props = VUndefined ->
  run (generateGuestMenuWithGemini Date_toISOString JSON_parse ToString freshId
         fetchGemini guestMenuPrompt guestCount budget city apiKey now) n
  = Ok r ->
  exists c : Q,
    perPersonCost r = VNum c /\
    (c == inject_Z (fst (budgetRanges budget) + snd (budgetRanges budget)) / 2)%Q
    /\
    (lookup "totalCost" props = VUndefined -> ~ (guestCount == 0)%Q ->
     exists t : Q, totalCost r = VNum t /\ (c == t / guestCount)%Q).
Proof.
  intros He Hpp Hr.
  destruct (generateGuestMenu_costs _ _ _ _ _ _ _ _ He Hr) as (Ht & Hp).
  rewrite Hpp in Hp. exists (targetCostPerPerson budget).
  split; [exact Hp|]. split; [reflexivity|].
  intros Htc Hg. rewrite Htc in Ht.
  exists (totalBudget guestCount budget). split; [exact Ht|].
  unfold totalBudget. field. exact Hg.
Qed.

End WithService.

(** C2 (counterexample).  The cheese of the sample expires in five days and
    is classified [warning], yet its name is not flagged: the flagged names
    are not the names of all candidates that are not [fresh]. *)
Lemma expiringProducts_not_all_urgent :
  ~ (forall (products : list Helpers.Product) (n : string),
        In n (expiringProducts Host.isoParse Sample.now products) <->
        exists p,
          In p products /\ Helpers.name p = n /\
          Helpers.getExpiryStatus Host.isoParse Host.utcMidnight Sample.now
            (Helpers.expiryDate p) <> Helpers.fresh).
Proof.
  intros H. destruct (H [Sample.cheese] "Cheese") as [_ Hflag].
  assert (Hin : In "Cheese"
                  (expiringProducts Host.isoParse Sample.now [Sample.cheese])).
  { apply Hflag. exists Sample.cheese. repeat split.
    - left. reflexivity.
    - vm_compute. discriminate. }
  vm_compute in Hin. exact Hin.
Qed.

(** The midnight of the sample host (a device on UTC) is the start of a day
    of 24 hours. *)
Lemma utcMidnight_day t :
  Host.utcMidnight t <= t < Host.utcMidnight t + Helpers.msPerDay.
Proof.
  unfold Host.utcMidnight.
  pose proof (Z.mod_pos_bound t Helpers.msPerDay eq_refl). lia.
Qed.

Lemma utcMidnight_grid a b :
  exists k, Host.utcMidnight a - Host.utcMidnight b = k * Helpers.msPerDay.
Proof.
  exists (a / Helpers.msPerDay - b / Helpers.msPerDay).
  unfold Host.utcMidnight.
  rewrite (Z.mod_eq a Helpers.msPerDay), (Z.mod_eq b Helpers.msPerDay)
    by discriminate.
  lia.
Qed.

(** Of the sample products the milk, the bread and the expired yogurt are
    flagged: all three are [critical]; the yogurt, with less than two days
    left, had to be. *)
Lemma expiringProducts_spec_witness :
  exists flagged,
    expiringProducts Host.isoParse Sample.now Sample.fridge
    = map Helpers.name flagged /\
    map Helpers.name flagged = ["Milk"; "Bread"; "Yogurt"] /\
    (forall p,
        In p flagged ->
        Helpers.getExpiryStatus Host.isoParse Host.utcMidnight Sample.now
          (Helpers.expiryDate p) = Helpers.critical) /\
    In Sample.yogurt flagged.
Proof.
  destruct (expiringProducts_spec Host.isoParse Host.utcMidnight Sample.now
              Sample.fridge utcMidnight_day utcMidnight_grid)
    as (keep & flagged & _ & Enames & Hsound & Hcomplete).
  exists flagged. split; [exact Enames|].
  split; [rewrite <- Enames; vm_compute; reflexivity|].
  split; [intros p Hp; apply (Hsound p Hp)|].
  apply (Hcomplete Sample.yogurt (-1)).
  - vm_compute. tauto.
  - vm_compute. reflexivity.
  - lia.
Defined.

(** Whether a candidate with exactly three days left is flagged depends on
    the time of day: the request builder measures from the current instant
    and not from midnight, so the eggs, [critical] with three days left, are
    not flagged. *)
Example expiringProducts_skips_critical :
  Helpers.getExpiryStatus Host.isoParse Host.utcMidnight Sample.now
    (Helpers.expiryDate Sample.eggs) = Helpers.critical /\
  expiringProducts Host.isoParse Sample.now (Sample.eggs :: Sample.fridge)
  = ["Milk"; "Bread"; "Yogurt"].
Proof. vm_compute. split; reflexivity. Qed.

(** On the answer [{"products":[{"name":"Краб","category":"seafood"}]}] the
    call throws. *)
Lemma analyzeImage_unknown_category_throws_witness :
  Helpers.isProductCategory "seafood" = false /\
  orElse (VStr "seafood") (VStr "other") = VStr "seafood" /\
  exists e, Sample.analyzeImage Sample.crabJson = Throw e.
Proof.
  split; [reflexivity|].
  apply (analyzeImage_unknown_category_throws Host.addDaysUtc Host.toISO
           Sample.JSON_parse Host.toStr Host.freshId
           (Sample.answers Sample.crabJson) Sample.analyzePrompt
           "aW1hZ2U=" "key" Sample.now 0%nat
           [("products",
             VArr [VObj [("name", VStr "Краб"); ("category", VStr "seafood")]])]
           [("name", VStr "Краб"); ("category", VStr "seafood")]
           [] [] "seafood").
  - vm_compute. reflexivity.
  - reflexivity.
  - reflexivity.
  - reflexivity.
  - reflexivity.
Defined.

(** The exception is the RangeError of [toISOString] on an Invalid Date. *)
Example analyzeImage_seafood :
  Js.matchBraces Sample.crabJson = Some Sample.crabJson /\
  Sample.analyzeImage Sample.crabJson = Throw RangeError.
Proof. vm_compute. split; reflexivity. Qed.

(** With recognised or missing categories the same call returns products. *)
Example analyzeImage_known_categories :
  exists p1 p2,
    Sample.analyzeImage Sample.kefirJson = Ok [p1; p2] /\
    po_category p1 = VStr "dairy" /\ po_category p2 = VStr "other" /\
    po_expiryDate p1 = "2026-11-09T10:15:00.000Z" /\
    po_expiryDate p2 = "2026-11-16T10:15:00.000Z".
Proof. vm_compute. do 2 eexists. repeat split; reflexivity. Qed.

(** Two servings are requested and the answer
    [{"title":"Суп","ingredients":[],"instructions":[]}] says nothing about
    servings: the recipe has 4. *)
Lemma generateRecipe_defaults_witness :
  let preferences :=
    {| pref_servings := Some 2%Q; pref_maxTime := None;
       pref_difficulty := None |} in
  servingsOf (Some preferences) = Some 2%Q /\
  exists r,
    Sample.generateRecipe Sample.soupText Sample.fridge (Some preferences)
    = Ok r /\
    servings r = VNum 4 /\
    cookTime r = VNum 30 /\
    difficulty r = VStr "medium" /\
    usesExpiringProducts r
    = VArr (map VStr (expiringProducts Host.isoParse Sample.now Sample.fridge)).
Proof.
  intros preferences. split; [reflexivity|].
  destruct (generateRecipe_defaults Host.isoParse Host.toISO Sample.JSON_parse
              Host.toStr Host.freshId (Sample.answers Sample.soupText)
              Sample.recipePromptIntro Sample.recipePromptFormat
              Sample.fridge "key" (Some preferences) Sample.now 0%nat
              [("title", VStr "Суп"); ("ingredients", VArr []);
               ("instructions", VArr [])])
    as (r & Hr & Hs & Hc & Hd & Hu & _).
  - vm_compute. reflexivity.
  - reflexivity.
  - reflexivity.
  - reflexivity.
  - reflexivity.
  - exists r. repeat split; assumption.
Defined.

(** The recipe of that example in full. *)
Example generateRecipe_soup :
  Sample.generateRecipe Sample.soupText Sample.fridge
    (Some {| pref_servings := Some 2%Q; pref_maxTime := None;
             pref_difficulty := None |})
  = Ok {| id := "id0";
          title := VStr "Суп";
          description := VStr EmptyString;
          imageUri := None;
          cookTime := VNum 30;
          servings := VNum 4;
          difficulty := VStr "medium";
          ingredients := VArr [];
          instructions := VArr [];
          usesExpiringProducts :=
            VArr [VStr "Milk"; VStr "Bread"; VStr "Yogurt"];
          rating := None;
          generatedAt := "2026-11-02T10:15:00.000Z";
          savedAt := None |}.
Proof. vm_compute. reflexivity. Qed.

(** C8 (counterexample).  For four guests on the economy tier and the answer
    [{"totalCost":5000}], which omits [perPersonCost], the result has a total
    of 5000 and a cost per person of 875, not 5000 / 4 = 1250. *)
Lemma generateGuestMenu_perPersonCost_not_quotient :
  exists r t c,
    Sample.generateGuestMenu Sample.costJson 4 economy = Ok r /\
    totalCost r = VNum t /\ perPersonCost r = VNum c /\
    (t == 5000)%Q /\ (c == 875)%Q /\ ~ (c == t / 4)%Q.
Proof.
  eexists. exists 5000%Q, (targetCostPerPerson economy).
  repeat split; try (vm_compute; reflexivity).
  vm_compute. discriminate.
Qed.

(** With the answer [{}] both cost fields are defaulted and agree. *)
Lemma generateGuestMenu_perPersonCost_default_witness :
  Sample.generateGuestMenu Sample.emptyJson 4 economy
  = Ok (Sample.bareMenu 4 economy) /\
  exists c : Q,
    perPersonCost (Sample.bareMenu 4 economy) = VNum c /\
    (c == inject_Z (fst (budgetRanges economy) + snd (budgetRanges economy)) / 2)%Q
    /\
    (lookup "totalCost" [] = VUndefined -> ~ (4 == 0)%Q ->
     exists t : Q,
       totalCost (Sample.bareMenu 4 economy) = VNum t /\ (c == t / 4)%Q).
Proof.
  assert (H : Sample.generateGuestMenu Sample.emptyJson 4 economy
              = Ok (Sample.bareMenu 4 economy)).
  { vm_compute. reflexivity. }
  split; [exact H|].
  apply (generateGuestMenu_perPersonCost_default Host.toISO Sample.JSON_parse
           Host.toStr Host.freshId (Sample.answers Sample.emptyJson)
           Sample.guestMenuPrompt 4 economy "Бишкек" "key" Sample.now 0%nat []).
  - vm_compute. reflexivity.
  - reflexivity.
  - exact H.
Defined.

End ApiFacts.

(** ** The storage layer *)

Module StorageFacts.
Import Js Api Storage.
#[local] Set Warnings "-inexact-float".

Lemma in_ids_filter x (l : list Recipe) :
  ~ In x (map id (filter (fun r => negb (String.eqb (id r) x)) l)).
Proof.
  intros H. apply in_map_iff in H. destruct H as (r & E & Hin).
  apply filter_In in Hin. destruct Hin as (_ & Hne).
  rewrite E, String.eqb_refl in Hne. discriminate.
Qed.

Lemma NoDup_ids_filter (f : Recipe -> bool) (l : list Recipe) :
  NoDup (map id l) -> NoDup (map id (filter f l)).
Proof.
  induction l as [|r l IH]; simpl; intros H.
  - constructor.
  - inversion H as [|? ? Hnot Hrest]; subst.
    destruct (f r); simpl; [|auto].
    constructor; [|auto].
    intros Hin. apply Hnot. apply in_map_iff in Hin.
    destruct Hin as (r' & E & Hin'). apply filter_In in Hin'.
    apply in_map_iff. exists r'. tauto.
Qed.

Lemma NoDup_firstn {A} n (l : list A) : NoDup l -> NoDup (firstn n l).
Proof.
  intros H. rewrite <- (firstn_skipn n l) in H.
  apply NoDup_app_remove_r in H. exact H.
Qed.

(** One call on a history: the shape of the result. *)
Lemma getRecipeHistory_add recipe st :
  getRecipeHistory (addToRecipeHistory recipe st)
  = recipe
    :: firstn 49
         (filter (fun r => negb (String.eqb (id r) (id recipe)))
                 (getRecipeHistory st)).
Proof. reflexivity. Qed.

Lemma addToRecipeHistory_NoDup recipe st :
  NoDup (map id (getRecipeHistory st)) ->
  NoDup (map id (getRecipeHistory (addToRecipeHistory recipe st))).
Proof.
  intros H. rewrite getRecipeHistory_add, map_cons. constructor.
  - rewrite <- firstn_map. intros Hin.
    apply (in_ids_filter (id recipe) (getRecipeHistory st)).
    revert Hin. generalize (map id
      (filter (fun r => negb (String.eqb (id r) (id recipe)))
              (getRecipeHistory st))).
    intros l Hin. rewrite <- (firstn_skipn 49 l).
    apply in_or_app. left. exact Hin.
  - rewrite <- firstn_map. apply NoDup_firstn, NoDup_ids_filter, H.
Qed.

Lemma addAll_NoDup recipes st :
  NoDup (map id (getRecipeHistory st)) ->
  NoDup (map id (getRecipeHistory
                   (fold_left (fun s r => addToRecipeHistory r s) recipes st))).
Proof.
  revert st. induction recipes as [|r recipes IH]; simpl; intros st H.
  - exact H.
  - apply IH, addToRecipeHistory_NoDup, H.
Qed.

(** A history that the program has written holds no id twice. *)
Lemma Reachable_NoDup st :
  Reachable st -> NoDup (map id (getRecipeHistory st)).
Proof.
  induction 1 as [st Hblank|recipe st _ IH|st st' _ IH Hsame].
  - unfold getRecipeHistory. rewrite Hblank. constructor.
  - apply addToRecipeHistory_NoDup, IH.
  - unfold getRecipeHistory in *. rewrite Hsame. exact IH.
Qed.

(** The other operations of the layer keep a store reachable. *)
Lemma Reachable_other_operations st :
  Reachable st ->
  (forall recipe t, Reachable (saveRecipe recipe t st)) /\
  (forall recipeId, Reachable (removeSavedRecipe recipeId st)) /\
  (forall loadedAt updates t, Reachable (updateUserStats loadedAt updates t st))
  /\
  (forall loadedAt key amount t,
      Reachable (incrementStat loadedAt key amount t st)).
Proof.
  intros H. repeat split; intros.
  - apply reach_other with st; [exact H|].
    unfold saveRecipe. destruct (negb _); reflexivity.
  - apply reach_other with st; [exact H | reflexivity].
  - apply reach_other with st; [exact H | reflexivity].
  - apply reach_other with st; [exact H | reflexivity].
Qed.

(** The calls up to and including the [n]-th one: the last of them is a call
    on the store that the earlier ones have left. *)
Lemma addAll_upto (calls : list Recipe) n recipe st :
  nth_error calls n = Some recipe ->
  fold_left (fun s r => addToRecipeHistory r s) (firstn (S n) calls) st
  = addToRecipeHistory recipe
      (fold_left (fun s r => addToRecipeHistory r s) (firstn n calls) st).
Proof.
  revert n st. induction calls as [|r calls IH]; intros [|n] st H;
    try discriminate.
  - simpl in H. injection H as ->. reflexivity.
  - simpl in H. cbn [firstn fold_left]. apply IH, H.
Qed.

(** C4.  Start from any store that the program can be in and make any
    sequence of [addToRecipeHistory] calls: after each call the history holds
    no id twice, has at most 50 entries, and begins with the recipe of that
    call. *)
Theorem addToRecipeHistory_invariant (start : Store) (calls : list Recipe)
    (n : nat) (recipe : Recipe) :
  Reachable start ->
  nth_error calls n = Some recipe ->
  let history :=
    getRecipeHistory
      (fold_left (fun s r => addToRecipeHistory r s) (firstn (S n) calls)
                 start) in
  NoDup (map id history) /\
  (List.length history <= 50)%nat /\
  hd_error history = Some recipe.
Proof.
  intros Hstart Hnth history. unfold history.
  rewrite (addAll_upto calls n recipe start Hnth).
  set (before := fold_left (fun s r => addToRecipeHistory r s)
                           (firstn n calls) start).
  split; [|split].
  - apply addToRecipeHistory_NoDup, addAll_NoDup, Reachable_NoDup, Hstart.
  - change (getRecipeHistory (addToRecipeHistory recipe before))
      with (firstn 50
              (recipe
               :: filter (fun r => negb (String.eqb (id r) (id recipe)))
                         (getRecipeHistory before))).
    apply firstn_le_length.
  - reflexivity.
Qed.

Lemma existsb_sameId_In x (l : list Recipe) :
  existsb (fun r => String.eqb (id r) x) l = true <-> In x (map id l).
Proof.
  rewrite existsb_exists, in_map_iff. split.
  - intros (r & Hin & E). apply String.eqb_eq in E. exists r. auto.
  - intros (r & E & Hin). exists r. split; [exact Hin|].
    apply String.eqb_eq, E.
Qed.

(** C5.  [saveRecipe] leaves the store as it is when the saved collection
    already holds the id, and otherwise puts in front of it one new entry:
    the recipe with every field as it was given, except [savedAt], which is
    the time of saving.  A second call with the same id changes nothing, and
    after the two calls the id occurs once, or as often as it did before if
    that was more: exactly once for a collection that held it at most
    once. *)
Theorem saveRecipe_idempotent (recipe again : Recipe) (t1 t2 : string)
    (st : Store) :
  id again = id recipe ->
  let saved := getSavedRecipes st in
  let present := existsb (fun r => String.eqb (id r) (id recipe)) saved in
  let st1 := saveRecipe recipe t1 st in
  let st2 := saveRecipe again t2 st1 in
  let occurrences l := count_occ string_dec (map id l) (id recipe) in
  (present = true -> st1 = st) /\
  (present = false ->
   getSavedRecipes st1
   = {| id := id recipe;
        title := title recipe;
        description := description recipe;
        imageUri := imageUri recipe;
        cookTime := cookTime recipe;
        servings := servings recipe;
        difficulty := difficulty recipe;
        ingredients := ingredients recipe;
        instructions := instructions recipe;
        usesExpiringProducts := usesExpiringProducts recipe;
        rating := rating recipe;
        generatedAt := generatedAt recipe;
        savedAt := Some t1 |} :: saved) /\
  st2 = st1 /\
  occurrences (getSavedRecipes st2) = Nat.max 1 (occurrences saved) /\
  ((occurrences saved <= 1)%nat -> occurrences (getSavedRecipes st2) = 1%nat).
Proof.
  intros Hid saved present st1 st2 occurrences.
  assert (H1 : present = true -> st1 = st).
  { intros Hp. unfold st1, saveRecipe. fold saved. fold present.
    rewrite Hp. reflexivity. }
  assert (H2 : present = false ->
               getSavedRecipes st1 = withSavedAt recipe t1 :: saved).
  { intros Hp. unfold st1, saveRecipe. fold saved. fold present.
    rewrite Hp. reflexivity. }
  assert (H3 : st2 = st1).
  { unfold st2, saveRecipe. rewrite Hid.
    destruct present eqn:Hp.
    - rewrite (H1 eq_refl). fold saved. fold present. rewrite Hp. reflexivity.
    - rewrite (H2 eq_refl). simpl. rewrite String.eqb_refl. reflexivity. }
  assert (H4 : occurrences (getSavedRecipes st2)
               = Nat.max 1 (occurrences saved)).
  { rewrite H3. destruct present eqn:Hp.
    - rewrite (H1 eq_refl). fold saved.
      assert (Hin : In (id recipe) (map id saved))
        by (apply existsb_sameId_In; exact Hp).
      apply (count_occ_In string_dec) in Hin. unfold occurrences. lia.
    - rewrite (H2 eq_refl). unfold occurrences. simpl.
      destruct (string_dec (id recipe) (id recipe)) as [_|Hne];
        [|contradiction].
      assert (Hnot : ~ In (id recipe) (map id saved)).
      { intros Hin. apply existsb_sameId_In in Hin. fold present in Hin.
        congruence. }
      apply (count_occ_not_In string_dec) in Hnot. rewrite Hnot.
      reflexivity. }
  repeat split; auto.
  intros Hle. rewrite H4. lia.
Qed.

(** C10 (amended).  [incrementStat] changes the field named by the key and
    [lastUpdated] only: the four other numeric fields, and the other
    collections of the store, keep their values.  The named field becomes
    the sum of its value and the amount as the language adds two numbers,
    that is, rounded to a double; this is said of a sum that JSON can
    hold. *)
Theorem incrementStat_frame (loadedAt : string) (key : StatKey)
    (amount : JsDouble.number) (timestamp : string) (st : Store) :
  let old := getUserStats loadedAt st in
  let st' := incrementStat loadedAt key amount timestamp st in
  let new := getUserStats loadedAt st' in
  (JsDouble.storable (JsDouble.add (statOf key old) amount) = true ->
   statOf key new = JsDouble.add (statOf key old) amount) /\
  lastUpdated new = timestamp /\
  (forall k : StatKey, k <> key -> statOf k new = statOf k old) /\
  SAVED_RECIPES st' = SAVED_RECIPES st /\
  RECIPE_HISTORY st' = RECIPE_HISTORY st.
Proof.
  intros old st' new. repeat split.
  - intros _. destruct key; reflexivity.
  - intros k Hk. destruct key, k; try reflexivity; contradiction.
Qed.

(** C10 (counterexample).  On a fresh installation, where [timeSaved] reads
    180, a recipe whose cooking time is 0.1 is credited: the field is not
    increased by exactly the amount.  The number stored stands for a
    rational other than the old value plus the amount, and taking the old
    value off it again gives 0.09999999999999432. *)
Lemma incrementStat_not_exact :
  let old := statOf KTimeSaved (getUserStats Sample.loadedAt Sample.emptyStore) in
  let amount := 0.1%float in
  let new :=
    statOf KTimeSaved
      (getUserStats Sample.loadedAt
         (incrementStat Sample.loadedAt KTimeSaved amount
            "2026-11-02T10:30:00.000Z" Sample.emptyStore)) in
  JsDouble.storable new = true /\
  PrimFloat.sub new old = 0.09999999999999432%float /\
  PrimFloat.sub new old <> amount /\
  exists o a n : Q,
    JsDouble.exact old = Some o /\
    JsDouble.exact amount = Some a /\
    JsDouble.exact new = Some n /\
    ~ (n == o + a)%Q.
Proof.
  split; [reflexivity|]. split; [reflexivity|]. split.
  - vm_compute. intros H.
    apply (f_equal (fun x => PrimFloat.eqb x 0.1%float)) in H.
    vm_compute in H. discriminate.
  - do 3 eexists. split; [vm_compute; reflexivity|].
    split; [vm_compute; reflexivity|]. split; [vm_compute; reflexivity|].
    vm_compute. discriminate.
Qed.

(** A store that holds the soup in its history; then the plov and the soup
    under a new title are added: after the second of the two calls the
    history is the soup, then the plov. *)
Lemma addToRecipeHistory_invariant_witness :
  let start := addToRecipeHistory Sample.soup Sample.emptyStore in
  let calls := [Sample.plov; Sample.soupAgain] in
  let history :=
    getRecipeHistory
      (fold_left (fun s r => addToRecipeHistory r s) (firstn 2 calls) start) in
  Reachable start /\
  nth_error calls 1 = Some Sample.soupAgain /\
  NoDup (map id history) /\
  (List.length history <= 50)%nat /\
  hd_error history = Some Sample.soupAgain /\
  map id history = ["r1"; "r2"].
Proof.
  assert (Hstart : Reachable (addToRecipeHistory Sample.soup Sample.emptyStore))
    by (apply reach_add, reach_blank; reflexivity).
  destruct (addToRecipeHistory_invariant
              (addToRecipeHistory Sample.soup Sample.emptyStore)
              [Sample.plov; Sample.soupAgain] 1 Sample.soupAgain
              Hstart eq_refl) as (Hnodup & Hlen & Hhead).
  split; [exact Hstart|]. split; [reflexivity|].
  split; [exact Hnodup|]. split; [exact Hlen|]. split; [exact Hhead|].
  reflexivity.
Defined.

(** Saving the soup twice into an empty store: the one entry is the soup,
    stamped with the time of the first call. *)
Lemma saveRecipe_idempotent_witness :
  id Sample.soupAgain = id Sample.soup /\
  existsb (fun r => String.eqb (id r) (id Sample.soup))
    (getSavedRecipes Sample.emptyStore) = false /\
  (exists entry,
      getSavedRecipes
        (saveRecipe Sample.soup "2026-11-02T10:16:00.000Z" Sample.emptyStore)
      = [entry] /\
      savedAt entry = Some "2026-11-02T10:16:00.000Z" /\
      title entry = VStr "Суп" /\
      generatedAt entry = "2026-11-02T10:15:00.000Z") /\
  saveRecipe Sample.soupAgain "2026-11-02T10:20:00.000Z"
    (saveRecipe Sample.soup "2026-11-02T10:16:00.000Z" Sample.emptyStore)
  = saveRecipe Sample.soup "2026-11-02T10:16:00.000Z" Sample.emptyStore /\
  count_occ string_dec
    (map id
       (getSavedRecipes
          (saveRecipe Sample.soupAgain "2026-11-02T10:20:00.000Z"
             (saveRecipe Sample.soup "2026-11-02T10:16:00.000Z"
                Sample.emptyStore))))
    (id Sample.soup) = 1%nat.
Proof.
  destruct (saveRecipe_idempotent Sample.soup Sample.soupAgain
              "2026-11-02T10:16:00.000Z" "2026-11-02T10:20:00.000Z"
              Sample.emptyStore eq_refl)
    as (_ & Hnew & Hsame & _ & Hone).
  split; [reflexivity|]. split; [reflexivity|].
  split; [eexists; split; [exact (Hnew eq_refl)|repeat split]|].
  split; [exact Hsame|].
  apply Hone. simpl. lia.
Defined.

(** Twenty-five minutes saved, on a store without a stats record. *)
Lemma incrementStat_frame_witness :
  let st' :=
    incrementStat Sample.loadedAt KTimeSaved 25%float
      "2026-11-02T10:30:00.000Z" Sample.emptyStore in
  KMoneySaved <> KTimeSaved /\
  JsDouble.storable (JsDouble.add 180%float 25%float) = true /\
  statOf KMoneySaved (getUserStats Sample.loadedAt st')
  = statOf KMoneySaved (getUserStats Sample.loadedAt Sample.emptyStore) /\
  statOf KTimeSaved (getUserStats Sample.loadedAt st') = 205%float.
Proof.
  assert (Hne : KMoneySaved <> KTimeSaved) by discriminate.
  assert (Hfits : JsDouble.storable (JsDouble.add 180%float 25%float) = true)
    by reflexivity.
  destruct (incrementStat_frame Sample.loadedAt KTimeSaved 25%float
              "2026-11-02T10:30:00.000Z" Sample.emptyStore)
    as (Hkey & _ & Hothers & _).
  split; [exact Hne|]. split; [exact Hfits|].
  split; [exact (Hothers KMoneySaved Hne) | exact (Hkey Hfits)].
Defined.

End StorageFacts.

(** * Further properties *)

(** ** More on the stable sort *)

Module StableSortFacts.
Import JsNum Helpers SortFacts.

Section ByKey.

Context {A : Type}.
Variable key : A -> num.

Lemma keyLe_compare x y :
  keyLe key x y -> (sortCompare (byKey key) x y <=? 0) = true.
Proof.
  intros (kx & ky & Ex & Ey & Hle).
  unfold sortCompare, byKey, sub. rewrite Ex, Ey. apply Z.leb_le. lia.
Qed.

Lemma keyLe_trans x y z : keyLe key x y -> keyLe key y z -> keyLe key x z.
Proof.
  intros (kx & ky & Ex & Ey & Hxy) (ky' & kz & Ey' & Ez & Hyz).
  exists kx, kz. repeat split; auto.
  assert (ky' = ky) by congruence. lia.
Qed.

(** Inserting in front of a sorted list whose elements are not smaller. *)
Lemma insert_front x l :
  Forall (keyLe key x) l -> insert (byKey key) x l = x :: l.
Proof.
  intros H. destruct l as [|y l]; simpl; [reflexivity|].
  inversion H as [|? ? Hxy _]; subst.
  rewrite (keyLe_compare _ _ Hxy). reflexivity.
Qed.

Lemma sort_sorted_id l :
  StronglySorted (keyLe key) l -> sort (byKey key) l = l.
Proof.
  induction 1 as [|x l Hs IH Hx]; simpl.
  - reflexivity.
  - rewrite IH. apply insert_front, Hx.
Qed.

Lemma StronglySorted_filter (R : A -> A -> Prop) (P : A -> bool) l :
  StronglySorted R l -> StronglySorted R (filter P l).
Proof.
  induction 1 as [|x l Hs IH Hx]; simpl.
  - constructor.
  - destruct (P x); [|exact IH].
    constructor; [exact IH|].
    rewrite Forall_forall in Hx |- *. intros y Hy.
    apply filter_In in Hy. apply Hx, Hy.
Qed.

Lemma StronglySorted_app_le (R : A -> A -> Prop) l1 l2 :
  StronglySorted R (l1 ++ l2) ->
  forall a b, In a l1 -> In b l2 -> R a b.
Proof.
  induction l1 as [|x l1 IH]; simpl; intros H a b Ha Hb.
  - contradiction.
  - inversion H as [|? ? Hs Hx]; subst. destruct Ha as [<-|Ha].
    + rewrite Forall_forall in Hx. apply Hx, in_or_app. right. exact Hb.
    + apply IH; assumption.
Qed.

Lemma StronglySorted_firstn (R : A -> A -> Prop) n l :
  StronglySorted R l -> StronglySorted R (firstn n l).
Proof.
  intros H. revert n. induction H as [|x l Hs IH Hx]; intros [|n]; simpl;
    try constructor.
  - apply IH.
  - rewrite Forall_forall in Hx |- *. intros y Hy. apply Hx.
    rewrite <- (firstn_skipn n l). apply in_or_app. left. exact Hy.
Qed.

(** On a sorted list, filtering commutes with insertion. *)
Lemma filter_insert_sorted (P : A -> bool) x l :
  key x <> None ->
  Forall (fun a => key a <> None) l ->
  StronglySorted (keyLe key) l ->
  filter P (insert (byKey key) x l)
  = if P x then insert (byKey key) x (filter P l) else filter P l.
Proof.
  intros Hx Hl Hs. induction Hs as [|y l Hs IH Hy]; simpl.
  - destruct (P x); reflexivity.
  - inversion Hl as [|? ? Hky Hl']; subst.
    destruct (sortCompare (byKey key) x y <=? 0) eqn:E; simpl.
    + destruct (P x) eqn:Px, (P y) eqn:Py; simpl; try reflexivity.
      * rewrite E. reflexivity.
      * symmetry. apply insert_front.
        assert (Hxy : keyLe key x y).
        { unfold sortCompare, byKey, sub in E. apply Z.leb_le in E.
          destruct (key x) as [kx|] eqn:Ex; [|congruence].
          destruct (key y) as [ky|] eqn:Ey; [|congruence].
          exists kx, ky. repeat split; auto. lia. }
        rewrite Forall_forall in Hy |- *. intros z Hz.
        apply filter_In in Hz. apply keyLe_trans with y; [exact Hxy|].
        apply Hy, Hz.
    + rewrite (IH Hl'). destruct (P x) eqn:Px, (P y) eqn:Py; simpl;
        try reflexivity.
      rewrite E. reflexivity.
Qed.

Lemma filter_sort_commute (P : A -> bool) l :
  Forall (fun a => key a <> None) l ->
  filter P (sort (byKey key) l) = sort (byKey key) (filter P l).
Proof.
  induction l as [|x l IH]; simpl; intros H.
  - reflexivity.
  - inversion H as [|? ? Hx Hl]; subst.
    rewrite filter_insert_sorted; auto.
    + rewrite (IH Hl). destruct (P x); reflexivity.
    + apply Permutation_Forall with l; [apply sort_perm | exact Hl].
    + apply sort_sorted, Hl.
Qed.

End ByKey.

End StableSortFacts.

(** ** Urgency: ordering, selection and what the screens show *)

Module UrgencyFacts.
Import JsNum JsNumFacts Helpers SortFacts StableSortFacts Screens.

Lemma ceilDiv_mono x y d : 0 < d -> x <= y -> ceilDiv x d <= ceilDiv y d.
Proof.
  intros Hd Hxy. unfold ceilDiv.
  assert ((- y) / d <= (- x) / d) by (apply Z.div_le_mono; lia). lia.
Qed.

Lemma filter_length_le_of_imp {A} (f g : A -> bool) l :
  (forall x, f x = true -> g x = true) ->
  (List.length (filter f l) <= List.length (filter g l))%nat.
Proof.
  intros H. induction l as [|x l IH]; simpl; [lia|].
  destruct (f x) eqn:Fx.
  - rewrite (H x Fx). simpl. lia.
  - destruct (g x); simpl; lia.
Qed.

Lemma utcMidnight_mono a b : a <= b -> Host.utcMidnight a <= Host.utcMidnight b.
Proof.
  intros H. unfold Host.utcMidnight.
  assert (Hd : 0 < msPerDay) by reflexivity.
  pose proof (Z.div_mod a msPerDay ltac:(lia)) as Ea.
  pose proof (Z.div_mod b msPerDay ltac:(lia)) as Eb.
  assert (a / msPerDay <= b / msPerDay) by (apply Z.div_le_mono; lia).
  nia.
Qed.

Section WithDate.

Variable Date_parse : string -> option Z.
Variable localMidnight : Z -> Z.

Lemma status_cases now d :
  (getExpiryStatus Date_parse localMidnight now d = critical /\
   exists k, getDaysUntilExpiry Date_parse localMidnight now d = Some k
             /\ k <= 3) \/
  (getExpiryStatus Date_parse localMidnight now d = warning /\
   exists k, getDaysUntilExpiry Date_parse localMidnight now d = Some k
             /\ 4 <= k <= 7) \/
  (getExpiryStatus Date_parse localMidnight now d = fresh /\
   (getDaysUntilExpiry Date_parse localMidnight now d = None \/
    exists k, getDaysUntilExpiry Date_parse localMidnight now d = Some k
              /\ 8 <= k)).
Proof.
  change (getExpiryStatus Date_parse localMidnight now d)
    with (if leb (getDaysUntilExpiry Date_parse localMidnight now d) 3
          then critical
          else if leb (getDaysUntilExpiry Date_parse localMidnight now d) 7
               then warning else fresh).
  destruct (getDaysUntilExpiry Date_parse localMidnight now d) as [k|]; simpl.
  - destruct (k <=? 3) eqn:H3; [apply Z.leb_le in H3 | apply Z.leb_gt in H3].
    + left. split; [reflexivity|]. exists k. auto.
    + destruct (k <=? 7) eqn:H7;
        [apply Z.leb_le in H7 | apply Z.leb_gt in H7].
      * right. left. split; [reflexivity|]. exists k. split; [auto | lia].
      * right. right. split; [reflexivity|]. right. exists k.
        split; [auto | lia].
  - right. right. split; [reflexivity|]. left. reflexivity.
Qed.

(** X1.  Where the normalisation to midnight is monotone, urgency is
    monotone: of two parseable expiry dates the earlier one has no more days
    left, and with the passing of time the days left of a date do not grow.
    So an earlier date, or a later look at the same date, is [critical]
    whenever the other is, and [fresh] only if the other is. *)
Theorem urgency_monotone (now now' : Z) (d d' : string) (t t' : Z) :
  (forall a b, a <= b -> localMidnight a <= localMidnight b) ->
  Date_parse d = Some t ->
  Date_parse d' = Some t' ->
  t <= t' ->
  now <= now' ->
  exists k k' k'',
    getDaysUntilExpiry Date_parse localMidnight now d = Some k /\
    getDaysUntilExpiry Date_parse localMidnight now d' = Some k' /\
    getDaysUntilExpiry Date_parse localMidnight now' d = Some k'' /\
    k'' <= k <= k' /\
    (getExpiryStatus Date_parse localMidnight now d' = critical ->
     getExpiryStatus Date_parse localMidnight now d = critical) /\
    (getExpiryStatus Date_parse localMidnight now d = fresh ->
     getExpiryStatus Date_parse localMidnight now d' = fresh) /\
    (getExpiryStatus Date_parse localMidnight now d = critical ->
     getExpiryStatus Date_parse localMidnight now' d = critical) /\
    (getExpiryStatus Date_parse localMidnight now' d = fresh ->
     getExpiryStatus Date_parse localMidnight now d = fresh).
Proof.
  intros Hmono Hd Hd' Ht Hnow.
  assert (Hday : 0 < msPerDay) by reflexivity.
  pose proof (Hmono _ _ Ht) as Hm1. pose proof (Hmono _ _ Hnow) as Hm2.
  assert (E : forall n s u, Date_parse s = Some u ->
                getDaysUntilExpiry Date_parse localMidnight n s
                = Some (ceilDiv (localMidnight u - localMidnight n) msPerDay)).
  { intros n s u Hs. unfold getDaysUntilExpiry, midnightOf. rewrite Hs.
    reflexivity. }
  assert (S : forall n s u, Date_parse s = Some u ->
                getExpiryStatus Date_parse localMidnight n s
                = let k := ceilDiv (localMidnight u - localMidnight n) msPerDay in
                  if k <=? 3 then critical
                  else if k <=? 7 then warning else fresh).
  { intros n s u Hs. unfold getExpiryStatus, midnightOf. rewrite Hs.
    reflexivity. }
  do 3 eexists. rewrite (E now d t Hd), (E now d' t' Hd'), (E now' d t Hd).
  rewrite (S now d t Hd), (S now d' t' Hd'), (S now' d t Hd). cbv zeta.
  set (k := ceilDiv (localMidnight t - localMidnight now) msPerDay).
  set (k' := ceilDiv (localMidnight t' - localMidnight now) msPerDay).
  set (k'' := ceilDiv (localMidnight t - localMidnight now') msPerDay).
  assert (Hk : k <= k') by (apply ceilDiv_mono; lia).
  assert (Hk' : k'' <= k) by (apply ceilDiv_mono; lia).
  repeat split; try reflexivity; try lia.
  - destruct (k' <=? 3) eqn:A; [apply Z.leb_le in A|];
      [|destruct (k' <=? 7); discriminate].
    intros _. assert (B : (k <=? 3) = true) by (apply Z.leb_le; lia).
    rewrite B. reflexivity.
  - destruct (k <=? 3) eqn:A; [discriminate|]. apply Z.leb_gt in A.
    destruct (k <=? 7) eqn:B; [discriminate|]. apply Z.leb_gt in B.
    intros _.
    assert (C : (k' <=? 3) = false) by (apply Z.leb_gt; lia).
    assert (D : (k' <=? 7) = false) by (apply Z.leb_gt; lia).
    rewrite C, D. reflexivity.
  - destruct (k <=? 3) eqn:A; [apply Z.leb_le in A|];
      [|destruct (k <=? 7); discriminate].
    intros _. assert (B : (k'' <=? 3) = true) by (apply Z.leb_le; lia).
    rewrite B. reflexivity.
  - destruct (k'' <=? 3) eqn:A; [discriminate|]. apply Z.leb_gt in A.
    destruct (k'' <=? 7) eqn:B; [discriminate|]. apply Z.leb_gt in B.
    intros _.
    assert (C : (k <=? 3) = false) by (apply Z.leb_gt; lia).
    assert (D : (k <=? 7) = false) by (apply Z.leb_gt; lia).
    rewrite C, D. reflexivity.
Qed.

(** X2.  The products selected within 7 days are exactly those of the input
    that are not [fresh] and not yet expired; those selected within 3 days
    are exactly the [critical] ones that are not yet expired. *)
Theorem getExpiringProducts_by_status (now : Z) (products : list Product)
    (p : Product) :
  (In p (getExpiringProducts Date_parse localMidnight now products 7) <->
   In p products /\
   getExpiryStatus Date_parse localMidnight now (expiryDate p) <> fresh /\
   geb (getDaysUntilExpiry Date_parse localMidnight now (expiryDate p)) 0
   = true) /\
  (In p (getExpiringProducts Date_parse localMidnight now products 3) <->
   In p products /\
   getExpiryStatus Date_parse localMidnight now (expiryDate p) = critical /\
   geb (getDaysUntilExpiry Date_parse localMidnight now (expiryDate p)) 0
   = true).
Proof.
  unfold getExpiringProducts. rewrite !filter_In, !andb_true_iff.
  destruct (status_cases now (expiryDate p))
    as [(-> & k & -> & Hk) | [(-> & k & -> & Hk) | (-> & [-> | (k & -> & Hk)])]];
    simpl; rewrite ?Z.leb_le; split; split;
    intros (Hin & H1 & H2); repeat split; auto;
    try discriminate; try congruence; try lia.
Qed.

(** X3.  A list that is already in ascending order of days left comes back
    unchanged, and, when every expiry date parses, sorting twice is sorting
    once. *)
Theorem sortProductsByExpiry_idempotent (now : Z) (products : list Product) :
  let days p :=
    getDaysUntilExpiry Date_parse localMidnight now (expiryDate p) in
  (StronglySorted (keyLe days) products ->
   sortProductsByExpiry Date_parse localMidnight now products = products) /\
  (Forall (fun p => Date_parse (expiryDate p) <> None) products ->
   sortProductsByExpiry Date_parse localMidnight now
     (sortProductsByExpiry Date_parse localMidnight now products)
   = sortProductsByExpiry Date_parse localMidnight now products).
Proof.
  intros days. split.
  - apply (sort_sorted_id days).
  - intros Hall. apply (sort_sorted_id days), (sort_sorted days).
    apply Forall_impl with (2 := Hall).
    intros p Hp. unfold days, getDaysUntilExpiry, midnightOf.
    destruct (Date_parse (expiryDate p)); [discriminate | congruence].
Qed.

Lemma days_of_parse now (products : list Product) :
  Forall (fun p => Date_parse (expiryDate p) <> None) products ->
  Forall (fun p =>
            getDaysUntilExpiry Date_parse localMidnight now (expiryDate p)
            <> None)
         products.
Proof.
  intros Hall. apply Forall_impl with (2 := Hall).
  intros p Hp. unfold getDaysUntilExpiry, midnightOf.
  destruct (Date_parse (expiryDate p)); [discriminate | congruence].
Qed.

(** X4.  The stock screen filters by tier and then sorts; when every expiry
    date parses this is the same list as the tier's products picked out of
    the fully sorted stock, and every product shown has the chosen tier. *)
Theorem stockProducts_commute (now : Z) (filter_ : FilterType)
    (products : list Product) :
  Forall (fun p => Date_parse (expiryDate p) <> None) products ->
  stockProducts Date_parse localMidnight now filter_ products
  = filteredProducts Date_parse localMidnight now filter_
      (sortProductsByExpiry Date_parse localMidnight now products)
  /\
  forall status p,
    filter_ = only status ->
    In p (stockProducts Date_parse localMidnight now filter_ products) ->
    In p products /\
    getExpiryStatus Date_parse localMidnight now (expiryDate p) = status.
Proof.
  intros Hall. split.
  - unfold stockProducts, filteredProducts. symmetry.
    apply (filter_sort_commute
             (fun p => getDaysUntilExpiry Date_parse localMidnight now
                         (expiryDate p))).
    apply days_of_parse, Hall.
  - intros status p -> Hin.
    unfold stockProducts in Hin.
    apply (Permutation_in _
             (Permutation_sym
                (sort_perm
                   (fun p => getDaysUntilExpiry Date_parse localMidnight now
                               (expiryDate p)) _))) in Hin.
    apply filter_In in Hin. destruct Hin as (Hin & Hs).
    split; [exact Hin|].
    destruct (getExpiryStatus Date_parse localMidnight now (expiryDate p)),
      status; simpl in Hs; congruence.
Qed.

(** X5.  The home screen shows at most five products; each comes from the
    stock and has between 0 and 7 days left; they are in ascending order of
    days left; and a product of the stock with 0 to 7 days left that is not
    shown has at least as many days left as every product shown.  No
    assumption on the dates is needed: a product whose date does not parse
    is never selected. *)
Theorem homeExpiringProducts_most_urgent (now : Z) (products : list Product) :
  let days p :=
    getDaysUntilExpiry Date_parse localMidnight now (expiryDate p) in
  let shown := homeExpiringProducts Date_parse localMidnight now products in
  (List.length shown <= 5)%nat /\
  (forall p, In p shown ->
             In p products /\ exists k, days p = Some k /\ 0 <= k <= 7) /\
  StronglySorted (keyLe days) shown /\
  (forall p k, In p products -> days p = Some k -> 0 <= k <= 7 ->
               In p shown \/ forall s, In s shown -> keyLe days s p).
Proof.
  intros days shown.
  set (selected := getExpiringProducts Date_parse localMidnight now products 7).
  set (sorted := sortProductsByExpiry Date_parse localMidnight now selected).
  assert (Hsel : forall p, In p selected <->
                   In p products /\ exists k, days p = Some k /\ 0 <= k <= 7).
  { intros p. apply HelpersFacts.getExpiringProducts_spec. }
  assert (Hperm : Permutation selected sorted) by apply (sort_perm days).
  assert (Hvalid : Forall (fun p => days p <> None) selected).
  { apply Forall_forall. intros p Hp. apply Hsel in Hp.
    destruct Hp as (_ & k & -> & _). discriminate. }
  assert (Hsorted : StronglySorted (keyLe days) sorted)
    by (apply (sort_sorted days), Hvalid).
  change shown with (firstn 5 sorted).
  split; [apply firstn_le_length|]. split; [|split].
  - intros p Hp. apply Hsel.
    apply (Permutation_in _ (Permutation_sym Hperm)).
    rewrite <- (firstn_skipn 5 sorted). apply in_or_app. left. exact Hp.
  - apply StronglySorted_firstn, Hsorted.
  - intros p k Hin Hk Hr.
    assert (Hp : In p sorted).
    { apply (Permutation_in _ Hperm), Hsel. split; [exact Hin|].
      exists k. auto. }
    rewrite <- (firstn_skipn 5 sorted) in Hp, Hsorted.
    apply in_app_or in Hp. destruct Hp as [Hp|Hp]; [left; exact Hp|].
    right. intros s Hs.
    apply (StronglySorted_app_le _ _ _ Hsorted s p Hs Hp).
Qed.

(** X6.  The recipe screen preselects at most five products, none of them
    [fresh]; when every expiry date parses they are in ascending order of
    days left and every product of the stock that is not [fresh] and was not
    preselected has at least as many days left as each preselected one. *)
Theorem preselected_most_urgent (now : Z) (products : list Product) :
  let days p :=
    getDaysUntilExpiry Date_parse localMidnight now (expiryDate p) in
  let chosen := preselected Date_parse localMidnight now products in
  (List.length chosen <= 5)%nat /\
  (forall p, In p chosen ->
             In p products /\
             getExpiryStatus Date_parse localMidnight now (expiryDate p)
             <> fresh) /\
  (Forall (fun p => Date_parse (expiryDate p) <> None) products ->
   StronglySorted (keyLe days) chosen /\
   forall p, In p products ->
             getExpiryStatus Date_parse localMidnight now (expiryDate p)
             <> fresh ->
             In p chosen \/ forall s, In s chosen -> keyLe days s p).
Proof.
  intros days chosen.
  set (notFresh := fun p =>
         negb (statusEqb
                 (getExpiryStatus Date_parse localMidnight now (expiryDate p))
                 fresh)).
  set (sorted := sortProductsByExpiry Date_parse localMidnight now products).
  assert (Hperm : Permutation products sorted) by apply (sort_perm days).
  assert (HnotFresh : forall p, notFresh p = true <->
            getExpiryStatus Date_parse localMidnight now (expiryDate p)
            <> fresh).
  { intros p. unfold notFresh.
    destruct (getExpiryStatus Date_parse localMidnight now (expiryDate p));
      simpl; split; congruence. }
  change chosen with (firstn 5 (filter notFresh sorted)).
  split; [apply firstn_le_length|]. split.
  - intros p Hp.
    assert (Hf : In p (filter notFresh sorted)).
    { rewrite <- (firstn_skipn 5 (filter notFresh sorted)).
      apply in_or_app. left. exact Hp. }
    apply filter_In in Hf. destruct Hf as (Hin & Hnf). split.
    + apply (Permutation_in _ (Permutation_sym Hperm)), Hin.
    + apply HnotFresh, Hnf.
  - intros Hall.
    assert (Hsorted : StronglySorted (keyLe days) (filter notFresh sorted)).
    { apply StronglySorted_filter, (sort_sorted days), days_of_parse, Hall. }
    split; [apply StronglySorted_firstn, Hsorted|].
    intros p Hin Hnf.
    assert (Hp : In p (filter notFresh sorted)).
    { apply filter_In. split.
      - apply (Permutation_in _ Hperm), Hin.
      - apply HnotFresh, Hnf. }
    rewrite <- (firstn_skipn 5 (filter notFresh sorted)) in Hp, Hsorted.
    apply in_app_or in Hp. destruct Hp as [Hp|Hp]; [left; exact Hp|].
    right. intros s Hs.
    apply (StronglySorted_app_le _ _ _ Hsorted s p Hs Hp).
Qed.

(** X7.  The savings credited after a recipe was generated count every
    [critical] product, expired ones included, so on the same products they
    are never less than the estimate of [calculateEstimatedSavings], which
    leaves expired products out; the two agree when nothing has expired. *)
Theorem savings_estimate_le_credit (now : Z) (products : list Product) :
  0 <= calculateEstimatedSavings Date_parse localMidnight now products
    <= moneySavedAmount Date_parse localMidnight now products /\
  (Forall (fun p =>
             forall k,
               getDaysUntilExpiry Date_parse localMidnight now (expiryDate p)
               = Some k -> 0 <= k)
          products ->
   calculateEstimatedSavings Date_parse localMidnight now products
   = moneySavedAmount Date_parse localMidnight now products).
Proof.
  set (within := fun p =>
         leb (getDaysUntilExpiry Date_parse localMidnight now (expiryDate p)) 3
         && geb (getDaysUntilExpiry Date_parse localMidnight now
                   (expiryDate p)) 0).
  set (isCritical := fun p =>
         statusEqb
           (getExpiryStatus Date_parse localMidnight now (expiryDate p))
           critical).
  change (calculateEstimatedSavings Date_parse localMidnight now products)
    with (Z.of_nat (List.length (filter within products)) * 150).
  change (moneySavedAmount Date_parse localMidnight now products)
    with (150 * Z.of_nat (List.length (filter isCritical products))).
  assert (Hcrit : forall p,
            isCritical p
            = leb (getDaysUntilExpiry Date_parse localMidnight now
                     (expiryDate p)) 3).
  { intros p. unfold isCritical.
    change (getExpiryStatus Date_parse localMidnight now (expiryDate p))
      with (if leb (getDaysUntilExpiry Date_parse localMidnight now
                      (expiryDate p)) 3
            then critical
            else if leb (getDaysUntilExpiry Date_parse localMidnight now
                           (expiryDate p)) 7
                 then warning else fresh).
    destruct (leb _ 3); [reflexivity|]. destruct (leb _ 7); reflexivity. }
  split.
  - assert (List.length (filter within products)
            <= List.length (filter isCritical products))%nat.
    { apply filter_length_le_of_imp. intros p Hw. rewrite Hcrit.
      unfold within in Hw. apply andb_true_iff in Hw. apply Hw. }
    lia.
  - intros Hall.
    assert (E : filter within products = filter isCritical products).
    { apply filter_ext_in. intros p Hp. rewrite Hcrit. unfold within.
      rewrite Forall_forall in Hall. specialize (Hall p Hp).
      destruct (getDaysUntilExpiry Date_parse localMidnight now
                  (expiryDate p)) as [k|]; simpl; [|reflexivity].
      specialize (Hall k eq_refl).
      assert (H0 : (0 <=? k) = true) by (apply Z.leb_le; exact Hall).
      rewrite H0. apply andb_true_r. }
    rewrite E. lia.
Qed.

End WithDate.

Lemma sample_dates_parse :
  Forall (fun p => Host.isoParse (expiryDate p) <> None)
         (Sample.eggs :: Sample.fridge).
Proof. repeat constructor; vm_compute; discriminate. Qed.

(** Milk (two days left) against cheese (five days left), today and
    tomorrow. *)
Lemma urgency_monotone_witness :
  exists k k' k'',
    getDaysUntilExpiry Host.isoParse Host.utcMidnight Sample.now
      (expiryDate Sample.milk) = Some k /\
    getDaysUntilExpiry Host.isoParse Host.utcMidnight Sample.now
      (expiryDate Sample.cheese) = Some k' /\
    getDaysUntilExpiry Host.isoParse Host.utcMidnight
      (Sample.now + msPerDay) (expiryDate Sample.milk) = Some k'' /\
    k'' <= k <= k'.
Proof.
  destruct (urgency_monotone Host.isoParse Host.utcMidnight
              Sample.now (Sample.now + msPerDay)
              (expiryDate Sample.milk) (expiryDate Sample.cheese)
              1793779200000 1794038400000
              utcMidnight_mono eq_refl eq_refl
              ltac:(vm_compute; discriminate) ltac:(vm_compute; discriminate))
    as (k & k' & k'' & H1 & H2 & H3 & H4 & _).
  exists k, k', k''. repeat split; try assumption; apply H4.
Defined.

Lemma sortProductsByExpiry_idempotent_witness :
  sortProductsByExpiry Host.isoParse Host.utcMidnight Sample.now
    (sortProductsByExpiry Host.isoParse Host.utcMidnight Sample.now
       (Sample.eggs :: Sample.fridge))
  = sortProductsByExpiry Host.isoParse Host.utcMidnight Sample.now
      (Sample.eggs :: Sample.fridge).
Proof.
  exact (proj2 (sortProductsByExpiry_idempotent Host.isoParse Host.utcMidnight
                  Sample.now (Sample.eggs :: Sample.fridge))
               sample_dates_parse).
Defined.

(** The critical products of the sample stock, most urgent first. *)
Lemma stockProducts_commute_witness :
  map name
    (stockProducts Host.isoParse Host.utcMidnight Sample.now (only critical)
       (Sample.eggs :: Sample.fridge))
  = ["Yogurt"; "Milk"; "Bread"; "Eggs"] /\
  stockProducts Host.isoParse Host.utcMidnight Sample.now (only critical)
    (Sample.eggs :: Sample.fridge)
  = filteredProducts Host.isoParse Host.utcMidnight Sample.now (only critical)
      (sortProductsByExpiry Host.isoParse Host.utcMidnight Sample.now
         (Sample.eggs :: Sample.fridge)).
Proof.
  split; [vm_compute; reflexivity|].
  exact (proj1 (stockProducts_commute Host.isoParse Host.utcMidnight
                  Sample.now (only critical) (Sample.eggs :: Sample.fridge)
                  sample_dates_parse)).
Defined.

(** The expired yogurt is not on the home screen; the cheese is, last. *)
Lemma homeExpiringProducts_most_urgent_witness :
  map name
    (homeExpiringProducts Host.isoParse Host.utcMidnight Sample.now
       (Sample.eggs :: Sample.fridge))
  = ["Milk"; "Bread"; "Eggs"; "Cheese"] /\
  In Sample.cheese (Sample.eggs :: Sample.fridge) /\
  exists k,
    getDaysUntilExpiry Host.isoParse Host.utcMidnight Sample.now
      (expiryDate Sample.cheese) = Some k /\ 0 <= k <= 7.
Proof.
  split; [vm_compute; reflexivity|].
  apply (proj1 (proj2 (homeExpiringProducts_most_urgent Host.isoParse
                         Host.utcMidnight Sample.now
                         (Sample.eggs :: Sample.fridge)))).
  vm_compute. do 3 right. left. reflexivity.
Defined.

(** Six products, five of them not fresh. *)
Lemma preselected_most_urgent_witness :
  map name
    (preselected Host.isoParse Host.utcMidnight Sample.now
       (Sample.eggs :: Sample.fridge))
  = ["Yogurt"; "Milk"; "Bread"; "Eggs"; "Cheese"] /\
  StronglySorted
    (keyLe (fun p =>
              getDaysUntilExpiry Host.isoParse Host.utcMidnight Sample.now
                (expiryDate p)))
    (preselected Host.isoParse Host.utcMidnight Sample.now
       (Sample.eggs :: Sample.fridge)).
Proof.
  split; [vm_compute; reflexivity|].
  exact (proj1 (proj2 (proj2 (preselected_most_urgent Host.isoParse
                                Host.utcMidnight Sample.now
                                (Sample.eggs :: Sample.fridge)))
                      sample_dates_parse)).
Defined.

(** The sample stock holds an expired yogurt: the estimate is 300, the
    credit 450.  Without the yogurt the two agree. *)
Lemma savings_estimate_le_credit_witness :
  calculateEstimatedSavings Host.isoParse Host.utcMidnight Sample.now
    Sample.fridge = 300 /\
  moneySavedAmount Host.isoParse Host.utcMidnight Sample.now Sample.fridge
  = 450 /\
  calculateEstimatedSavings Host.isoParse Host.utcMidnight Sample.now
    [Sample.rice; Sample.milk]
  = moneySavedAmount Host.isoParse Host.utcMidnight Sample.now
      [Sample.rice; Sample.milk].
Proof.
  split; [vm_compute; reflexivity|]. split; [vm_compute; reflexivity|].
  apply (proj2 (savings_estimate_le_credit Host.isoParse Host.utcMidnight
                  Sample.now [Sample.rice; Sample.milk])).
  repeat constructor; intros k Hk; vm_compute in Hk; injection Hk as <-;
    discriminate.
Defined.

End UrgencyFacts.

(** ** Text and grouping helpers *)

Module HelpersExtraFacts.
Import Js Helpers HelpersExtra.

(** X8.  [truncateText] returns a text that fits unchanged.  A longer text
    is cut to its first [maxLength - 3] code units followed by three dots,
    which is [maxLength] code units when [maxLength] is at least 3; below
    that the result is the three dots alone, longer than the limit asked
    for. *)
Theorem truncateText_length (text : JsString.str) (maxLength : Z) :
  (JsString.length text <= maxLength -> truncateText text maxLength = text) /\
  (maxLength < JsString.length text -> 3 <= maxLength ->
   truncateText text maxLength
   = (firstn (Z.to_nat (maxLength - 3)) text ++ [46; 46; 46])%list /\
   JsString.length (truncateText text maxLength) = maxLength) /\
  (maxLength < JsString.length text -> maxLength < 3 ->
   truncateText text maxLength = [46; 46; 46]).
Proof.
  unfold truncateText, JsString.length, JsString.substring0.
  split; [|split].
  - intros H. apply Z.leb_le in H. rewrite H. reflexivity.
  - intros H H3. apply Z.leb_gt in H. rewrite H. apply Z.leb_gt in H.
    split; [reflexivity|].
    rewrite length_app, length_firstn. simpl. lia.
  - intros H H3. apply Z.leb_gt in H. rewrite H.
    replace (Z.to_nat (maxLength - 3)) with 0%nat by lia. reflexivity.
Qed.

Section Grouping.

Variable inherited : string -> bool.

Lemma own_push c k p acc :
  own c (push k p acc)
  = if String.eqb c k
    then option_map (fun bucket => (bucket ++ [p])%list) (own c acc)
    else own c acc.
Proof.
  induction acc as [|[k' bucket] acc IH]; simpl.
  - destruct (String.eqb c k); reflexivity.
  - destruct (String.eqb k k') eqn:Ek; simpl.
    + apply String.eqb_eq in Ek. subst k'.
      destruct (String.eqb c k); reflexivity.
    + destruct (String.eqb c k') eqn:Ec.
      * apply String.eqb_eq in Ec. subst k'.
        rewrite String.eqb_sym, Ek. reflexivity.
      * exact IH.
Qed.

Lemma own_app c k bucket acc :
  own c (acc ++ [(k, bucket)])
  = match own c acc with
    | Some b => Some b
    | None => if String.eqb c k then Some bucket else None
    end.
Proof.
  induction acc as [|[k' b] acc IH]; simpl.
  - reflexivity.
  - destruct (String.eqb c k'); [reflexivity | exact IH].
Qed.

Lemma nonEmpty_snoc (l : list Product) p (keep : bool) :
  nonEmpty (l ++ (if keep then [p] else []))%list
  = match nonEmpty l with
    | Some b => Some (b ++ (if keep then [p] else []))%list
    | None => if keep then Some [p] else None
    end.
Proof.
  destruct l as [|x l]; simpl.
  - destruct keep; reflexivity.
  - reflexivity.
Qed.

Lemma group_fold rest : forall acc processed,
  (forall c, own c acc
             = nonEmpty (filter (fun p => String.eqb (category p) c)
                                processed)) ->
  Forall (fun p => inherited (category p) = false) rest ->
  exists groups,
    fold_left (groupStep inherited) rest (Ok acc) = Ok groups /\
    forall c, own c groups
              = nonEmpty (filter (fun p => String.eqb (category p) c)
                                 (processed ++ rest)).
Proof.
  induction rest as [|p rest IH]; intros acc processed Hinv Hall.
  - exists acc. split; [reflexivity|]. intros c. rewrite app_nil_r. apply Hinv.
  - inversion Hall as [|? ? Hp Hrest]; subst.
    assert (Hstep : exists acc',
              groupStep inherited (Ok acc) p = Ok acc' /\
              forall c, own c acc'
                        = nonEmpty (filter (fun q => String.eqb (category q) c)
                                           (processed ++ [p]))).
    { unfold groupStep.
      destruct (own (category p) acc) as [bucket|] eqn:Eown.
      - eexists. split; [reflexivity|]. intros c.
        rewrite own_push, filter_app. simpl.
        rewrite (String.eqb_sym c (category p)).
        rewrite nonEmpty_snoc, <- Hinv.
        destruct (String.eqb (category p) c) eqn:Ec.
        + apply String.eqb_eq in Ec. subst c. rewrite Eown. reflexivity.
        + destruct (own c acc); simpl; [rewrite app_nil_r|]; reflexivity.
      - rewrite Hp. eexists. split; [reflexivity|]. intros c.
        rewrite own_app, filter_app. simpl.
        rewrite (String.eqb_sym c (category p)).
        rewrite nonEmpty_snoc, <- Hinv.
        destruct (String.eqb (category p) c) eqn:Ec.
        + apply String.eqb_eq in Ec. subst c. rewrite Eown. reflexivity.
        + destruct (own c acc); simpl; [rewrite app_nil_r|]; reflexivity. }
    destruct Hstep as (acc' & Hacc' & Hinv').
    destruct (IH acc' (processed ++ [p])%list Hinv' Hrest)
      as (groups & Hg & Hgroups).
    exists groups. cbn [fold_left]. rewrite Hacc'. split; [exact Hg|].
    intros c. rewrite Hgroups, <- app_assoc. reflexivity.
Qed.

(** X9.  When no product carries a category name that the empty object
    inherits, [groupProductsByCategory] returns an object in which the
    bucket of a category holds the products of that category in their input
    order, and a category without products has no bucket. *)
Theorem groupProductsByCategory_buckets (products : list Product) :
  Forall (fun p => inherited (category p) = false) products ->
  exists groups,
    groupProductsByCategory inherited products = Ok groups /\
    forall c : string,
      own c groups
      = nonEmpty (filter (fun p => String.eqb (category p) c) products).
Proof.
  intros Hall. apply (group_fold products [] []); [|exact Hall].
  intros c. reflexivity.
Qed.

Lemma fold_groupStep_throw e l :
  fold_left (groupStep inherited) l (Throw e) = Throw e.
Proof. induction l as [|p l IH]; simpl; [reflexivity | exact IH]. Qed.

Lemma group_fold_inherited rest : forall acc p,
  (forall k b, own k acc = Some b -> inherited k = false) ->
  In p rest ->
  inherited (category p) = true ->
  fold_left (groupStep inherited) rest (Ok acc) = Throw TypeError.
Proof.
  induction rest as [|q rest IH]; intros acc p Hkeys Hin Hp.
  - contradiction.
  - simpl. destruct (own (category q) acc) as [bucket|] eqn:Eown.
    + assert (Hq : inherited (category q) = false)
        by (eapply Hkeys; exact Eown).
      destruct Hin as [->|Hin]; [congruence|].
      apply IH with p; auto.
      intros k b. rewrite own_push.
      destruct (String.eqb k (category q)) eqn:Ek.
      * apply String.eqb_eq in Ek. subst k. intros _. exact Hq.
      * apply Hkeys.
    + destruct (inherited (category q)) eqn:Hq.
      * apply fold_groupStep_throw.
      * destruct Hin as [->|Hin]; [congruence|].
        apply IH with p; auto.
        intros k b. rewrite own_app.
        destruct (own k acc) eqn:Ek.
        -- intros _. eapply Hkeys. exact Ek.
        -- destruct (String.eqb k (category q)) eqn:Ekq; [|discriminate].
           apply String.eqb_eq in Ekq. subst k. intros _. exact Hq.
Qed.

(** X10.  A single product whose category is a name that the empty object
    inherits (such as [constructor]) makes [groupProductsByCategory] throw a
    TypeError, wherever it stands in the list. *)
Theorem groupProductsByCategory_inherited (products : list Product)
    (p : Product) :
  In p products ->
  inherited (category p) = true ->
  groupProductsByCategory inherited products = Throw TypeError.
Proof.
  intros Hin Hp. apply group_fold_inherited with p; auto.
  intros k b H. discriminate H.
Qed.

End Grouping.

(** The text of ten code units cut to eight. *)
Lemma truncateText_length_witness :
  truncateText (JsString.utf16 "Привет мир") 8
  = JsString.utf16 "Приве..." /\
  JsString.length (truncateText (JsString.utf16 "Привет мир") 8) = 8 /\
  truncateText (JsString.utf16 "Привет мир") 2 = JsString.utf16 "...".
Proof.
  destruct (truncateText_length (JsString.utf16 "Привет мир") 8)
    as (_ & Hcut & _).
  destruct (truncateText_length (JsString.utf16 "Привет мир") 2)
    as (_ & _ & Hdots).
  split; [vm_compute; reflexivity|]. split.
  - apply Hcut; vm_compute; [reflexivity | discriminate].
  - apply Hdots; vm_compute; reflexivity.
Defined.

Lemma groupProductsByCategory_buckets_witness :
  exists groups,
    groupProductsByCategory Sample.inherited Sample.pantry = Ok groups /\
    own "dairy" groups = Some [Sample.kefir; Sample.butter] /\
    own "bakery" groups = Some [Sample.loaf] /\
    own "meat" groups = None.
Proof.
  destruct (groupProductsByCategory_buckets Sample.inherited Sample.pantry)
    as (groups & Hg & Hb).
  - repeat constructor.
  - exists groups. split; [exact Hg|].
    rewrite !Hb. repeat split; reflexivity.
Defined.

Lemma groupProductsByCategory_inherited_witness :
  groupProductsByCategory Sample.inherited
    (Sample.pantry ++ [Sample.odd])
  = Throw TypeError.
Proof.
  apply (groupProductsByCategory_inherited Sample.inherited
           (Sample.pantry ++ [Sample.odd]) Sample.odd).
  - vm_compute. do 3 right. left. reflexivity.
  - reflexivity.
Defined.

End HelpersExtraFacts.

(** ** Images, extraction of the answer and identifiers *)

Module ApiExtraFacts.
Import Js Api ApiExtra.

Lemma toInt32_shift z : exists k, toInt32 z = z + k * 4294967296.
Proof.
  unfold toInt32. pose proof (Z.div_mod z 4294967296 ltac:(lia)) as E.
  destruct (z mod 4294967296 <? 2147483648).
  - exists (- (z / 4294967296)). lia.
  - exists (- (z / 4294967296) - 1). lia.
Qed.

Lemma toInt32_range z : - 2147483648 <= toInt32 z < 2147483648.
Proof.
  unfold toInt32.
  pose proof (Z.mod_pos_bound z 4294967296 ltac:(lia)) as B.
  destruct (z mod 4294967296 <? 2147483648) eqn:E;
    [apply Z.ltb_lt in E | apply Z.ltb_ge in E]; lia.
Qed.

Lemma toInt32_congr a b k : a = b + k * 4294967296 -> toInt32 a = toInt32 b.
Proof.
  intros ->. unfold toInt32. rewrite Z_mod_plus_full. reflexivity.
Qed.

Lemma hashStep_poly p c :
  hashStep (toInt32 p) c = toInt32 (31 * p + c).
Proof.
  unfold hashStep.
  destruct (toInt32_shift p) as (k1 & E1).
  destruct (toInt32_shift (toInt32 p * 32)) as (k2 & E2).
  apply toInt32_congr with (k := k2 + 31 * k1). lia.
Qed.

Lemma fold_hashStep str : forall p,
  fold_left hashStep str (toInt32 p)
  = toInt32 (fold_left (fun h c => 31 * h + c) str p).
Proof.
  induction str as [|c str IH]; intros p; simpl.
  - reflexivity.
  - rewrite hashStep_poly. apply IH.
Qed.

Lemma hashCode_as_polynomial str :
  hashCode str = Z.abs (toInt32 (fold_left (fun h c => 31 * h + c) str 0)).
Proof.
  unfold hashCode. change 0 with (toInt32 0) at 1.
  rewrite fold_hashStep. reflexivity.
Qed.

Lemma hashCode_nonneg str : 0 <= hashCode str.
Proof. unfold hashCode. apply Z.abs_nonneg. Qed.

(** X11.  [hashCode] is the absolute value of the polynomial hash with
    multiplier 31 over the code units of the string, reduced to a signed
    32-bit integer; it lies between 0 and 2^31 inclusive. *)
Theorem hashCode_polynomial (str : JsString.str) :
  hashCode str
  = Z.abs (toInt32 (fold_left (fun h c => 31 * h + c) str 0)) /\
  0 <= hashCode str <= 2147483648.
Proof.
  split; [apply hashCode_as_polynomial|].
  rewrite hashCode_as_polynomial.
  pose proof (toInt32_range (fold_left (fun h c => 31 * h + c) str 0)). lia.
Qed.

Lemma categoryOf_known t table :
  In (categoryOf t table) ("meal" :: map fst table).
Proof.
  induction table as [|[cat keywords] table IH]; simpl.
  - left. reflexivity.
  - destruct (existsb _ keywords).
    + right. left. reflexivity.
    + destruct IH as [IH|IH]; [left; exact IH | right; right; exact IH].
Qed.

Section WithHost.

Variable toLowerCase : JsString.str -> JsString.str.

(** X12.  [getFoodImage] never fails and never returns [undefined]: for
    every title it returns one of the three images of the category it picked,
    and that category is one of the six of the table. *)
Theorem getFoodImage_defined (dishTitle : JsString.str) :
  exists images image,
    imagesOf (categoryOf (toLowerCase dishTitle) FOOD_IMAGE_CATEGORIES)
             FOOD_IMAGES = Some images /\
    getFoodImage toLowerCase dishTitle = Ok (Some image) /\
    In image images.
Proof.
  unfold getFoodImage.
  pose proof (categoryOf_known (toLowerCase dishTitle) FOOD_IMAGE_CATEGORIES)
    as Hc.
  set (category := categoryOf (toLowerCase dishTitle) FOOD_IMAGE_CATEGORIES)
    in *.
  assert (Himages : exists images,
            imagesOf category FOOD_IMAGES = Some images /\
            List.length images = 3%nat).
  { simpl in Hc.
    destruct Hc as [<-|[<-|[<-|[<-|[<-|[<-|[<-|[]]]]]]]];
      eexists; split; reflexivity. }
  destruct Himages as (images & -> & Hlen).
  exists images. rewrite Hlen.
  pose proof (hashCode_nonneg dishTitle) as Hpos.
  pose proof (Z.rem_bound_pos (hashCode dishTitle) 3 Hpos ltac:(lia)) as Hr.
  change (Z.of_nat 3) with 3.
  destruct (nth_error images (Z.to_nat (Z.rem (hashCode dishTitle) 3)))
    as [image|] eqn:En.
  - exists image. repeat split. apply nth_error_In with (1 := En).
  - apply nth_error_None in En. lia.
Qed.

End WithHost.

(** *** The span between the braces *)

Lemma string_app_assoc (s t u : string) : (s ++ t) ++ u = s ++ t ++ u.
Proof.
  induction s as [|a s IH]; simpl; [reflexivity|]. rewrite IH. reflexivity.
Qed.

Lemma hasChar_cons c a s :
  hasChar c (String a s) = Ascii.eqb c a || hasChar c s.
Proof. reflexivity. Qed.

Lemma hasChar_app c s t :
  hasChar c (s ++ t) = hasChar c s || hasChar c t.
Proof.
  induction s as [|a s IH].
  - reflexivity.
  - change (String a s ++ t) with (String a (s ++ t)).
    rewrite !hasChar_cons, IH. apply orb_assoc.
Qed.

Lemma dropToOpen_cons a s :
  dropToOpen (String a s)
  = if Ascii.eqb a "{" then Some (String a s) else dropToOpen s.
Proof. reflexivity. Qed.

Lemma upToLastClose_cons a s :
  upToLastClose (String a s)
  = match upToLastClose s with
    | Some r => Some (String a r)
    | None => if Ascii.eqb a "}" then Some (String a EmptyString) else None
    end.
Proof. reflexivity. Qed.

Lemma dropToOpen_span s r :
  dropToOpen s = Some r ->
  exists pre r',
    s = pre ++ r /\ r = String "{" r' /\ hasChar "{" pre = false.
Proof.
  induction s as [|a s IH]; [discriminate|].
  rewrite dropToOpen_cons. destruct (Ascii.eqb a "{") eqn:E.
  - intros H. injection H as <-. apply Ascii.eqb_eq in E. subst a.
    exists EmptyString, s. repeat split.
  - intros H. destruct (IH H) as (pre & r' & -> & -> & Hpre).
    exists (String a pre), r'. repeat split.
    rewrite hasChar_cons, (Ascii.eqb_sym "{" a), E. exact Hpre.
Qed.

Lemma upToLastClose_none s :
  upToLastClose s = None <-> hasChar "}" s = false.
Proof.
  induction s as [|a s IH]; [split; reflexivity|].
  rewrite upToLastClose_cons, hasChar_cons, (Ascii.eqb_sym "}" a).
  destruct (upToLastClose s) as [r|].
  - split; [discriminate|]. intros H. apply orb_false_iff in H.
    destruct H as (_ & H). apply IH in H. discriminate.
  - destruct (Ascii.eqb a "}"); cbn [orb].
    + split; discriminate.
    + split; intros _; [apply IH|]; reflexivity.
Qed.

Lemma upToLastClose_span s m :
  upToLastClose s = Some m ->
  exists b post,
    s = m ++ post /\ m = b ++ "}" /\ hasChar "}" post = false.
Proof.
  revert m. induction s as [|a s IH]; intros m; [discriminate|].
  rewrite upToLastClose_cons.
  destruct (upToLastClose s) as [r|] eqn:Er.
  - intros H. injection H as <-.
    destruct (IH r eq_refl) as (b & post & -> & -> & Hpost).
    exists (String a b), post. repeat split. exact Hpost.
  - destruct (Ascii.eqb a "}") eqn:E; [|discriminate].
    intros H. injection H as <-. apply Ascii.eqb_eq in E. subst a.
    exists EmptyString, s. repeat split. apply upToLastClose_none, Er.
Qed.

Lemma dropToOpen_found a rest :
  exists s,
    dropToOpen (a ++ String "{" rest) = Some s /\
    (hasChar "}" rest = true -> hasChar "}" s = true).
Proof.
  induction a as [|c a IH].
  - exists (String "{" rest). split; [reflexivity|]. intros H.
    rewrite hasChar_cons, H. apply orb_true_r.
  - change (String c a ++ String "{" rest)
      with (String c (a ++ String "{" rest)).
    rewrite dropToOpen_cons. destruct (Ascii.eqb c "{").
    + eexists. split; [reflexivity|]. intros H.
      rewrite hasChar_cons, hasChar_app, hasChar_cons, H.
      rewrite !orb_true_r. reflexivity.
    + exact IH.
Qed.

Lemma matchBraces_found text m :
  matchBraces text = Some m ->
  exists pre b post,
    text = pre ++ m ++ post /\
    m = "{" ++ b ++ "}" /\
    hasChar "{" pre = false /\
    hasChar "}" post = false.
Proof.
  unfold matchBraces. intros H.
  destruct (dropToOpen text) as [s|] eqn:Ed; [|discriminate].
  destruct (dropToOpen_span _ _ Ed) as (pre & r' & -> & -> & Hpre).
  destruct (upToLastClose_span _ _ H) as (b & post & Es & -> & Hpost).
  destruct b as [|c b]; simpl in Es.
  - injection Es as Ec _. discriminate Ec.
  - injection Es as <- Er. subst r'.
    exists pre, b, post. repeat split; auto.
Qed.

Lemma matchBraces_none text :
  matchBraces text = None <->
  ~ exists a b c, text = a ++ "{" ++ b ++ "}" ++ c.
Proof.
  split.
  - intros Hnone (a & b & c & E).
    destruct (dropToOpen_found a (b ++ "}" ++ c)) as (s & Hs & Hclose).
    change (a ++ "{" ++ b ++ "}" ++ c)
      with (a ++ String "{" (b ++ "}" ++ c)) in E.
    unfold matchBraces in Hnone. rewrite E, Hs in Hnone.
    apply upToLastClose_none in Hnone. rewrite Hclose in Hnone.
    + discriminate.
    + rewrite hasChar_app. simpl. apply orb_true_r.
  - intros Hno. destruct (matchBraces text) as [m|] eqn:Em; [|reflexivity].
    destruct (matchBraces_found _ _ Em) as (pre & b & post & E & -> & _).
    exfalso. apply Hno. exists pre, b, post. rewrite E.
    change (("{" ++ b ++ "}") ++ post) with (String "{" ((b ++ "}") ++ post)).
    rewrite string_app_assoc. reflexivity.
Qed.

(** X13.  The span taken out of an answer starts at the first opening brace
    and ends at the last closing brace after it: when [matchBraces] finds a
    span, the text is some prose without an opening brace, the span, and
    some prose without a closing brace.  It finds none exactly when the text
    holds no opening brace that is followed, somewhere, by a closing one. *)
Theorem matchBraces_span (text : string) :
  (forall m,
      matchBraces text = Some m ->
      exists pre b post,
        text = pre ++ m ++ post /\
        m = "{" ++ b ++ "}" /\
        hasChar "{" pre = false /\
        hasChar "}" post = false) /\
  (matchBraces text = None <->
   ~ exists a b c, text = a ++ "{" ++ b ++ "}" ++ c).
Proof.
  split; [intros m; apply matchBraces_found | apply matchBraces_none].
Qed.

End ApiExtraFacts.

(** ** The calls to the service: preconditions, failures, identifiers *)

Module ServiceFacts.
Import Js Api ApiExtra ApiExtraFacts.

(** The prose around the soup is dropped. *)
Lemma matchBraces_span_witness :
  matchBraces Sample.soupText = Some Sample.soupJson /\
  exists pre b post,
    Sample.soupText = pre ++ Sample.soupJson ++ post /\
    Sample.soupJson = "{" ++ b ++ "}" /\
    hasChar "{" pre = false /\
    hasChar "}" post = false.
Proof.
  assert (H : matchBraces Sample.soupText = Some Sample.soupJson)
    by (vm_compute; reflexivity).
  split; [exact H|].
  exact (proj1 (matchBraces_span Sample.soupText) Sample.soupJson H).
Defined.

Lemma showZ_injective a b : Host.showZ a = Host.showZ b -> a = b.
Proof.
  assert (Hnil : forall z, Z.to_int z <> Decimal.Pos Decimal.Nil /\
                           Z.to_int z <> Decimal.Neg Decimal.Nil).
  { intros z. split; intros H;
      pose proof (DecimalZ.of_to z) as E; rewrite H in E;
      simpl in E; subst z; discriminate H. }
  unfold Host.showZ. intros H.
  apply DecimalZ.to_int_inj.
  assert (E : NilZero.int_of_string (NilZero.string_of_int (Z.to_int a))
              = NilZero.int_of_string (NilZero.string_of_int (Z.to_int b)))
    by (rewrite H; reflexivity).
  rewrite !NilZero.isi in E by apply Hnil. injection E as E. exact E.
Qed.

Lemma freshId_injective a b : Host.freshId a = Host.freshId b -> a = b.
Proof.
  unfold Host.freshId. intros H. simpl in H. injection H as H.
  apply showZ_injective in H. lia.
Qed.

Lemma mapM_ids {A B} (f : A -> M B) (getId : B -> string)
    (freshId : nat -> string) :
  (forall x k y k', f x k = Ok (y, k') -> k' = S k /\ getId y = freshId k) ->
  forall l n ys n',
    mapM f l n = Ok (ys, n') ->
    n' = (n + List.length l)%nat /\
    List.length ys = List.length l /\
    map getId ys = map freshId (seq n (List.length l)).
Proof.
  intros Hf. induction l as [|x l IH]; simpl; intros n ys n' H.
  - unfold ret in H. injection H as <- <-. repeat split. lia.
  - unfold bind in H. destruct (f x n) as [[y k]|] eqn:Ef; [|discriminate].
    destruct (mapM f l k) as [[ys' k']|] eqn:Em; [|discriminate].
    unfold ret in H. injection H as <- <-.
    destruct (Hf _ _ _ _ Ef) as (-> & Hid).
    destruct (IH _ _ _ Em) as (-> & Hlen & Hids).
    simpl. rewrite Hid, Hids, Hlen. repeat split. lia.
Qed.

Lemma NoDup_map_injective {A B} (f : A -> B) l :
  (forall a b, f a = f b -> a = b) -> NoDup l -> NoDup (map f l).
Proof.
  intros Hf. induction 1 as [|x l Hx Hl IH]; simpl; constructor.
  - intros Hin. apply in_map_iff in Hin. destruct Hin as (y & E & Hy).
    apply Hf in E. subst y. contradiction.
  - exact IH.
Qed.

Section WithService.

Variable Date_parse : string -> option Z.
Variable Date_addDays : Z -> Z -> Z.
Variable Date_toISOString : Z -> string.
Variable JSON_parse : string -> result value.
Variable ToString : value -> string.
Variable freshId : nat -> string.
Variable fetchGemini : string -> string -> option string -> Fetched.
Variable analyzePrompt : string.
Variable recipePromptIntro recipePromptFormat : string.
Variable guestMenuPrompt : string -> string -> string -> string -> string -> string.
Variable chatPromptHead chatPromptTail : string.

(** Without an API key each of the four calls throws the same
    configuration error, whatever the service would have answered and
    whatever the other arguments are; no identifier is drawn. *)
Theorem missing_api_key imageBase64 products preferences guestCount budget
    city message context now n :
  analyzeImageWithGemini Date_addDays Date_toISOString JSON_parse ToString
    freshId fetchGemini analyzePrompt imageBase64 EmptyString now n
  = Throw (Error "API ключ не настроен") /\
  generateRecipeWithGemini Date_parse Date_toISOString JSON_parse ToString
    freshId fetchGemini recipePromptIntro recipePromptFormat products
    EmptyString preferences now n
  = Throw (Error "API ключ не настроен") /\
  generateGuestMenuWithGemini Date_toISOString JSON_parse ToString freshId
    fetchGemini guestMenuPrompt guestCount budget city EmptyString now n
  = Throw (Error "API ключ не настроен") /\
  chatWithGemini fetchGemini chatPromptHead chatPromptTail message EmptyString
    context
  = Throw (Error "API ключ не настроен").
Proof. repeat split. Qed.

Lemma embeddedJson_no_object apiKey prompt image noMatch text :
  isEmpty apiKey = false ->
  fetchGemini apiKey prompt image = FetchText (VStr text) ->
  isEmpty text = false ->
  (~ exists a b c, text = a ++ "{" ++ b ++ "}" ++ c) ->
  embeddedJson JSON_parse fetchGemini apiKey prompt image noMatch
  = Throw (Error noMatch).
Proof.
  intros Hk Hf Ht Hno. unfold embeddedJson. rewrite Hk, Hf. simpl.
  rewrite Ht. simpl.
  apply matchBraces_none in Hno. rewrite Hno. reflexivity.
Qed.

(** X14.  When the service answers with a text in which no opening brace is
    followed by a closing one, no parsing is attempted: the recipe call
    throws its own error message, for every request. *)
Theorem generateRecipe_no_object products apiKey preferences now n text :
  isEmpty apiKey = false ->
  fetchGemini apiKey
    (recipePrompt Date_parse ToString recipePromptIntro recipePromptFormat
       now products preferences) None
  = FetchText (VStr text) ->
  isEmpty text = false ->
  (~ exists a b c, text = a ++ "{" ++ b ++ "}" ++ c) ->
  generateRecipeWithGemini Date_parse Date_toISOString JSON_parse ToString
    freshId fetchGemini recipePromptIntro recipePromptFormat products apiKey
    preferences now n
  = Throw (Error "Не удалось сгенерировать рецепт").
Proof.
  intros Hk Hf Ht Hno. unfold generateRecipeWithGemini, bind, lift.
  rewrite (embeddedJson_no_object _ _ _ _ _ Hk Hf Ht Hno). reflexivity.
Qed.



Lemma shoppingEntry_id now item k y k' :
  shoppingEntry Date_toISOString freshId now item k = Ok (y, k') ->
  k' = S k /\ se_id y = freshId k.
Proof.
  unfold shoppingEntry, bind, lift, generateId, ret.
  destruct (get item "name"); [|discriminate].
  destruct (get item "quantity"); [|discriminate].
  destruct (get item "unit"); [|discriminate].
  destruct (get item "category"); [|discriminate].
  intros H. injection H as <- <-. split; reflexivity.
Qed.

Lemma processRecipe_id guestCount now item k y k' :
  processRecipe Date_toISOString freshId guestCount now item k = Ok (y, k') ->
  k' = S k /\ id y = freshId k.
Proof.
  unfold processRecipe, bind, lift, generateId, ret.
  destruct (get item "title"); [|discriminate].
  destruct (get item "description"); [|discriminate].
  destruct (get item "cookTime"); [|discriminate].
  destruct (get item "servings"); [|discriminate].
  destruct (get item "difficulty"); [|discriminate].
  destruct (get item "ingredients"); [|discriminate].
  destruct (get item "instructions"); [|discriminate].
  intros H. injection H as <- <-. split; reflexivity.
Qed.

(** X16.  In a guest menu that is returned, the identifiers of the shopping
    entries and of the recipes of the three courses are consecutive draws of
    [generateId], shopping list first; they are pairwise distinct across the
    whole menu when [generateId] never repeats itself. *)
Theorem generateGuestMenu_ids guestCount budget city apiKey now n r :
  run (generateGuestMenuWithGemini Date_toISOString JSON_parse ToString freshId
         fetchGemini guestMenuPrompt guestCount budget city apiKey now) n
  = Ok r ->
  let ids :=
    (map se_id (shoppingList r) ++ map id (appetizers r)
     ++ map id (mains r) ++ map id (desserts r))%list in
  ids = map freshId (seq n (List.length ids)) /\
  ((forall a b, freshId a = freshId b -> a = b) -> NoDup ids).
Proof.
  unfold generateGuestMenuWithGemini, run, bind, lift.
  destruct (embeddedJson _ _ _ _ _ _) as [parsed|]; [|discriminate].
  destruct (get parsed "shoppingList") as [list|]; [|discriminate].
  destruct (asArray _) as [entries|]; [|discriminate].
  destruct (mapM _ entries n) as [[shopping n1]|] eqn:E0; [|discriminate].
  destruct (get parsed "appetizers") as [v1|]; [|discriminate].
  unfold processRecipes, bind, lift.
  destruct (asArray (orElse v1 _)) as [l1|]; [|discriminate].
  destruct (mapM _ l1 n1) as [[a1 n2]|] eqn:E1; [|discriminate].
  destruct (get parsed "mains") as [v2|]; [|discriminate].
  destruct (asArray (orElse v2 _)) as [l2|]; [|discriminate].
  destruct (mapM _ l2 n2) as [[a2 n3]|] eqn:E2; [|discriminate].
  destruct (get parsed "desserts") as [v3|]; [|discriminate].
  destruct (asArray (orElse v3 _)) as [l3|]; [|discriminate].
  destruct (mapM _ l3 n3) as [[a3 n4]|] eqn:E3; [|discriminate].
  destruct (get parsed "beverages"); [|discriminate].
  destruct (get parsed "totalCost"); [|discriminate].
  destruct (get parsed "perPersonCost"); [|discriminate].
  unfold ret. intros H. injection H as <-. cbn [shoppingList appetizers mains desserts].
  destruct (mapM_ids _ se_id freshId (shoppingEntry_id now) _ _ _ _ E0)
    as (-> & L0 & I0).
  destruct (mapM_ids _ id freshId (processRecipe_id guestCount now) _ _ _ _ E1)
    as (-> & L1 & I1).
  destruct (mapM_ids _ id freshId (processRecipe_id guestCount now) _ _ _ _ E2)
    as (-> & L2 & I2).
  destruct (mapM_ids _ id freshId (processRecipe_id guestCount now) _ _ _ _ E3)
    as (_ & L3 & I3).
  assert (E : (map se_id shopping ++ map id a1 ++ map id a2 ++ map id a3)%list
              = map freshId
                  (seq n (List.length entries + (List.length l1
                          + (List.length l2 + List.length l3))))).
  { rewrite I0, I1, I2, I3. rewrite !seq_app, !map_app.
    rewrite ?Nat.add_assoc. reflexivity. }
  cbv zeta. split.
  - rewrite E at 1. f_equal. f_equal.
    rewrite !length_app, !length_map. lia.
  - intros Hinj. rewrite E.
    apply NoDup_map_injective; [exact Hinj | apply seq_NoDup].
Qed.

End WithService.

(** An apology without braces instead of a recipe. *)
Lemma generateRecipe_no_object_witness :
  Sample.generateRecipe Sample.apology Sample.fridge None
  = Throw (Error "Не удалось сгенерировать рецепт").
Proof.
  unfold Sample.generateRecipe, run.
  rewrite (generateRecipe_no_object Host.isoParse Host.toISO Sample.JSON_parse
             Host.toStr Host.freshId (Sample.answers Sample.apology)
             Sample.recipePromptIntro Sample.recipePromptFormat Sample.fridge
             "key" None Sample.now 0%nat Sample.apology).
  - reflexivity.
  - reflexivity.
  - reflexivity.
  - reflexivity.
  - apply matchBraces_none. vm_compute. reflexivity.
Defined.


(** Two shopping entries and two dishes: four distinct identifiers. *)
Lemma generateGuestMenu_ids_witness :
  exists r,
    Sample.dinnerMenu = Ok r /\
    (map se_id (shoppingList r) ++ map id (appetizers r)
     ++ map id (mains r) ++ map id (desserts r))%list
    = ["id0"; "id1"; "id2"; "id3"] /\
    NoDup (map se_id (shoppingList r) ++ map id (appetizers r)
           ++ map id (mains r) ++ map id (desserts r))%list.
Proof.
  destruct Sample.dinnerMenu as [r|e] eqn:H;
    [|vm_compute in H; discriminate H].
  exists r. split; [reflexivity|].
  destruct (generateGuestMenu_ids Host.toISO Sample.menuParse Host.toStr
              Host.freshId (Sample.answers Sample.menuJson)
              Sample.guestMenuPrompt 6 standard "Бишкек" "key" Sample.now
              0%nat r H) as (Hids & Hnodup).
  split; [|apply Hnodup; exact freshId_injective].
  vm_compute in H. injection H as <-. reflexivity.
Defined.

End ServiceFacts.

(** ** Products, shopping list and the rest of the store *)

Module StorageExtraFacts.
Import Js Helpers Storage StorageExtra Hooks.
Local Open Scope list_scope.


(** The first match splits the list. *)
Lemma findIndex_first {A} (f : A -> bool) before x after :
  (forall y, In y before -> f y = false) ->
  f x = true ->
  findIndex f (before ++ x :: after) = Some (List.length before).
Proof.
  intros Hb Hx. induction before as [|y before IH]; simpl.
  - rewrite Hx. reflexivity.
  - rewrite (Hb y) by (left; reflexivity).
    rewrite IH; [reflexivity|]. intros z Hz. apply Hb. right. exact Hz.
Qed.

Lemma updateAt_middle {A} (g : A -> A) before x after :
  updateAt (List.length before) g (before ++ x :: after)
  = before ++ g x :: after.
Proof.
  induction before as [|y before IH]; simpl; [reflexivity|].
  rewrite IH. reflexivity.
Qed.

Lemma findIndex_split {A} (f : A -> bool) l i :
  findIndex f l = Some i ->
  exists before x after,
    l = before ++ x :: after /\ List.length before = i /\ f x = true /\
    forall y, In y before -> f y = false.
Proof.
  revert i. induction l as [|x l IH]; simpl; intros i; [discriminate|].
  destruct (f x) eqn:Fx.
  - intros H. injection H as <-. exists [], x, l. repeat split; auto.
    intros y [].
  - destruct (findIndex f l) as [j|]; [|discriminate].
    intros H. injection H as <-.
    destruct (IH j eq_refl) as (before & y & after & -> & Hlen & Hy & Hb).
    exists (x :: before), y, after. repeat split; simpl; auto.
    intros z [<-|Hz]; auto.
Qed.



(** X18.  After [deleteProduct] no product with that id is left and the
    others stay in their order; deleting a product that was just added
    under an id that no other product has gives back the earlier list. *)
Theorem deleteProduct_removes (productId : string) (product : Product)
    (st : AppStore) :
  (forall p, In p (getProducts (deleteProduct productId st)) <->
             In p (getProducts st) /\ id p <> productId) /\
  ((forall p, In p (getProducts st) -> id p <> id product) ->
   getProducts (deleteProduct (id product) (addProduct product st))
   = getProducts st).
Proof.
  split.
  - intros p.
    change (getProducts (deleteProduct productId st))
      with (filter (fun q => negb (String.eqb (id q) productId))
                   (getProducts st)).
    rewrite filter_In, negb_true_iff, String.eqb_neq. reflexivity.
  - intros Hfresh.
    change (getProducts (deleteProduct (id product) (addProduct product st)))
      with (filter (fun q => negb (String.eqb (id q) (id product)))
                   (getProducts st ++ [product])).
    rewrite filter_app. cbn [filter]. rewrite String.eqb_refl. cbn [negb].
    rewrite app_nil_r.
    induction (getProducts st) as [|q l IH]; simpl; [reflexivity|].
    assert (Hq : String.eqb (id q) (id product) = false)
      by (apply String.eqb_neq, Hfresh; left; reflexivity).
    rewrite Hq. simpl. f_equal. apply IH.
    intros p Hp. apply Hfresh. right. exact Hp.
Qed.

Lemma flipChecked_involutive i : flipChecked (flipChecked i) = i.
Proof. destruct i. unfold flipChecked. simpl. rewrite negb_involutive.
  reflexivity. Qed.

(** X19.  Toggling the same shopping item twice restores the store: the same
    item is found both times and its mark is back where it was.  An id that
    is not on the list changes nothing. *)
Theorem toggleShoppingItem_twice (itemId : string) (st : AppStore) :
  toggleShoppingItem itemId (toggleShoppingItem itemId st) = st /\
  ((forall i, In i (getShoppingList st) -> si_id i <> itemId) ->
   toggleShoppingItem itemId st = st).
Proof.
  unfold toggleShoppingItem.
  destruct (findIndex (fun i => String.eqb (si_id i) itemId)
              (getShoppingList st)) as [index|] eqn:E.
  - destruct (findIndex_split _ _ _ E)
      as (before & x & after & El & Hlen & Hx & Hb).
    split.
    + subst index.
      assert (Eget : forall l, getShoppingList (saveShoppingList l st) = l)
        by reflexivity.
      rewrite Eget, El, updateAt_middle.
      rewrite findIndex_first; [|exact Hb | exact Hx].
      rewrite updateAt_middle, flipChecked_involutive, <- El.
      destruct st as [r ps sl ob key].
      unfold saveShoppingList, getShoppingList in *. cbn in *.
      destruct sl as [data|]; [reflexivity|].
      destruct before; discriminate El.
    + intros Hno. exfalso. apply (Hno x).
      * rewrite El. apply in_or_app. right. left. reflexivity.
      * apply String.eqb_eq, Hx.
  - rewrite E. split; reflexivity.
Qed.

(** X20.  [clearCheckedItems] keeps exactly the unchecked items, in their
    order; a second call changes nothing; and the number of items left is
    the hook's [totalCount] less its [checkedCount]. *)
Theorem clearCheckedItems_counts (st : AppStore) :
  let items := getShoppingList st in
  let left := getShoppingList (clearCheckedItems st) in
  (forall i, In i left <-> In i items /\ si_checked i = false) /\
  clearCheckedItems (clearCheckedItems st) = clearCheckedItems st /\
  (List.length left + checkedCount items = totalCount items)%nat /\
  checkedCount left = 0%nat.
Proof.
  intros items left.
  set (unchecked := fun i : ShoppingItem => negb (si_checked i)).
  assert (Hidem : forall l, filter unchecked (filter unchecked l)
                            = filter unchecked l).
  { induction l as [|x l IH]; [reflexivity|]. cbn [filter].
    destruct (unchecked x) eqn:Hx; [|exact IH].
    cbn [filter]. rewrite Hx, IH. reflexivity. }
  assert (Hcount : forall l,
            (List.length (filter unchecked l) + checkedCount l
             = totalCount l)%nat).
  { unfold checkedCount, totalCount, unchecked.
    induction l as [|x l IH]; [reflexivity|]. cbn [filter].
    destruct (si_checked x); cbn [negb List.length] in *; lia. }
  assert (Hnone : forall l, checkedCount (filter unchecked l) = 0%nat).
  { unfold checkedCount, unchecked.
    induction l as [|x l IH]; [reflexivity|]. cbn [filter].
    destruct (si_checked x) eqn:Hx; cbn [negb]; [exact IH|].
    cbn [filter]. rewrite Hx. exact IH. }
  change left with (filter unchecked items).
  split; [|split; [|split]].
  - intros i. rewrite filter_In. unfold unchecked.
    rewrite negb_true_iff. reflexivity.
  - change (clearCheckedItems (clearCheckedItems st))
      with (saveShoppingList (filter unchecked (filter unchecked items))
              (saveShoppingList (filter unchecked items) st)).
    rewrite Hidem. reflexivity.
  - apply Hcount.
  - apply Hnone.
Qed.

(** After [clearAllData] every collection reads as empty, onboarding
    reads as not completed and the statistics read as the built-in defaults
    (2450 som saved, 8 recipes and so on, not zero), while the API key that
    the user stored is still there. *)
Theorem clearAllData_defaults (loadedAt : string) (st : AppStore) :
  let st' := clearAllData st in
  getProducts st' = [] /\
  getShoppingList st' = [] /\
  getSavedRecipes (recipes st') = [] /\
  getRecipeHistory (recipes st') = [] /\
  getOnboardingState st' = {| completed := false; currentStep := 0 |} /\
  getUserStats loadedAt (recipes st') = defaultStats loadedAt /\
  moneySaved (getUserStats loadedAt (recipes st')) = 2450%float /\
  API_KEY_STORAGE st' = API_KEY_STORAGE st.
Proof. repeat split. Qed.

(** X21.  [addProducts] of the hook appends the new products after the
    stored ones, in their order; it stores what adding them one at a time
    with [addProduct] stores. *)
Theorem addProducts_one_by_one (newProducts : list Product) (st : AppStore) :
  getProducts (addProducts newProducts st)
  = (getProducts st ++ newProducts)%list /\
  addProducts newProducts st
  = match newProducts with
    | [] => saveProducts (getProducts st) st
    | _ => fold_left (fun s p => addProduct p s) newProducts st
    end.
Proof.
  split; [reflexivity|].
  destruct newProducts as [|p l].
  - unfold addProducts. rewrite app_nil_r. reflexivity.
  - revert p st. induction l as [|q l IH]; intros p st.
    + reflexivity.
    + change (fold_left (fun s p0 => addProduct p0 s) (p :: q :: l) st)
        with (fold_left (fun s p0 => addProduct p0 s) (q :: l)
                (addProduct p st)).
      rewrite <- IH. unfold addProducts, addProduct.
      assert (Eget : forall l s, getProducts (saveProducts l s) = l)
        by reflexivity.
      rewrite Eget, <- app_assoc. reflexivity.
Qed.

End StorageExtraFacts.

(** ** Saved recipes, history and statistics: how the operations compose *)

Module RecipeStoreFacts.
#[local] Set Warnings "-inexact-float".
Import Js Api Storage Hooks StorageFacts.
Local Open Scope list_scope.

Lemma isRecipeSaved_In saved x :
  isRecipeSaved saved x = true <-> In x (map id saved).
Proof. apply existsb_sameId_In. Qed.

Lemma filter_other_ids x (l : list Recipe) :
  ~ In x (map id l) ->
  filter (fun r => negb (String.eqb (id r) x)) l = l.
Proof.
  induction l as [|r l IH]; simpl; intros H; [reflexivity|].
  destruct (String.eqb (id r) x) eqn:E.
  - apply String.eqb_eq in E. exfalso. apply H. left. exact E.
  - simpl. f_equal. apply IH. intros Hin. apply H. right. exact Hin.
Qed.

(** X22.  The save button flips the saved status of the recipe, whatever
    the collection holds.  Pressed twice on a recipe that was not saved it
    leaves the saved collection as it was; and each press keeps a collection
    without repeated ids free of them. *)
Theorem handleToggleSave_flips (recipe : Recipe) (t1 t2 : string)
    (st : Store) :
  let saved := getSavedRecipes st in
  let once := handleToggleSave recipe t1 st in
  isRecipeSaved (getSavedRecipes once) (id recipe)
  = negb (isRecipeSaved saved (id recipe)) /\
  (isRecipeSaved saved (id recipe) = false ->
   getSavedRecipes (handleToggleSave recipe t2 once) = saved) /\
  (NoDup (map id saved) -> NoDup (map id (getSavedRecipes once))).
Proof.
  intros saved once. unfold once, handleToggleSave. fold saved.
  destruct (isRecipeSaved saved (id recipe)) eqn:E.
  - change (getSavedRecipes (removeSavedRecipe (id recipe) st))
      with (filter (fun r => negb (String.eqb (id r) (id recipe))) saved).
    split; [|split].
    + simpl. apply not_true_is_false. intros H.
      apply isRecipeSaved_In in H. revert H. apply in_ids_filter.
    + discriminate.
    + apply NoDup_ids_filter.
  - assert (Hnot : ~ In (id recipe) (map id saved)).
    { intros H. apply isRecipeSaved_In in H. congruence. }
    assert (Es : getSavedRecipes (saveRecipe recipe t1 st)
                 = withSavedAt recipe t1 :: saved).
    { unfold saveRecipe. fold saved.
      change (existsb (fun r => String.eqb (id r) (id recipe)) saved)
        with (isRecipeSaved saved (id recipe)).
      rewrite E. reflexivity. }
    split; [|split].
    + rewrite Es. simpl. rewrite String.eqb_refl. reflexivity.
    + intros _. rewrite Es.
      assert (Ei : isRecipeSaved (withSavedAt recipe t1 :: saved) (id recipe)
                   = true).
      { simpl. rewrite String.eqb_refl. reflexivity. }
      rewrite Ei.
      change (getSavedRecipes
                (removeSavedRecipe (id recipe) (saveRecipe recipe t1 st)))
        with (filter (fun r => negb (String.eqb (id r) (id recipe)))
                     (getSavedRecipes (saveRecipe recipe t1 st))).
      rewrite Es. cbn [filter]. change (id (withSavedAt recipe t1))
        with (id recipe). rewrite String.eqb_refl. cbn [negb].
      apply filter_other_ids, Hnot.
    + intros Hnd. rewrite Es. simpl. constructor; assumption.
Qed.

(** X23.  While the history holds fewer than 50 recipes nothing is lost by
    an addition: the new history is the recipe followed by the earlier
    entries with another id, in their order.  A full history that receives
    a recipe with a new id loses exactly its last entry. *)
Theorem addToRecipeHistory_below_cap (recipe : Recipe) (st : Store) :
  let history := getRecipeHistory st in
  ((List.length history < 50)%nat ->
   getRecipeHistory (addToRecipeHistory recipe st)
   = recipe :: filter (fun r => negb (String.eqb (id r) (id recipe))) history)
  /\
  (~ In (id recipe) (map id history) ->
   List.length history = 50%nat ->
   getRecipeHistory (addToRecipeHistory recipe st)
   = recipe :: removelast history).
Proof.
  intros history. rewrite getRecipeHistory_add. fold history. split.
  - intros Hlen. f_equal. apply firstn_all2.
    pose proof (filter_length_le
                  (fun r => negb (String.eqb (id r) (id recipe))) history).
    lia.
  - intros Hnew Hlen. f_equal. rewrite (filter_other_ids _ _ Hnew).
    rewrite removelast_firstn_len, Hlen. reflexivity.
Qed.

(** X24.  Increments add up in the order of the calls: after two calls on
    the same key the field is the old value plus the first amount, plus the
    second, each sum rounded to a double (the sums being numbers that JSON
    can hold); and two calls on different keys leave the same five numbers
    in either order. *)
Theorem incrementStat_accumulates (loadedAt : string) (k1 k2 : StatKey)
    (a b : JsDouble.number) (t1 t2 : string) (st : Store) :
  let old := statOf k1 (getUserStats loadedAt st) in
  (JsDouble.storable (JsDouble.add old a) = true ->
   JsDouble.storable (JsDouble.add (JsDouble.add old a) b) = true ->
   statOf k1 (getUserStats loadedAt
                (incrementStat loadedAt k1 b t2
                   (incrementStat loadedAt k1 a t1 st)))
   = JsDouble.add (JsDouble.add old a) b) /\
  (k1 <> k2 ->
   forall k,
     statOf k (getUserStats loadedAt
                 (incrementStat loadedAt k2 b t2
                    (incrementStat loadedAt k1 a t1 st)))
     = statOf k (getUserStats loadedAt
                   (incrementStat loadedAt k1 a t2
                      (incrementStat loadedAt k2 b t1 st)))).
Proof.
  intros old. split.
  - intros _ _. destruct k1; reflexivity.
  - intros Hne k. destruct k1, k2, k; try reflexivity; contradiction.
Qed.

(** The soup, saved and unsaved again. *)
Lemma handleToggleSave_flips_witness :
  isRecipeSaved (getSavedRecipes Sample.emptyStore) (id Sample.soup) = false /\
  getSavedRecipes
    (handleToggleSave Sample.soup "2026-11-02T10:21:00.000Z"
       (handleToggleSave Sample.soup "2026-11-02T10:20:00.000Z"
          Sample.emptyStore))
  = getSavedRecipes Sample.emptyStore.
Proof.
  split; [reflexivity|].
  apply (proj1 (proj2 (handleToggleSave_flips Sample.soup
                         "2026-11-02T10:20:00.000Z"
                         "2026-11-02T10:21:00.000Z" Sample.emptyStore))).
  reflexivity.
Defined.

Lemma addToRecipeHistory_below_cap_witness :
  getRecipeHistory
    (addToRecipeHistory Sample.soupAgain
       (addToRecipeHistory Sample.plov
          (addToRecipeHistory Sample.soup Sample.emptyStore)))
  = [Sample.soupAgain; Sample.plov].
Proof.
  rewrite (proj1 (addToRecipeHistory_below_cap Sample.soupAgain
                    (addToRecipeHistory Sample.plov
                       (addToRecipeHistory Sample.soup Sample.emptyStore)))).
  - reflexivity.
  - simpl. lia.
Defined.

(** From a fresh installation: two cooking times, 0.1 and 0.2, make 180
    into 180.29999999999998, and not into the 180.30000000000001 that 180
    plus the sum of the two would be; a recipe counted and a cooking time
    credited commute. *)
Lemma incrementStat_accumulates_witness :
  statOf KTimeSaved
    (getUserStats Sample.loadedAt
       (incrementStat Sample.loadedAt KTimeSaved 0.2%float "t2"
          (incrementStat Sample.loadedAt KTimeSaved 0.1%float "t1"
             Sample.emptyStore)))
  = 180.29999999999998%float /\
  JsDouble.add 180%float (JsDouble.add 0.1%float 0.2%float)
  = 180.30000000000001%float /\
  KRecipesGenerated <> KTimeSaved /\
  statOf KTimeSaved
    (getUserStats Sample.loadedAt
       (incrementStat Sample.loadedAt KTimeSaved 30%float "t2"
          (incrementStat Sample.loadedAt KRecipesGenerated 1%float "t1"
             Sample.emptyStore)))
  = statOf KTimeSaved
      (getUserStats Sample.loadedAt
         (incrementStat Sample.loadedAt KRecipesGenerated 1%float "t2"
            (incrementStat Sample.loadedAt KTimeSaved 30%float "t1"
               Sample.emptyStore))).
Proof.
  assert (Hne : KRecipesGenerated <> KTimeSaved) by discriminate.
  split.
  { rewrite (proj1 (incrementStat_accumulates Sample.loadedAt KTimeSaved
                      KTimeSaved 0.1%float 0.2%float "t1" "t2"
                      Sample.emptyStore));
      reflexivity. }
  split; [reflexivity|]. split; [exact Hne|].
  exact (proj2 (incrementStat_accumulates Sample.loadedAt KRecipesGenerated
                  KTimeSaved 1%float 30%float "t1" "t2" Sample.emptyStore)
               Hne KTimeSaved).
Defined.

End RecipeStoreFacts.

(** ** The API key *)

Module ApiKeyFacts.
Import Js StorageExtra ApiKeyContext.

Section WithBuiltIn.

Variable BUILT_IN_API_KEY : JsString.str.

Lemma nonEmpty_length s : 0 < JsString.length s -> nonEmpty s = true.
Proof. destruct s; [unfold JsString.length; simpl; lia | reflexivity]. Qed.

(** X25.  [setApiKey] accepts a key whose trimmed length is at least 10 and
    stores the trimmed key.  The rest of the module asks for more than 10:
    a key of more than 10 characters counts as configured and is the active
    key after a restart, but a key of exactly 10 characters, although
    accepted and stored, does not count as configured and is ignored by the
    next start, which falls back to the built-in key. *)
Theorem setApiKey_boundary (key : JsString.str) (st st' : AppStore)
    (s s' : KeyState) :
  setApiKey key st s = Ok (st', s') ->
  let trimmed := JsString.trim key in
  let restarted := loadApiKey BUILT_IN_API_KEY st'
                     (initialState BUILT_IN_API_KEY) in
  API_KEY_STORAGE st' = Some trimmed /\
  apiKey s' = trimmed /\
  10 <= JsString.length trimmed /\
  (10 < JsString.length trimmed ->
   isConfigured s' = true /\
   apiKey restarted = trimmed /\ isBuiltIn restarted = false) /\
  (JsString.length trimmed = 10 ->
   isConfigured s' = false /\
   apiKey restarted = BUILT_IN_API_KEY /\
   isConfigured restarted = isConfigured (initialState BUILT_IN_API_KEY)).
Proof.
  unfold setApiKey.
  destruct (negb (nonEmpty key) || (JsString.length (JsString.trim key) <? 10))
    eqn:E; [discriminate|].
  apply orb_false_iff in E. destruct E as (_ & Hlen). apply Z.ltb_ge in Hlen.
  intros H. injection H as <- <-.
  set (trimmed := JsString.trim key) in *.
  unfold loadApiKey, isConfigured.
  cbn [API_KEY_STORAGE apiKey isBuiltIn].
  split; [reflexivity|]. split; [reflexivity|]. split; [exact Hlen|]. split.
  - intros Hgt.
    assert (E : (10 <? JsString.length trimmed) = true)
      by (apply Z.ltb_lt; exact Hgt).
    rewrite E, nonEmpty_length by lia. repeat split.
  - intros Heq.
    assert (E : (10 <? JsString.length trimmed) = false)
      by (apply Z.ltb_ge; lia).
    rewrite E, andb_false_r. split; [reflexivity|].
    unfold initialState.
    destruct (nonEmpty BUILT_IN_API_KEY); split; reflexivity.
Qed.

End WithBuiltIn.

(** A key of ten characters between blanks. *)
Lemma setApiKey_boundary_witness :
  exists st' s',
    setApiKey Kitchen.tenChars Kitchen.store (initialState Kitchen.builtIn)
    = Ok (st', s') /\
    API_KEY_STORAGE st' = Some (JsString.utf16 "AIza567890") /\
    isConfigured s' = false /\
    apiKey (loadApiKey Kitchen.builtIn st' (initialState Kitchen.builtIn))
    = Kitchen.builtIn.
Proof.
  destruct (setApiKey Kitchen.tenChars Kitchen.store
              (initialState Kitchen.builtIn)) as [[st' s']|e] eqn:H;
    [|vm_compute in H; discriminate H].
  destruct (setApiKey_boundary Kitchen.builtIn Kitchen.tenChars Kitchen.store
              st' (initialState Kitchen.builtIn) s' H)
    as (Hs & _ & _ & _ & Hten).
  exists st', s'. split; [reflexivity|]. split; [exact Hs|].
  destruct (Hten ltac:(vm_compute; reflexivity)) as (Hc & Hk & _).
  split; assumption.
Defined.

Example setApiKey_eleven :
  exists st' s',
    setApiKey Kitchen.elevenChars Kitchen.store (initialState Kitchen.builtIn)
    = Ok (st', s') /\
    isConfigured s' = true /\
    apiKey (loadApiKey Kitchen.builtIn st' (initialState Kitchen.builtIn))
    = JsString.utf16 "AIza5678901".
Proof. vm_compute. do 2 eexists. repeat split; reflexivity. Qed.

End ApiKeyFacts.

(** ** The sample store at work *)

Module KitchenFacts.
Import Js Helpers Storage StorageExtra Hooks StorageExtraFacts.
Local Open Scope list_scope.


Lemma deleteProduct_removes_witness :
  getProducts (deleteProduct (id Sample.odd)
                 (addProduct Sample.odd Kitchen.store))
  = getProducts Kitchen.store.
Proof.
  apply (proj2 (deleteProduct_removes "s4" Sample.odd Kitchen.store)).
  intros p [<-|[<-|[<-|[]]]]; discriminate.
Defined.

Lemma toggleShoppingItem_twice_witness :
  getShoppingList (toggleShoppingItem "i2" Kitchen.store)
  = [Kitchen.rice; Kitchen.item "i2" "Морковь" false; Kitchen.onions] /\
  toggleShoppingItem "i2" (toggleShoppingItem "i2" Kitchen.store)
  = Kitchen.store /\
  toggleShoppingItem "i7" Kitchen.store = Kitchen.store.
Proof.
  destruct (toggleShoppingItem_twice "i2" Kitchen.store) as (Htwice & _).
  destruct (toggleShoppingItem_twice "i7" Kitchen.store) as (_ & Habsent).
  split; [reflexivity|]. split; [exact Htwice|].
  apply Habsent. intros i [<-|[<-|[<-|[]]]]; discriminate.
Defined.

Example clearCheckedItems_sample :
  getShoppingList (clearCheckedItems Kitchen.store)
  = [Kitchen.rice; Kitchen.onions] /\
  checkedCount (getShoppingList Kitchen.store) = 1%nat /\
  totalCount (getShoppingList Kitchen.store) = 3%nat.
Proof. repeat split. Qed.

(** A chicken soup is a soup, a salad with chicken a salad, and a title
    without any keyword a meal. *)
Example getFoodImage_sample :
  ApiExtra.categoryOf (JsString.utf16 "куриный суп")
    ApiExtra.FOOD_IMAGE_CATEGORIES = "soup" /\
  ApiExtra.categoryOf (JsString.utf16 "салат с курицей")
    ApiExtra.FOOD_IMAGE_CATEGORIES = "salad" /\
  ApiExtra.categoryOf (JsString.utf16 "манты")
    ApiExtra.FOOD_IMAGE_CATEGORIES = "meal" /\
  ApiExtra.hashCode (JsString.utf16 "манты") = 1034110290 /\
  ApiExtra.hashCode (JsString.utf16 "куриный суп") = 2027090713 /\
  ApiExtra.getFoodImage (fun s => s) (JsString.utf16 "манты")
  = Ok (Some "homemade_meal_dinner_adca86b1.jpg").
Proof. vm_compute. repeat split; reflexivity. Qed.

End KitchenFacts.
